(** * Prompt-engineering engine of the AI validation servers

    A shallow embedding of the analysis and rewriting pipeline found in
    [ai_validation_mcp.py] (the MCP tool server) and in [mcp_server.py]
    (the HTTP server), together with the properties of the engine that
    its specification states.

    Conventions of the embedding:
    - a Python [str] is a [string] holding its UTF-8 bytes; [len]
      counts code points; [lower], [title] and [split] know the ASCII
      letters and the ASCII white space, which is exact for ASCII
      prompts;
    - a Python [int] is a [nat] where it is a count, and a [Z] where it
      enters arithmetic;
    - a Python [float] is an IEEE 754 binary64 number, [spec_float] at
      precision 53 and maximal exponent 1024, with the operations of
      [SpecFloat] (round to nearest, ties to even);
    - a dict with a fixed set of keys is a record, a key that may be
      absent is an [option] field;
    - a list that the code extends with [append] is a [list] extended
      on the right. *)

From Stdlib Require Import ZArith List String Ascii Bool Lia DecimalString.
From Stdlib Require Import Floats.
Import ListNotations.

Set Warnings "-inexact-float".

Open Scope string_scope.
Open Scope nat_scope.

(* ================================================================== *)
(** ** Python strings *)

Module PyStr.

(** The double-quote character and the line feed, for the fixed texts. *)
Definition dq : string := String (ascii_of_nat 34) EmptyString.
Definition nl : string := String (ascii_of_nat 10) EmptyString.

(** [c.isspace()] on the ASCII range: tab, line feed, vertical tab,
    form feed, carriage return, the four separators 0x1c-0x1f and
    space. *)
Definition isspace (c : ascii) : bool :=
  let n := nat_of_ascii c in
  ((9 <=? n) && (n <=? 13)) || ((28 <=? n) && (n <=? 32)).

Definition isupper (c : ascii) : bool :=
  let n := nat_of_ascii c in (65 <=? n) && (n <=? 90).

Definition islower (c : ascii) : bool :=
  let n := nat_of_ascii c in (97 <=? n) && (n <=? 122).

(** [c.lower()] and [c.upper()] on the ASCII range. *)
Definition lower_char (c : ascii) : ascii :=
  if isupper c then ascii_of_nat (nat_of_ascii c + 32) else c.

Definition upper_char (c : ascii) : ascii :=
  if islower c then ascii_of_nat (nat_of_ascii c - 32) else c.

(** [s.lower()] *)
Fixpoint lower (s : string) : string :=
  match s with
  | EmptyString => EmptyString
  | String c s' => String (lower_char c) (lower s')
  end.

(** [s.title()]: a letter that follows a letter is lowered, any other
    letter is raised. *)
Fixpoint title_from (after_letter : bool) (s : string) : string :=
  match s with
  | EmptyString => EmptyString
  | String c s' =>
      String (if after_letter then lower_char c else upper_char c)
             (title_from (isupper c || islower c) s')
  end.

Definition title (s : string) : string := title_from false s.

(** [len(s)]: the number of code points, that is of bytes that do not
    continue a UTF-8 sequence. *)
Definition is_continuation (c : ascii) : bool :=
  let n := nat_of_ascii c in
  (128 <=? n) && (n <=? 191).

Fixpoint len (s : string) : nat :=
  match s with
  | EmptyString => 0
  | String c s' => (if is_continuation c then 0 else 1) + len s'
  end.

(** [s.startswith(p)] *)
Fixpoint startswith (p s : string) : bool :=
  match p, s with
  | EmptyString, _ => true
  | String _ _, EmptyString => false
  | String a p', String b s' => Ascii.eqb a b && startswith p' s'
  end.

(** [sub in s] *)
Fixpoint contains (sub s : string) : bool :=
  startswith sub s ||
  match s with
  | EmptyString => false
  | String _ s' => contains sub s'
  end.

(** [s.count(c)] for a one-character needle. *)
Fixpoint count (c : ascii) (s : string) : nat :=
  match s with
  | EmptyString => 0
  | String a s' => (if Ascii.eqb a c then 1 else 0) + count c s'
  end.

(** [s.split()]: the maximal runs of characters that are not white
    space, in order.  [cur] is the word being read, in reverse. *)
Fixpoint rev_string (acc s : string) : string :=
  match s with
  | EmptyString => acc
  | String c s' => rev_string (String c acc) s'
  end.

Definition flush (cur : string) (words : list string) : list string :=
  match cur with
  | EmptyString => words
  | _ => rev_string EmptyString cur :: words
  end.

Fixpoint split_from (cur : string) (s : string) : list string :=
  match s with
  | EmptyString => flush cur []
  | String c s' =>
      if isspace c then flush cur (split_from EmptyString s')
      else split_from (String c cur) s'
  end.

Definition split (s : string) : list string := split_from EmptyString s.

(** [sep.join(xs)] *)
Fixpoint join (sep : string) (xs : list string) : string :=
  match xs with
  | [] => EmptyString
  | [x] => x
  | x :: rest => x ++ sep ++ join sep rest
  end.

(** [x in xs] for a list of strings. *)
Definition mem (x : string) (xs : list string) : bool :=
  existsb (String.eqb x) xs.

(** Truth value of a string: it is not empty. *)
Definition truthy (s : string) : bool :=
  match s with EmptyString => false | _ => true end.

End PyStr.

(* ================================================================== *)
(** ** Python floats: IEEE 754 binary64 *)

Module PyFloat.

Definition prec : Z := 53.
Definition emax : Z := 1024.

Definition float : Type := spec_float.

(** A float literal of the source: the binary64 number nearest to the
    decimal. *)
Definition lit (x : PrimFloat.float) : float := Prim2SF x.

Definition add : float -> float -> float := SFadd prec emax.
Definition sub : float -> float -> float := SFsub prec emax.
Definition mul : float -> float -> float := SFmul prec emax.
Definition div : float -> float -> float := SFdiv prec emax.

Definition ltb : float -> float -> bool := SFltb.
Definition leb : float -> float -> bool := SFleb.
Definition eqb : float -> float -> bool := SFeqb.

(** [float(n)] for an int [n]: the nearest binary64 number.  This is
    the conversion that [n * x] applies to its int operand. *)
Definition of_int (n : Z) : float := binary_normalize prec emax n 0 false.

(** An int as an exact mantissa with exponent 0, not normalised. *)
Definition exact_int (n : Z) : float :=
  match n with
  | Z0 => S754_zero false
  | Zpos p => S754_finite false p 0
  | Zneg p => S754_finite true p 0
  end.

(** [a / b] for ints: the correctly rounded quotient.  The division of
    [SpecFloat] divides the integer mantissas and rounds once, whatever
    their size.  Python raises ZeroDivisionError when [b = 0]; the
    analyzer only divides by [max(10, _)]. *)
Definition int_truediv (a b : Z) : float := div (exact_int a) (exact_int b).

(** [min(a, b)] of Python: the first argument is kept unless the second
    is strictly smaller. *)
Definition min (a b : float) : float := if ltb b a then b else a.

End PyFloat.

Declare Scope pyfloat_scope.
Delimit Scope pyfloat_scope with py.
Notation "x + y" := (PyFloat.add x y) : pyfloat_scope.
Notation "x - y" := (PyFloat.sub x y) : pyfloat_scope.
Notation "x * y" := (PyFloat.mul x y) : pyfloat_scope.
Notation "x <? y" := (PyFloat.ltb x y) : pyfloat_scope.
Notation "x <=? y" := (PyFloat.leb x y) : pyfloat_scope.
Notation "x =? y" := (PyFloat.eqb x y) : pyfloat_scope.
Notation "# x" := (PyFloat.lit x%float) (at level 1, format "# x") : pyfloat_scope.

(* ================================================================== *)
(** ** Lists and dicts *)

(** [max(a, b)] on ints: the first argument is kept unless the second
    is strictly greater. *)
Definition int_max (a b : nat) : nat := if a <? b then b else a.

(** [xs.append(x)] *)
Definition append {A : Type} (xs : list A) (x : A) : list A := (xs ++ [x])%list.

(** [d.get(key, default)], for a key that may be absent. *)
Definition get {A : Type} (field : option A) (default : A) : A :=
  match field with Some v => v | None => default end.

(** Truth value of a list: it is not empty. *)
Definition truthy_list {A : Type} (xs : list A) : bool :=
  match xs with [] => false | _ => true end.

(* ================================================================== *)
(** ** The fixed texts

    The texts are the same in both servers, [structure_template]
    excepted. *)

Module Texts.
Import PyStr.

(** [expert_prompt], the persona preamble of rule [expert_system]. *)
Definition expert_prompt : string :=
  "You are a world-class prompt engineering expert with extensive knowledge in AI systems, language models, and optimization techniques. Your role is to help users create, analyze, and optimize prompts for maximum effectiveness across different AI models." ++ nl ++
  nl ++
  "Your Core Identity:" ++ nl ++
  "- Act as a seasoned practitioner with deep understanding of LLM behavior and capabilities" ++ nl ++
  "- Communicate complex strategies with clarity and precision" ++ nl ++
  "- Approach optimization systematically and methodically" ++ nl ++
  "- Break down advanced techniques into actionable steps" ++ nl ++
  nl ++
  "Your communication style should be:" ++ nl ++
  "- Technical yet accessible, using industry terminology appropriately" ++ nl ++
  "- Evidence-based with references to proven techniques and methodologies" ++ nl ++
  "- Focused on iterative refinement and optimization" ++ nl ++
  "- Rich with concrete examples from various AI models and use cases" ++ nl ++
  nl.

(** The label between the preamble and the text so far. *)
Definition user_request_label : string :=
  nl ++
  nl ++
  "User Request:" ++ nl.

(** [cot_instruction] of rule [chain_of_thought]. *)
Definition cot_instruction : string :=
  nl ++
  nl ++
  "Think through this step-by-step:" ++ nl ++
  "1. First, analyze the core challenge or opportunity" ++ nl ++
  "2. Consider which prompt engineering methods apply and why" ++ nl ++
  "3. Structure your response with clear reasoning" ++ nl ++
  "4. Provide concrete, testable examples" ++ nl ++
  "5. Explain the rationale behind your approach".

(** The header under which rule [few_shot] appends its examples. *)
Definition few_shot_header : string :=
  nl ++
  nl ++
  "Here are some examples of excellent responses:" ++ nl ++
  nl.

(** The two coding examples. *)
Definition few_shot_code : string :=
  "Example 1: " ++ nl ++
  "Q: " ++ dq ++ "How do I implement a binary search?" ++ dq ++ nl ++
  "A: " ++ dq ++ "Here's a clean Python implementation with explanation..." ++ dq ++ nl ++
  nl ++
  "Example 2:" ++ nl ++
  "Q: " ++ dq ++ "Optimize this SQL query" ++ dq ++ nl ++
  "A: " ++ dq ++ "I'll analyze your query and provide 3 specific optimizations..." ++ dq ++ nl.

(** The two writing examples. *)
Definition few_shot_writing : string :=
  "Example 1:" ++ nl ++
  "Q: " ++ dq ++ "Write a product description" ++ dq ++ nl ++
  "A: " ++ dq ++ "I'll create a compelling description focusing on benefits, features, and emotional appeal..." ++ dq ++ nl ++
  nl ++
  "Example 2:" ++ nl ++
  "Q: " ++ dq ++ "Improve this email" ++ dq ++ nl ++
  "A: " ++ dq ++ "Here's the enhanced version with better structure and persuasive language..." ++ dq ++ nl.

(** The five expert roles, in the priority order of the lookup. *)
Definition role_software : string :=
  "a senior software engineer with 10+ years of experience in multiple programming languages and best practices".

Definition role_copywriter : string :=
  "an expert copywriter and content strategist with deep understanding of persuasive writing".

Definition role_analyst : string :=
  "a data analyst and research expert skilled in systematic analysis and insight generation".

Definition role_designer : string :=
  "a senior UX/UI designer with expertise in user-centered design and interface optimization".

Definition role_consultant : string :=
  "a business strategy consultant with extensive experience in strategic planning and execution".

(** [structure_template] of rule [structured_output], as the MCP tool server has it. *)
Definition structure_template : string :=
  nl ++
  nl ++
  "Structure your response as follows:" ++ nl ++
  nl ++
  "🔍 Quick Assessment (1-2 sentences):" ++ nl ++
  "Identify the core challenge or opportunity" ++ nl ++
  nl ++
  "⚡ Technique Recommendation:" ++ nl ++
  "Explain which prompt engineering methods apply and why" ++ nl ++
  nl ++
  "💡 Improved Prompt Example:" ++ nl ++
  "Provide a concrete, testable prompt the user can copy immediately" ++ nl ++
  nl ++
  "🧠 Rationale:" ++ nl ++
  "Explain the reasoning behind your approach and technique choices" ++ nl ++
  nl ++
  "🔄 Variations & Testing:" ++ nl ++
  "Suggest alternative approaches and testing strategies" ++ nl.

(** [structure_template] as the HTTP server has it: one leading line feed, not two. *)
Definition structure_template_http : string :=
  nl ++
  "Structure your response as follows:" ++ nl ++
  nl ++
  "🔍 Quick Assessment (1-2 sentences):" ++ nl ++
  "Identify the core challenge or opportunity" ++ nl ++
  nl ++
  "⚡ Technique Recommendation:" ++ nl ++
  "Explain which prompt engineering methods apply and why" ++ nl ++
  nl ++
  "💡 Improved Prompt Example:" ++ nl ++
  "Provide a concrete, testable prompt the user can copy immediately" ++ nl ++
  nl ++
  "🧠 Rationale:" ++ nl ++
  "Explain the reasoning behind your approach and technique choices" ++ nl ++
  nl ++
  "🔄 Variations & Testing:" ++ nl ++
  "Suggest alternative approaches and testing strategies" ++ nl.

(** The three model notes. *)
Definition note_gpt : string :=
  "Note: This prompt is optimized for GPT models. Consider using structured formatting and clear role definitions for best results.".

Definition note_claude : string :=
  "Note: This prompt is optimized for Claude. Leverage its strength in detailed analysis and nuanced reasoning.".

Definition note_gemini : string :=
  "Note: This prompt is optimized for Gemini. Take advantage of its multimodal capabilities and factual accuracy.".

(** [clarity_instruction] of rule [enhance_clarity]. *)
Definition clarity_instruction : string :=
  nl ++
  nl ++
  "IMPORTANT: Be specific, actionable, and include concrete examples. Avoid vague language and provide step-by-step guidance where applicable.".

(** [testing_guidance] of rule [add_testing]. *)
Definition testing_guidance : string :=
  nl ++
  nl ++
  "Testing Recommendations:" ++ nl ++
  "- A/B test different prompt variations" ++ nl ++
  "- Measure response quality against specific success metrics" ++ nl ++
  "- Test with different temperature settings" ++ nl ++
  "- Validate across multiple model runs for consistency" ++ nl ++
  "- Document what works best for similar use cases" ++ nl.

(** The five recommendations. *)
Definition rec_clarity : string :=
  "Consider adding more specific details and context to improve clarity".

Definition rec_examples : string :=
  "Add concrete examples to illustrate your requirements".

Definition rec_constraints : string :=
  "Define clear constraints or requirements for better results".

Definition rec_structured : string :=
  "Enable 'structured_output' rule for better organization".

Definition rec_reasoning : string :=
  "Enable 'chain_of_thought' rule for step-by-step reasoning".

End Texts.

(* ================================================================== *)
(** ** The analyzer

    [analyze_prompt_structure] and [calculate_optimization_score] have
    the same text in [ai_validation_mcp.py] and in [mcp_server.py]; they
    are embedded once. *)

Module Analysis.
(** The analysis dict, a fixed set of keys. *)
Record t : Type := mk {
  length : nat;
  word_count : nat;
  has_clear_task : bool;
  has_context : bool;
  has_examples : bool;
  has_constraints : bool;
  question_count : nat;
  needs_reasoning : bool;
  needs_examples : bool;
  needs_expertise : bool;
  needs_structure : bool;
  clarity_score : PyFloat.float
}.
End Analysis.

(** [any(word in text for word in words)] *)
Definition any_in (words : list string) (text : string) : bool :=
  existsb (fun word => PyStr.contains word text) words.

(** [[word for word in prompt.split() if len(word) > 3]] *)
Definition long_words (prompt : string) : list string :=
  filter (fun word => 3 <? PyStr.len word) (PyStr.split prompt).

Definition analyze_prompt_structure (prompt : string) : Analysis.t :=
  {| Analysis.length := PyStr.len prompt;
     Analysis.word_count := List.length (PyStr.split prompt);
     Analysis.has_clear_task :=
       any_in ["analyze"; "create"; "explain"; "generate"; "write"; "help"]
              (PyStr.lower prompt);
     Analysis.has_context := 10 <? List.length (PyStr.split prompt);
     Analysis.has_examples :=
       PyStr.contains "example" (PyStr.lower prompt)
       || PyStr.contains "for instance" (PyStr.lower prompt);
     Analysis.has_constraints :=
       any_in ["must"; "should"; "requirement"; "constraint"; "limit"]
              (PyStr.lower prompt);
     Analysis.question_count := PyStr.count "?"%char prompt;
     Analysis.needs_reasoning :=
       any_in ["why"; "how"; "explain"; "analyze"; "compare"]
              (PyStr.lower prompt);
     Analysis.needs_examples :=
       (0 <? PyStr.count "?"%char prompt)
       && (List.length (PyStr.split prompt) <? 20);
     Analysis.needs_expertise :=
       any_in ["code"; "technical"; "programming"; "engineering";
               "scientific"; "medical"; "legal"]
              (PyStr.lower prompt);
     Analysis.needs_structure :=
       (30 <? List.length (PyStr.split prompt))
       || (2 <? PyStr.count "?"%char prompt);
     Analysis.clarity_score :=
       PyFloat.min (#1.0)%py
         (PyFloat.int_truediv
            (Z.of_nat (List.length (long_words prompt)))
            (Z.of_nat (int_max 10 (List.length (PyStr.split prompt)))))
  |}.

(** [generate_recommendations]; [rules] is the requested rule list (the
    HTTP server reads it from [config.get('apply_rules', [])]).  The
    prompt argument is not read. *)
Definition generate_recommendations
  (analysis : Analysis.t) (original_prompt : string) (rules : list string)
  : list string :=
  let recommendations := [] in
  let recommendations :=
    if (Analysis.clarity_score analysis <? #0.5)%py
    then append recommendations Texts.rec_clarity else recommendations in
  let recommendations :=
    if negb (Analysis.has_examples analysis) && Analysis.needs_examples analysis
    then append recommendations Texts.rec_examples else recommendations in
  let recommendations :=
    if negb (Analysis.has_constraints analysis)
       && (20 <? Analysis.word_count analysis)
    then append recommendations Texts.rec_constraints else recommendations in
  let recommendations :=
    if Analysis.needs_structure analysis
       && negb (PyStr.mem "structured_output" rules)
    then append recommendations Texts.rec_structured else recommendations in
  let recommendations :=
    if Analysis.needs_reasoning analysis
       && negb (PyStr.mem "chain_of_thought" rules)
    then append recommendations Texts.rec_reasoning else recommendations in
  recommendations.

(** [calculate_optimization_score] *)
Definition calculate_optimization_score
  (analysis : Analysis.t) (rules_applied : list string) : PyFloat.float :=
  let base_score := (#0.3)%py in
  let base_score :=
    if Analysis.has_clear_task analysis
    then (base_score + #0.2)%py else base_score in
  let base_score :=
    if Analysis.has_context analysis
    then (base_score + #0.1)%py else base_score in
  let base_score :=
    if Analysis.has_examples analysis
    then (base_score + #0.1)%py else base_score in
  let base_score :=
    if Analysis.has_constraints analysis
    then (base_score + #0.1)%py else base_score in
  let rule_bonus :=
    PyFloat.min (#0.2)%py
      (PyFloat.of_int (Z.of_nat (List.length rules_applied)) * #0.04)%py in
  let base_score := (base_score + rule_bonus)%py in
  PyFloat.min (#1.0)%py base_score.

(* ================================================================== *)
(** ** The rule engine

    The engine threads two variables through its eight rules, the text
    so far and the names of the rules applied so far. *)

Module Acc.
Record t : Type := mk {
  engineered_prompt : string;
  rules_applied : list string
}.
End Acc.

(** The steps whose text is the same in both servers, given the value
    of the condition that guards them. *)

Definition apply_expert_system (acc : Acc.t) : Acc.t :=
  {| Acc.engineered_prompt :=
       Texts.expert_prompt ++ Texts.user_request_label
         ++ Acc.engineered_prompt acc;
     Acc.rules_applied := append (Acc.rules_applied acc) "expert_system" |}.

Definition apply_chain_of_thought (acc : Acc.t) : Acc.t :=
  {| Acc.engineered_prompt := Acc.engineered_prompt acc ++ Texts.cot_instruction;
     Acc.rules_applied := append (Acc.rules_applied acc) "chain_of_thought" |}.

Definition apply_few_shot (few_shot_examples : string) (acc : Acc.t) : Acc.t :=
  {| Acc.engineered_prompt :=
       Acc.engineered_prompt acc ++ Texts.few_shot_header ++ few_shot_examples;
     Acc.rules_applied := append (Acc.rules_applied acc) "few_shot" |}.

Definition apply_role_play (role_context : string) (acc : Acc.t) : Acc.t :=
  {| Acc.engineered_prompt :=
       "You are " ++ role_context ++ "." ++ PyStr.nl ++ PyStr.nl
         ++ Acc.engineered_prompt acc;
     Acc.rules_applied := append (Acc.rules_applied acc) "role_play" |}.

Definition apply_structured_output (structure_template : string) (acc : Acc.t)
  : Acc.t :=
  {| Acc.engineered_prompt := Acc.engineered_prompt acc ++ structure_template;
     Acc.rules_applied := append (Acc.rules_applied acc) "structured_output" |}.

Definition apply_model_optimize (model_optimization : string) (acc : Acc.t)
  : Acc.t :=
  {| Acc.engineered_prompt :=
       Acc.engineered_prompt acc ++ PyStr.nl ++ PyStr.nl ++ model_optimization;
     Acc.rules_applied := append (Acc.rules_applied acc) "model_optimize" |}.

Definition apply_enhance_clarity (acc : Acc.t) : Acc.t :=
  {| Acc.engineered_prompt :=
       Acc.engineered_prompt acc ++ Texts.clarity_instruction;
     Acc.rules_applied := append (Acc.rules_applied acc) "enhance_clarity" |}.

Definition apply_add_testing (acc : Acc.t) : Acc.t :=
  {| Acc.engineered_prompt := Acc.engineered_prompt acc ++ Texts.testing_guidance;
     Acc.rules_applied := append (Acc.rules_applied acc) "add_testing" |}.

(* ------------------------------------------------------------------ *)
(** *** The MCP tool server, [ai_validation_mcp.py] *)

Module Tool.

Definition generate_few_shot_examples (prompt : string) : string :=
  if PyStr.contains "code" (PyStr.lower prompt)
     || PyStr.contains "programming" (PyStr.lower prompt)
  then Texts.few_shot_code
  else if PyStr.contains "write" (PyStr.lower prompt)
          || PyStr.contains "content" (PyStr.lower prompt)
  then Texts.few_shot_writing
  else "".

Definition determine_expert_role (prompt : string) : string :=
  let prompt_lower := PyStr.lower prompt in
  if any_in ["code"; "programming"; "software"; "debug"] prompt_lower
  then Texts.role_software
  else if any_in ["write"; "content"; "marketing"; "copy"] prompt_lower
  then Texts.role_copywriter
  else if any_in ["analyze"; "data"; "research"] prompt_lower
  then Texts.role_analyst
  else if any_in ["design"; "ui"; "ux"; "interface"] prompt_lower
  then Texts.role_designer
  else if any_in ["business"; "strategy"; "plan"] prompt_lower
  then Texts.role_consultant
  else "".

Definition apply_model_specific_rules (prompt model : string) : string :=
  let model_lower := PyStr.lower model in
  if PyStr.contains "gpt" model_lower then Texts.note_gpt
  else if PyStr.contains "claude" model_lower then Texts.note_claude
  else if PyStr.contains "gemini" model_lower then Texts.note_gemini
  else "".

(** The eight rules, in the order of the source. *)

Definition rule_expert_system (rules : list string) (acc : Acc.t) : Acc.t :=
  if PyStr.mem "expert_system" rules || PyStr.mem "auto_optimize" rules
  then apply_expert_system acc
  else acc.

Definition rule_chain_of_thought
  (analysis : Analysis.t) (rules : list string) (acc : Acc.t) : Acc.t :=
  if PyStr.mem "chain_of_thought" rules
     || (Analysis.needs_reasoning analysis && PyStr.mem "auto_optimize" rules)
  then apply_chain_of_thought acc
  else acc.

Definition rule_few_shot
  (raw_prompt : string) (analysis : Analysis.t) (rules : list string)
  (acc : Acc.t) : Acc.t :=
  if PyStr.mem "few_shot" rules
     || (Analysis.needs_examples analysis && PyStr.mem "auto_optimize" rules)
  then
    let few_shot_examples := generate_few_shot_examples raw_prompt in
    if PyStr.truthy few_shot_examples
    then apply_few_shot few_shot_examples acc
    else acc
  else acc.

Definition rule_role_play
  (raw_prompt : string) (analysis : Analysis.t) (rules : list string)
  (acc : Acc.t) : Acc.t :=
  if PyStr.mem "role_play" rules
     || (Analysis.needs_expertise analysis && PyStr.mem "auto_optimize" rules)
  then
    let role_context := determine_expert_role raw_prompt in
    if PyStr.truthy role_context
    then apply_role_play role_context acc
    else acc
  else acc.

Definition rule_structured_output
  (analysis : Analysis.t) (rules : list string) (acc : Acc.t) : Acc.t :=
  if PyStr.mem "structured_output" rules
     || (Analysis.needs_structure analysis && PyStr.mem "auto_optimize" rules)
  then apply_structured_output Texts.structure_template acc
  else acc.

Definition rule_model_optimize
  (target_model : string) (rules : list string) (acc : Acc.t) : Acc.t :=
  if PyStr.mem "model_optimize" rules
  then
    let model_optimization :=
      apply_model_specific_rules (Acc.engineered_prompt acc) target_model in
    if PyStr.truthy model_optimization
    then apply_model_optimize model_optimization acc
    else acc
  else acc.

Definition rule_enhance_clarity
  (analysis : Analysis.t) (rules : list string) (acc : Acc.t) : Acc.t :=
  if PyStr.mem "enhance_clarity" rules
     || ((Analysis.clarity_score analysis <? #0.7)%py
         && PyStr.mem "auto_optimize" rules)
  then apply_enhance_clarity acc
  else acc.

Definition rule_add_testing (rules : list string) (acc : Acc.t) : Acc.t :=
  if PyStr.mem "add_testing" rules
  then apply_add_testing acc
  else acc.

(** The text and the rule names after the eight rules. *)
Definition run_rules
  (raw_prompt : string) (analysis : Analysis.t) (rules : list string)
  (target_model : string) : Acc.t :=
  let acc := {| Acc.engineered_prompt := raw_prompt; Acc.rules_applied := [] |} in
  let acc := rule_expert_system rules acc in
  let acc := rule_chain_of_thought analysis rules acc in
  let acc := rule_few_shot raw_prompt analysis rules acc in
  let acc := rule_role_play raw_prompt analysis rules acc in
  let acc := rule_structured_output analysis rules acc in
  let acc := rule_model_optimize target_model rules acc in
  let acc := rule_enhance_clarity analysis rules acc in
  let acc := rule_add_testing rules acc in
  acc.

(** The dict that the engine returns. *)
Module Result.
Record t : Type := mk {
  engineered_prompt : string;
  original_prompt : string;
  analysis : Analysis.t;
  rules_applied : list string;
  recommendations : list string;
  optimization_score : PyFloat.float;
  target_model : string
}.
End Result.

(** [apply_engineering_rules(raw_prompt, rules=None, target_model)];
    [None] stands for an omitted rule list. *)
Definition apply_engineering_rules
  (raw_prompt : string) (rules : option (list string)) (target_model : string)
  : Result.t :=
  let rules :=
    match rules with None => ["auto_optimize"] | Some rules => rules end in
  let analysis := analyze_prompt_structure raw_prompt in
  let acc := run_rules raw_prompt analysis rules target_model in
  let recommendations := generate_recommendations analysis raw_prompt rules in
  let optimization_score :=
    calculate_optimization_score analysis (Acc.rules_applied acc) in
  {| Result.engineered_prompt := Acc.engineered_prompt acc;
     Result.original_prompt := raw_prompt;
     Result.analysis := analysis;
     Result.rules_applied := Acc.rules_applied acc;
     Result.recommendations := recommendations;
     Result.optimization_score := optimization_score;
     Result.target_model := target_model |}.

End Tool.

(* ------------------------------------------------------------------ *)
(** *** The HTTP server, [mcp_server.py]

    The calls to [logger.info] are left out: no value depends on them. *)

Module Http.

(** The JSON object of a request, with [None] for an absent key. *)
Module Config.
Record t : Type := mk {
  model : option string;
  apply_rules : option (list string)
}.
End Config.

Module Request.
Record t : Type := mk {
  request_id : option string;
  raw_prompt : option string;
  config : option Config.t
}.
End Request.

Definition generate_few_shot_examples (prompt : string) : option string :=
  if PyStr.contains "code" (PyStr.lower prompt)
     || PyStr.contains "programming" (PyStr.lower prompt)
  then Some Texts.few_shot_code
  else if PyStr.contains "write" (PyStr.lower prompt)
          || PyStr.contains "content" (PyStr.lower prompt)
  then Some Texts.few_shot_writing
  else None.

Definition determine_expert_role (prompt : string) : option string :=
  let prompt_lower := PyStr.lower prompt in
  if any_in ["code"; "programming"; "software"; "debug"] prompt_lower
  then Some Texts.role_software
  else if any_in ["write"; "content"; "marketing"; "copy"] prompt_lower
  then Some Texts.role_copywriter
  else if any_in ["analyze"; "data"; "research"] prompt_lower
  then Some Texts.role_analyst
  else if any_in ["design"; "ui"; "ux"; "interface"] prompt_lower
  then Some Texts.role_designer
  else if any_in ["business"; "strategy"; "plan"] prompt_lower
  then Some Texts.role_consultant
  else None.

Definition apply_model_specific_rules (prompt model : string) : option string :=
  let model_lower := PyStr.lower model in
  if PyStr.contains "gpt" model_lower then Some Texts.note_gpt
  else if PyStr.contains "claude" model_lower then Some Texts.note_claude
  else if PyStr.contains "gemini" model_lower then Some Texts.note_gemini
  else None.

(** Truth value of a string or [None]. *)
Definition truthy (value : option string) : bool :=
  match value with Some s => PyStr.truthy s | None => false end.

Definition generate_recommendations
  (analysis : Analysis.t) (original_prompt : string) (config : Config.t)
  : list string :=
  generate_recommendations analysis original_prompt
    (get (Config.apply_rules config) []).

Module Compatibility.
Record t : Type := mk {
  score : PyFloat.float;
  notes : list string;
  optimizations : list string
}.
End Compatibility.

Definition assess_model_compatibility (prompt model : string) : Compatibility.t :=
  let compatibility :=
    {| Compatibility.score := (#0.8)%py;
       Compatibility.notes := [];
       Compatibility.optimizations := [] |} in
  let model_lower := PyStr.lower model in
  let prompt_length := PyStr.len prompt in
  if PyStr.contains "gpt" model_lower then
    let compatibility :=
      if (8000 <? Z.of_nat prompt_length)%Z then
        {| Compatibility.score := (Compatibility.score compatibility - #0.1)%py;
           Compatibility.notes :=
             append (Compatibility.notes compatibility)
               "Long prompt - consider breaking into smaller chunks";
           Compatibility.optimizations :=
             Compatibility.optimizations compatibility |}
      else compatibility in
    {| Compatibility.score := Compatibility.score compatibility;
       Compatibility.notes := Compatibility.notes compatibility;
       Compatibility.optimizations :=
         append (Compatibility.optimizations compatibility)
           "Well-suited for creative and analytical tasks" |}
  else if PyStr.contains "claude" model_lower then
    let compatibility :=
      if (10000 <? Z.of_nat prompt_length)%Z then
        {| Compatibility.score := Compatibility.score compatibility;
           Compatibility.notes :=
             append (Compatibility.notes compatibility)
               "Very long prompt - Claude handles this well";
           Compatibility.optimizations :=
             Compatibility.optimizations compatibility |}
      else compatibility in
    {| Compatibility.score := Compatibility.score compatibility;
       Compatibility.notes := Compatibility.notes compatibility;
       Compatibility.optimizations :=
         append (Compatibility.optimizations compatibility)
           "Excellent for detailed analysis and reasoning" |}
  else compatibility.

(** The eight rules.  Where the MCP tool server asks for the analysis
    flag and for [auto_optimize], this server asks for the flag only. *)

Definition rule_expert_system (apply_rules : list string) (acc : Acc.t) : Acc.t :=
  if PyStr.mem "expert_system" apply_rules || PyStr.mem "auto_optimize" apply_rules
  then apply_expert_system acc
  else acc.

Definition rule_chain_of_thought
  (analysis : Analysis.t) (apply_rules : list string) (acc : Acc.t) : Acc.t :=
  if PyStr.mem "chain_of_thought" apply_rules || Analysis.needs_reasoning analysis
  then apply_chain_of_thought acc
  else acc.

Definition rule_few_shot
  (raw_prompt : string) (analysis : Analysis.t) (apply_rules : list string)
  (acc : Acc.t) : Acc.t :=
  if PyStr.mem "few_shot" apply_rules || Analysis.needs_examples analysis
  then
    let few_shot_examples := generate_few_shot_examples raw_prompt in
    if truthy few_shot_examples
    then apply_few_shot (get few_shot_examples "") acc
    else acc
  else acc.

Definition rule_role_play
  (raw_prompt : string) (analysis : Analysis.t) (apply_rules : list string)
  (acc : Acc.t) : Acc.t :=
  if PyStr.mem "role_play" apply_rules || Analysis.needs_expertise analysis
  then
    let role_context := determine_expert_role raw_prompt in
    if truthy role_context
    then apply_role_play (get role_context "") acc
    else acc
  else acc.

Definition rule_structured_output
  (analysis : Analysis.t) (apply_rules : list string) (acc : Acc.t) : Acc.t :=
  if PyStr.mem "structured_output" apply_rules || Analysis.needs_structure analysis
  then apply_structured_output Texts.structure_template_http acc
  else acc.

Definition rule_model_optimize
  (target_model : string) (apply_rules : list string) (acc : Acc.t) : Acc.t :=
  if PyStr.mem "model_optimize" apply_rules
  then
    let model_optimization :=
      apply_model_specific_rules (Acc.engineered_prompt acc) target_model in
    if truthy model_optimization
    then apply_model_optimize (get model_optimization "") acc
    else acc
  else acc.

Definition rule_enhance_clarity
  (analysis : Analysis.t) (apply_rules : list string) (acc : Acc.t) : Acc.t :=
  if PyStr.mem "enhance_clarity" apply_rules
     || (Analysis.clarity_score analysis <? #0.7)%py
  then apply_enhance_clarity acc
  else acc.

Definition rule_add_testing (apply_rules : list string) (acc : Acc.t) : Acc.t :=
  if PyStr.mem "add_testing" apply_rules
  then apply_add_testing acc
  else acc.

Definition run_rules
  (raw_prompt : string) (analysis : Analysis.t) (apply_rules : list string)
  (target_model : string) : Acc.t :=
  let acc := {| Acc.engineered_prompt := raw_prompt; Acc.rules_applied := [] |} in
  let acc := rule_expert_system apply_rules acc in
  let acc := rule_chain_of_thought analysis apply_rules acc in
  let acc := rule_few_shot raw_prompt analysis apply_rules acc in
  let acc := rule_role_play raw_prompt analysis apply_rules acc in
  let acc := rule_structured_output analysis apply_rules acc in
  let acc := rule_model_optimize target_model apply_rules acc in
  let acc := rule_enhance_clarity analysis apply_rules acc in
  let acc := rule_add_testing apply_rules acc in
  acc.

(** The dict that the engine returns. *)
Module Response.
Record t : Type := mk {
  request_id : string;
  engineered_prompt : string;
  original_prompt : string;
  status : string;
  rules_applied : list string;
  prompt_analysis : Analysis.t;
  recommendations : list string;
  optimization_score : PyFloat.float;
  model_compatibility : Compatibility.t
}.
End Response.

(** [apply_engineering_rules(request_data)] *)
Definition apply_engineering_rules (request_data : Request.t) : Response.t :=
  let request_id := get (Request.request_id request_data) "unknown" in
  let raw_prompt := get (Request.raw_prompt request_data) "" in
  let config :=
    get (Request.config request_data)
        {| Config.model := None; Config.apply_rules := None |} in
  let apply_rules := get (Config.apply_rules config) [] in
  let target_model := get (Config.model config) "general" in
  let analysis := analyze_prompt_structure raw_prompt in
  let acc := run_rules raw_prompt analysis apply_rules target_model in
  let recommendations := generate_recommendations analysis raw_prompt config in
  {| Response.request_id := request_id;
     Response.engineered_prompt := Acc.engineered_prompt acc;
     Response.original_prompt := raw_prompt;
     Response.status := "validation_success";
     Response.rules_applied := Acc.rules_applied acc;
     Response.prompt_analysis := analysis;
     Response.recommendations := recommendations;
     Response.optimization_score :=
       calculate_optimization_score analysis (Acc.rules_applied acc);
     Response.model_compatibility :=
       assess_model_compatibility (Acc.engineered_prompt acc) target_model |}.

(** A request that carries a prompt, a rule list and a target model. *)
Definition request (raw_prompt : string) (apply_rules : list string)
  (model : string) : Request.t :=
  {| Request.request_id := None;
     Request.raw_prompt := Some raw_prompt;
     Request.config :=
       Some {| Config.model := Some model;
               Config.apply_rules := Some apply_rules |} |}.

End Http.


(* ------------------------------------------------------------------ *)
(** *** The endpoint [/validate-prompt] of the HTTP server

    The endpoint calls the engine and writes to the log; both are
    recorded in a trace (the log lines that the engine writes itself
    are left out, as above).  The engine raises no exception on a
    request of the shape below, so the [except] branch (a reply with
    status 500) is not reached and is left out. *)

Module Endpoint.

Inductive event : Type :=
| EngineCall (request_data : Http.Request.t)
| LogInfo (message : string).

(** What the endpoint reads of a request: whether its content type is
    JSON, and the parsed body, [None] standing for a body that is false
    as a condition (no body, or an object without keys). *)
Module HttpRequest.
Record t : Type := mk {
  is_json : bool;
  get_json : option Http.Request.t
}.
End HttpRequest.

(** The JSON body of a reply. *)
Inductive body : Type :=
| Failure (error status : string)
| Success (response : Http.Response.t).

Definition validate_prompt (request : HttpRequest.t)
  : list event * (body * nat) :=
  if negb (HttpRequest.is_json request) then
    ([], (Failure "Content-Type must be application/json" "validation_failed", 400))
  else
    match HttpRequest.get_json request with
    | None =>
        ([], (Failure "Invalid JSON payload" "validation_failed", 400))
    | Some request_data =>
        match Http.Request.raw_prompt request_data with
        | None =>
            ([], (Failure "Missing required field: raw_prompt"
                          "validation_failed", 400))
        | Some _ =>
            let response := Http.apply_engineering_rules request_data in
            ([EngineCall request_data;
              LogInfo ("Successfully processed request "
                         ++ Http.Response.request_id response)],
             (Success response, 200))
        end
    end.

End Endpoint.

(* ================================================================== *)
(** ** The tool handler of the MCP tool server

    [handle_call_tool] has two effects besides its result: it calls the
    engine and it writes to the log.  Both are recorded, in order, in a
    trace. *)

Module Handler.

Inductive event : Type :=
| EngineCall (raw_prompt : string) (rules : list string) (target_model : string)
| LogInfo (message : string).

(** A computation that leaves a trace. *)
Definition M (A : Type) : Type := (list event * A)%type.

Definition ret {A : Type} (x : A) : M A := ([], x).

Definition bind {A B : Type} (m : M A) (k : A -> M B) : M B :=
  let (t1, x) := m in
  let (t2, y) := k x in
  ((t1 ++ t2)%list, y).

Notation "x <- m ;; k" := (bind m (fun x => k))
  (at level 61, m at next level, right associativity).

(** The call [apply_engineering_rules(prompt, rules, model)]. *)
Definition call_engine (raw_prompt : string) (rules : list string)
  (target_model : string) : M Tool.Result.t :=
  ([EngineCall raw_prompt rules target_model],
   Tool.apply_engineering_rules raw_prompt (Some rules) target_model).

Definition logger_info (message : string) : M unit := ([LogInfo message], tt).

(** [str(n)] for a count. *)
Definition str_of_N (n : N) : string :=
  NilEmpty.string_of_uint (N.to_uint n).

Definition str_of_nat (n : nat) : string := str_of_N (N.of_nat n).

(** [format(x, '.2f')]: the decimal with two fraction digits nearest to
    the exact value, ties to even.  [hundredths m e] is the integer
    nearest to [m * 2^e * 100]. *)
Definition hundredths (m : positive) (e : Z) : Z :=
  let n := (Zpos m * 100)%Z in
  match e with
  | Zneg k =>
      let d := (2 ^ Zpos k)%Z in
      let q := (n / d)%Z in
      let r := (n mod d)%Z in
      match (2 * r ?= d)%Z with
      | Lt => q
      | Gt => (q + 1)%Z
      | Eq => if Z.even q then q else (q + 1)%Z
      end
  | _ => (n * 2 ^ e)%Z
  end.

Definition two_digits (n : N) : string :=
  if (n <? 10)%N then "0" ++ str_of_N n else str_of_N n.

Definition format_2f (x : PyFloat.float) : string :=
  let sign (s : bool) := if s then "-" else "" in
  match x with
  | S754_nan => "nan"
  | S754_infinity s => sign s ++ "inf"
  | S754_zero s => sign s ++ "0.00"
  | S754_finite s m e =>
      let n := Z.to_N (hundredths m e) in
      sign s ++ str_of_N (n / 100) ++ "." ++ two_digits (n mod 100)
  end.

(** The arguments of a tool call, with [None] for an absent key. *)
Module Arguments.
Record t : Type := mk {
  prompt : option string;
  rules : option (list string);
  model : option string;
  focus_area : option string
}.
Definition empty : t :=
  {| prompt := None; rules := None; model := None; focus_area := None |}.
End Arguments.

Module TextContent.
Record t : Type := mk { type : string; text : string }.
End TextContent.

Definition text_content (text : string) : TextContent.t :=
  {| TextContent.type := "text"; TextContent.text := text |}.

(** [f"{i+1}. {sug}" for i, sug in enumerate(suggestions)], from index [i]. *)
Fixpoint numbered (i : nat) (suggestions : list string) : list string :=
  match suggestions with
  | [] => []
  | sug :: rest => (str_of_nat (i + 1) ++ ". " ++ sug) :: numbered (S i) rest
  end.

(** The report of the tool [validate_prompt]. *)
Definition validation_report (result : Tool.Result.t) : string :=
  let nl := PyStr.nl in
  let analysis := Tool.Result.analysis result in
  "# 🚀 AI Validation Results" ++ nl ++
  nl ++
  "## 📋 Original Prompt" ++ nl ++
  "```" ++ nl ++
  Tool.Result.original_prompt result ++ nl ++
  "```" ++ nl ++
  nl ++
  "## ⚡ Optimized Prompt" ++ nl ++
  "```" ++ nl ++
  Tool.Result.engineered_prompt result ++ nl ++
  "```" ++ nl ++
  nl ++
  "## 📊 Analysis Summary" ++ nl ++
  "- **Length**: " ++ str_of_nat (Analysis.length analysis) ++ " characters (" ++ str_of_nat (Analysis.word_count analysis) ++ " words)" ++ nl ++
  "- **Clarity Score**: " ++ format_2f (Analysis.clarity_score analysis) ++ "/1.0" ++ nl ++
  "- **Optimization Score**: " ++ format_2f (Tool.Result.optimization_score result) ++ "/1.0" ++ nl ++
  "- **Has Clear Task**: " ++ (if Analysis.has_clear_task analysis then "✅" else "❌") ++ nl ++
  "- **Has Context**: " ++ (if Analysis.has_context analysis then "✅" else "❌") ++ nl ++
  "- **Has Examples**: " ++ (if Analysis.has_examples analysis then "✅" else "❌") ++ nl ++
  nl ++
  "## 🛠️ Applied Optimizations" ++ nl ++
  (if truthy_list (Tool.Result.rules_applied result)
   then PyStr.join ", " (Tool.Result.rules_applied result)
   else "None applied") ++ nl ++
  nl ++
  "## 💡 Recommendations" ++ nl ++
  (if truthy_list (Tool.Result.recommendations result)
   then PyStr.join nl
          (map (fun rec => "• " ++ rec) (Tool.Result.recommendations result))
   else "• Prompt is well-optimized!") ++ nl ++
  nl ++
  "## 🎯 Target Model" ++ nl ++
  "Optimized for: " ++ Tool.Result.target_model result ++ nl ++
  nl ++
  "---" ++ nl ++
  "*Use the optimized prompt above for best results with your target AI model.*" ++ nl.

(** The report of the tool [analyze_prompt_quality]. *)
Definition quality_report (analysis : Analysis.t) : string :=
  let nl := PyStr.nl in
  "# 🔍 Prompt Quality Analysis" ++ nl ++
  nl ++
  "## 📊 Structure Metrics" ++ nl ++
  "- **Length**: " ++ str_of_nat (Analysis.length analysis) ++ " characters" ++ nl ++
  "- **Word Count**: " ++ str_of_nat (Analysis.word_count analysis) ++ " words" ++ nl ++
  "- **Clarity Score**: " ++ format_2f (Analysis.clarity_score analysis) ++ "/1.0" ++ nl ++
  "- **Question Count**: " ++ str_of_nat (Analysis.question_count analysis) ++ nl ++
  nl ++
  "## ✅ Quality Indicators" ++ nl ++
  "- **Clear Task**: " ++ (if Analysis.has_clear_task analysis then "✅ Yes" else "❌ No") ++ nl ++
  "- **Sufficient Context**: " ++ (if Analysis.has_context analysis then "✅ Yes" else "❌ No") ++ nl ++
  "- **Includes Examples**: " ++ (if Analysis.has_examples analysis then "✅ Yes" else "❌ No") ++ nl ++
  "- **Has Constraints**: " ++ (if Analysis.has_constraints analysis then "✅ Yes" else "❌ No") ++ nl ++
  nl ++
  "## 🎯 Optimization Opportunities" ++ nl ++
  "- **Needs Reasoning**: " ++ (if Analysis.needs_reasoning analysis then "⚡ Yes" else "✅ No") ++ nl ++
  "- **Needs Examples**: " ++ (if Analysis.needs_examples analysis then "⚡ Yes" else "✅ No") ++ nl ++
  "- **Needs Expertise**: " ++ (if Analysis.needs_expertise analysis then "⚡ Yes" else "✅ No") ++ nl ++
  "- **Needs Structure**: " ++ (if Analysis.needs_structure analysis then "⚡ Yes" else "✅ No") ++ nl ++
  nl ++
  "## 🎚️ Overall Assessment" ++ nl ++
  (if (#0.8 <? Analysis.clarity_score analysis)%py then "🟢 Excellent"
   else if (#0.6 <? Analysis.clarity_score analysis)%py then "🟡 Good"
   else "🔴 Needs Improvement") ++ nl ++
  nl ++
  "---" ++ nl ++
  "*Use the validate_prompt tool to automatically optimize this prompt.*" ++ nl.

(** The report of the tool [get_optimization_suggestions]. *)
Definition suggestions_report (focus_area : string) (suggestions : list string)
  : string :=
  let nl := PyStr.nl in
  let dq := PyStr.dq in
  "# 💡 Optimization Suggestions" ++ nl ++
  nl ++
  "## 🎯 Focus Area: " ++ PyStr.title focus_area ++ nl ++
  nl ++
  "## 📝 Recommendations" ++ nl ++
  PyStr.join nl (numbered 0 suggestions) ++ nl ++
  nl ++
  "## 🛠️ Quick Fixes" ++ nl ++
  "- **Add constraints**: Use words like " ++ dq ++ "must" ++ dq ++ ", " ++ dq ++ "should" ++ dq ++ ", " ++ dq ++ "requirement" ++ dq ++ nl ++
  "- **Improve specificity**: Replace vague terms with concrete descriptions" ++ nl ++
  "- **Set format**: Specify desired output format (list, table, code, etc.)" ++ nl ++
  "- **Define scope**: Clearly state what should and shouldn't be included" ++ nl ++
  nl ++
  "## ⚡ Auto-Optimization" ++ nl ++
  "Run `validate_prompt` with `auto_optimize` rule for automatic improvements." ++ nl ++
  nl ++
  "---" ++ nl ++
  "*These suggestions are based on analysis of your prompt structure and content.*" ++ nl.

(** The suggestions of the tool [get_optimization_suggestions]. *)
Definition optimization_suggestions
  (prompt focus_area : string) (analysis : Analysis.t) : list string :=
  let focus (area : string) :=
    String.eqb focus_area "all" || String.eqb focus_area area in
  let suggestions := [] in
  let suggestions :=
    if focus "clarity" && (Analysis.clarity_score analysis <? #0.7)%py
    then append suggestions
           "**Clarity**: Add more specific details and concrete examples"
    else suggestions in
  let suggestions :=
    if focus "structure" && Analysis.needs_structure analysis
    then append suggestions
           "**Structure**: Use bullet points or numbered lists for complex requests"
    else suggestions in
  let suggestions :=
    if focus "examples" && Analysis.needs_examples analysis
    then append suggestions
           "**Examples**: Include sample inputs/outputs to clarify expectations"
    else suggestions in
  let suggestions :=
    if focus "reasoning" && Analysis.needs_reasoning analysis
    then append suggestions
           "**Reasoning**: Ask for step-by-step explanations or thought processes"
    else suggestions in
  let suggestions :=
    if focus "expertise" && Analysis.needs_expertise analysis
    then
      let role := Tool.determine_expert_role prompt in
      if PyStr.truthy role
      then append suggestions
             ("**Expertise**: Specify that you want response from " ++ role)
      else suggestions
    else suggestions in
  if negb (truthy_list suggestions)
  then append suggestions
         "**Great!** Your prompt is well-structured. Consider using auto_optimize for minor enhancements."
  else suggestions.

Definition no_prompt_error : list TextContent.t :=
  [text_content "Error: No prompt provided"].

(** [handle_call_tool(name, arguments)] *)
Definition handle_call_tool (name : string) (arguments : option Arguments.t)
  : M (list TextContent.t) :=
  let arguments := get arguments Arguments.empty in
  if String.eqb name "validate_prompt" then
    let prompt := get (Arguments.prompt arguments) "" in
    let rules := get (Arguments.rules arguments) ["auto_optimize"] in
    let model := get (Arguments.model arguments) "general" in
    if negb (PyStr.truthy prompt) then ret no_prompt_error
    else
      result <- call_engine prompt rules model ;;
      let response := validation_report result in
      _ <- logger_info
             ("Validated prompt with "
                ++ str_of_nat (List.length (Tool.Result.rules_applied result))
                ++ " rules applied") ;;
      ret [text_content response]
  else if String.eqb name "analyze_prompt_quality" then
    let prompt := get (Arguments.prompt arguments) "" in
    if negb (PyStr.truthy prompt) then ret no_prompt_error
    else
      let analysis := analyze_prompt_structure prompt in
      let response := quality_report analysis in
      _ <- logger_info
             ("Analyzed prompt quality: "
                ++ format_2f (Analysis.clarity_score analysis)
                ++ " clarity score") ;;
      ret [text_content response]
  else if String.eqb name "get_optimization_suggestions" then
    let prompt := get (Arguments.prompt arguments) "" in
    let focus_area := get (Arguments.focus_area arguments) "all" in
    if negb (PyStr.truthy prompt) then ret no_prompt_error
    else
      let analysis := analyze_prompt_structure prompt in
      let suggestions := optimization_suggestions prompt focus_area analysis in
      let response := suggestions_report focus_area suggestions in
      _ <- logger_info
             ("Generated " ++ str_of_nat (List.length suggestions)
                ++ " optimization suggestions") ;;
      ret [text_content response]
  else
    ret [text_content ("Error: Unknown tool '" ++ name ++ "'")].

End Handler.

(** [key in d], for a key that may be absent. *)
Definition present {A : Type} (field : option A) : bool :=
  match field with Some _ => true | None => false end.

(* ================================================================== *)
(** ** The tools that the MCP tool server lists *)

Module Listing.

(** The value of a [default] entry: a string or a list of strings. *)
Inductive default : Type :=
| DefaultStr (value : string)
| DefaultList (value : list string).

(** One entry of [properties]; [items] is the [type] of the items of an
    array. *)
Module Property.
Record t : Type := mk {
  type : string;
  items : option string;
  description : string;
  default : option Listing.default
}.
End Property.

Module InputSchema.
Record t : Type := mk {
  type : string;
  properties : list (string * Property.t);
  required : list string
}.
End InputSchema.

(** [mcp.Tool(name=..., description=..., inputSchema=...)] *)
Module McpTool.
Record t : Type := mk {
  name : string;
  description : string;
  inputSchema : InputSchema.t
}.
End McpTool.

(** [handle_list_tools()] *)
Definition handle_list_tools : list McpTool.t :=
  [ {| McpTool.name := "validate_prompt";
       McpTool.description :=
         "Analyze and optimize prompts using advanced prompt engineering techniques. Automatically applies expert-level optimizations.";
       McpTool.inputSchema :=
         {| InputSchema.type := "object";
            InputSchema.properties :=
              [ ("prompt",
              {| Property.type := "string";
                 Property.items := None;
                 Property.description :=
                   "The prompt to analyze and optimize";
                 Property.default := None |});
                ("rules",
              {| Property.type := "array";
                 Property.items := Some "string";
                 Property.description :=
                   "Specific rules to apply: expert_system, chain_of_thought, few_shot, role_play, structured_output, model_optimize, enhance_clarity, add_testing, auto_optimize";
                 Property.default := Some (DefaultList ["auto_optimize"]) |});
                ("model",
              {| Property.type := "string";
                 Property.items := None;
                 Property.description :=
                   "Target AI model for optimization (gpt-4, claude, gemini, etc.)";
                 Property.default := Some (DefaultStr "general") |}) ];
            InputSchema.required := ["prompt"] |} |};
    {| McpTool.name := "analyze_prompt_quality";
       McpTool.description :=
         "Analyze prompt structure and quality without modification. Provides detailed insights and recommendations.";
       McpTool.inputSchema :=
         {| InputSchema.type := "object";
            InputSchema.properties :=
              [ ("prompt",
              {| Property.type := "string";
                 Property.items := None;
                 Property.description :=
                   "The prompt to analyze";
                 Property.default := None |}) ];
            InputSchema.required := ["prompt"] |} |};
    {| McpTool.name := "get_optimization_suggestions";
       McpTool.description :=
         "Get specific optimization suggestions for a prompt based on analysis.";
       McpTool.inputSchema :=
         {| InputSchema.type := "object";
            InputSchema.properties :=
              [ ("prompt",
              {| Property.type := "string";
                 Property.items := None;
                 Property.description :=
                   "The prompt to get suggestions for";
                 Property.default := None |});
                ("focus_area",
              {| Property.type := "string";
                 Property.items := None;
                 Property.description :=
                   "Specific area to focus on: clarity, structure, examples, reasoning, expertise";
                 Property.default := Some (DefaultStr "all") |}) ];
            InputSchema.required := ["prompt"] |} |} ].

(** [key in arguments] for the keys that the handler reads. *)
Definition has_key (arguments : Handler.Arguments.t) (key : string) : bool :=
  if String.eqb key "prompt"
  then present (Handler.Arguments.prompt arguments)
  else if String.eqb key "rules"
  then present (Handler.Arguments.rules arguments)
  else if String.eqb key "model"
  then present (Handler.Arguments.model arguments)
  else if String.eqb key "focus_area"
  then present (Handler.Arguments.focus_area arguments)
  else false.

(** [arguments.setdefault(key, value)] for the keys that the handler
    reads; a value of another type than the key holds is not stored. *)
Definition setdefault (key : string) (value : default)
  (arguments : Handler.Arguments.t) : Handler.Arguments.t :=
  if has_key arguments key then arguments
  else
    match value with
    | DefaultStr s =>
        if String.eqb key "prompt" then
          {| Handler.Arguments.prompt := Some s;
             Handler.Arguments.rules := Handler.Arguments.rules arguments;
             Handler.Arguments.model := Handler.Arguments.model arguments;
             Handler.Arguments.focus_area :=
               Handler.Arguments.focus_area arguments |}
        else if String.eqb key "model" then
          {| Handler.Arguments.prompt := Handler.Arguments.prompt arguments;
             Handler.Arguments.rules := Handler.Arguments.rules arguments;
             Handler.Arguments.model := Some s;
             Handler.Arguments.focus_area :=
               Handler.Arguments.focus_area arguments |}
        else if String.eqb key "focus_area" then
          {| Handler.Arguments.prompt := Handler.Arguments.prompt arguments;
             Handler.Arguments.rules := Handler.Arguments.rules arguments;
             Handler.Arguments.model := Handler.Arguments.model arguments;
             Handler.Arguments.focus_area := Some s |}
        else arguments
    | DefaultList l =>
        if String.eqb key "rules" then
          {| Handler.Arguments.prompt := Handler.Arguments.prompt arguments;
             Handler.Arguments.rules := Some l;
             Handler.Arguments.model := Handler.Arguments.model arguments;
             Handler.Arguments.focus_area :=
               Handler.Arguments.focus_area arguments |}
        else arguments
    end.

(** The arguments of a call completed with the defaults that the schema
    of a tool declares. *)
Definition with_defaults (tool : McpTool.t) (arguments : Handler.Arguments.t)
  : Handler.Arguments.t :=
  fold_left
    (fun arguments entry =>
       match Property.default (snd entry) with
       | Some value => setdefault (fst entry) value arguments
       | None => arguments
       end)
    (InputSchema.properties (McpTool.inputSchema tool))
    arguments.

End Listing.

(* ================================================================== *)
(** ** Notions used in the statements *)

(** *** The score *)

(** The part of the score that depends on the analysis: the base 0.3
    and the increments of [calculate_optimization_score], in its order. *)
Definition base_score (analysis : Analysis.t) : PyFloat.float :=
  let base_score := (#0.3)%py in
  let base_score :=
    if Analysis.has_clear_task analysis
    then (base_score + #0.2)%py else base_score in
  let base_score :=
    if Analysis.has_context analysis
    then (base_score + #0.1)%py else base_score in
  let base_score :=
    if Analysis.has_examples analysis
    then (base_score + #0.1)%py else base_score in
  let base_score :=
    if Analysis.has_constraints analysis
    then (base_score + #0.1)%py else base_score in
  base_score.

(** The part that depends on the number of rules applied. *)
Definition rule_bonus (count : nat) : PyFloat.float :=
  PyFloat.min (#0.2)%py (PyFloat.of_int (Z.of_nat count) * #0.04)%py.

(** The bracket of the specification: 1 for true, 0 for false. *)
Definition indicator (b : bool) : PyFloat.float :=
  if b then (#1.0)%py else (#0.0)%py.

(** The score as the specification writes it,
    min(1.0, 0.3 + 0.2·[has_clear_task] + 0.1·[has_context]
             + 0.1·[has_examples] + 0.1·[has_constraints]
             + min(0.2, 0.04·count)),
    every operation being the binary64 one and the sum being taken
    from left to right. *)
Definition score_formula (analysis : Analysis.t) (count : nat) : PyFloat.float :=
  PyFloat.min (#1.0)%py
    (#0.3
     + #0.2 * indicator (Analysis.has_clear_task analysis)
     + #0.1 * indicator (Analysis.has_context analysis)
     + #0.1 * indicator (Analysis.has_examples analysis)
     + #0.1 * indicator (Analysis.has_constraints analysis)
     + PyFloat.min (#0.2) (#0.04 * PyFloat.of_int (Z.of_nat count)))%py.

(** *** binary64 numbers *)

(** Neither negative nor NaN. *)
Definition nonneg (x : spec_float) : Prop :=
  match x with
  | S754_zero false | S754_infinity false | S754_finite false _ _ => True
  | _ => False
  end.

(** Positive, and either infinite or normal with an exponent of at
    least [k]. *)
Definition normal_from (k : Z) (x : spec_float) : Prop :=
  x = S754_infinity false
  \/ exists m e,
       x = S754_finite false m e /\ Zpos (digits2_pos m) = 53%Z /\ (k <= e)%Z.

(** *** The rules *)

(** The keywords that the three lookups search for. *)
Definition few_shot_keywords : list string :=
  ["code"; "programming"; "write"; "content"].

Definition role_keywords : list string :=
  ["code"; "programming"; "software"; "debug";
   "write"; "content"; "marketing"; "copy";
   "analyze"; "data"; "research";
   "design"; "ui"; "ux"; "interface";
   "business"; "strategy"; "plan"].

Definition model_keywords : list string := ["gpt"; "claude"; "gemini"].

(** What a name among the rules applied tells about the run: it is the
    name of one of the eight rules, and for a rule with a lookup the
    lookup found a text. *)
Definition fired (raw_prompt target_model : string) (name : string) : Prop :=
  name = "expert_system"
  \/ name = "chain_of_thought"
  \/ (name = "few_shot"
      /\ PyStr.truthy (Tool.generate_few_shot_examples raw_prompt) = true)
  \/ (name = "role_play"
      /\ PyStr.truthy (Tool.determine_expert_role raw_prompt) = true)
  \/ name = "structured_output"
  \/ (name = "model_optimize"
      /\ forall prompt,
           PyStr.truthy (Tool.apply_model_specific_rules prompt target_model) = true)
  \/ name = "enhance_clarity"
  \/ name = "add_testing".

(** The run of the HTTP server up to the rule [structured_output], and
    from there on. *)
Definition first_rules
  (raw_prompt : string) (analysis : Analysis.t) (rules : list string) : Acc.t :=
  Http.rule_role_play raw_prompt analysis rules
    (Http.rule_few_shot raw_prompt analysis rules
       (Http.rule_chain_of_thought analysis rules
          (Http.rule_expert_system rules
             {| Acc.engineered_prompt := raw_prompt;
                Acc.rules_applied := [] |}))).

Definition last_rules
  (target_model : string) (analysis : Analysis.t) (rules : list string)
  (acc : Acc.t) : Acc.t :=
  Http.rule_add_testing rules
    (Http.rule_enhance_clarity analysis rules
       (Http.rule_model_optimize target_model rules acc)).

(** *** The scenarios of the specification *)

(** The empty prompt under the default rule list. *)
Definition empty_scenario : Tool.Result.t :=
  Tool.apply_engineering_rules "" (Some ["auto_optimize"]) "general".

Definition binary_search_prompt : string := "How do I implement a binary search?".

Definition binary_search_scenario : Tool.Result.t :=
  Tool.apply_engineering_rules binary_search_prompt (Some ["auto_optimize"])
    "general".

(** A prompt of [n] one-letter words followed by the word "why?". *)
Fixpoint words_then_question (n : nat) : string :=
  match n with
  | 0 => "why?"
  | S n' => "a " ++ words_then_question n'
  end.

(** *** The tool boundary *)

(** The argument [prompt] of a tool call is missing (no arguments at
    all, or no such key) or is the empty string. *)
Definition prompt_missing_or_empty (arguments : option Handler.Arguments.t) : Prop :=
  match arguments with
  | None => True
  | Some a =>
      Handler.Arguments.prompt a = None \/ Handler.Arguments.prompt a = Some ""
  end.

(** The engine is called somewhere in a trace. *)
Definition calls_engine (trace : list Handler.event) : Prop :=
  exists raw_prompt rules target_model,
    In (Handler.EngineCall raw_prompt rules target_model) trace.

(** *** The eight rules and their gates *)

(** The rules of the engine, in the order in which it applies them. *)
Module Rule.
Inductive t : Type :=
| expert_system | chain_of_thought | few_shot | role_play
| structured_output | model_optimize | enhance_clarity | add_testing.

Definition name (rule : t) : string :=
  match rule with
  | expert_system => "expert_system"
  | chain_of_thought => "chain_of_thought"
  | few_shot => "few_shot"
  | role_play => "role_play"
  | structured_output => "structured_output"
  | model_optimize => "model_optimize"
  | enhance_clarity => "enhance_clarity"
  | add_testing => "add_testing"
  end.

Definition all : list t :=
  [expert_system; chain_of_thought; few_shot; role_play;
   structured_output; model_optimize; enhance_clarity; add_testing].

(** The rules that look a text up before they apply. *)
Definition has_lookup (rule : t) : bool :=
  match rule with
  | few_shot | role_play | model_optimize => true
  | _ => false
  end.
End Rule.

(** The name of a rule as a list, if the rule fires. *)
Definition names_if (b : bool) (name : string) : list string :=
  if b then [name] else [].

(** The names that the engine looks for in a rule list: the eight rules
    and [auto_optimize]. *)
Definition recognised_names : list string :=
  (map Rule.name Rule.all ++ ["auto_optimize"])%list.

(** The condition under which the MCP tool server applies a rule: its
    gate, and for a rule with a lookup that the lookup finds a text. *)
Definition tool_fires
  (raw_prompt target_model : string) (analysis : Analysis.t)
  (rules : list string) (rule : Rule.t) : bool :=
  match rule with
  | Rule.expert_system =>
      PyStr.mem "expert_system" rules || PyStr.mem "auto_optimize" rules
  | Rule.chain_of_thought =>
      PyStr.mem "chain_of_thought" rules
      || (Analysis.needs_reasoning analysis && PyStr.mem "auto_optimize" rules)
  | Rule.few_shot =>
      (PyStr.mem "few_shot" rules
       || (Analysis.needs_examples analysis && PyStr.mem "auto_optimize" rules))
      && PyStr.truthy (Tool.generate_few_shot_examples raw_prompt)
  | Rule.role_play =>
      (PyStr.mem "role_play" rules
       || (Analysis.needs_expertise analysis && PyStr.mem "auto_optimize" rules))
      && PyStr.truthy (Tool.determine_expert_role raw_prompt)
  | Rule.structured_output =>
      PyStr.mem "structured_output" rules
      || (Analysis.needs_structure analysis && PyStr.mem "auto_optimize" rules)
  | Rule.model_optimize =>
      PyStr.mem "model_optimize" rules
      && PyStr.truthy (Tool.apply_model_specific_rules "" target_model)
  | Rule.enhance_clarity =>
      PyStr.mem "enhance_clarity" rules
      || ((Analysis.clarity_score analysis <? #0.7)%py
          && PyStr.mem "auto_optimize" rules)
  | Rule.add_testing => PyStr.mem "add_testing" rules
  end.

(** The same for the HTTP server. *)
Definition http_fires
  (raw_prompt target_model : string) (analysis : Analysis.t)
  (apply_rules : list string) (rule : Rule.t) : bool :=
  match rule with
  | Rule.expert_system =>
      PyStr.mem "expert_system" apply_rules
      || PyStr.mem "auto_optimize" apply_rules
  | Rule.chain_of_thought =>
      PyStr.mem "chain_of_thought" apply_rules
      || Analysis.needs_reasoning analysis
  | Rule.few_shot =>
      (PyStr.mem "few_shot" apply_rules || Analysis.needs_examples analysis)
      && Http.truthy (Http.generate_few_shot_examples raw_prompt)
  | Rule.role_play =>
      (PyStr.mem "role_play" apply_rules || Analysis.needs_expertise analysis)
      && Http.truthy (Http.determine_expert_role raw_prompt)
  | Rule.structured_output =>
      PyStr.mem "structured_output" apply_rules
      || Analysis.needs_structure analysis
  | Rule.model_optimize =>
      PyStr.mem "model_optimize" apply_rules
      && Http.truthy (Http.apply_model_specific_rules "" target_model)
  | Rule.enhance_clarity =>
      PyStr.mem "enhance_clarity" apply_rules
      || (Analysis.clarity_score analysis <? #0.7)%py
  | Rule.add_testing => PyStr.mem "add_testing" apply_rules
  end.

(** *** Strings *)

(** A text holds [core] between a prefix and a suffix. *)
Definition wraps (core text : string) : Prop :=
  exists pre post, text = pre ++ core ++ post.

(** Every character of a string is white space. *)
Fixpoint blank (s : string) : bool :=
  match s with
  | EmptyString => true
  | String c s' => PyStr.isspace c && blank s'
  end.

(** The five recommendations, in the order in which they are made. *)
Definition all_recommendations : list string :=
  [Texts.rec_clarity; Texts.rec_examples; Texts.rec_constraints;
   Texts.rec_structured; Texts.rec_reasoning].

(** The values of [focus_area] that the tool
    [get_optimization_suggestions] knows. *)
Definition focus_areas : list string :=
  ["all"; "clarity"; "structure"; "examples"; "reasoning"; "expertise"].

Definition great_prompt : string :=
  "**Great!** Your prompt is well-structured. Consider using auto_optimize for minor enhancements.".

(** The rule list, the prompt and the model that the HTTP server reads
    from a request. *)
Definition request_rules (request_data : Http.Request.t) : list string :=
  get (Http.Config.apply_rules
         (get (Http.Request.config request_data)
              {| Http.Config.model := None; Http.Config.apply_rules := None |}))
      [].

Definition request_model (request_data : Http.Request.t) : string :=
  get (Http.Config.model
         (get (Http.Request.config request_data)
              {| Http.Config.model := None; Http.Config.apply_rules := None |}))
      "general".

Definition request_prompt (request_data : Http.Request.t) : string :=
  get (Http.Request.raw_prompt request_data) "".

(** The recommendation that advises a rule by its name. *)
Definition recommendation_of (rule : Rule.t) : option string :=
  match rule with
  | Rule.structured_output => Some Texts.rec_structured
  | Rule.chain_of_thought => Some Texts.rec_reasoning
  | _ => None
  end.

(* ================================================================== *)
(** ** binary64 arithmetic

    What the properties of the score and of the clarity score need to
    know about rounding: the exponent that a rounded positive number
    gets, and the sign of a rounded quotient. *)

Section Binary64.

Local Open Scope Z_scope.

(** **** The number of binary digits *)

Lemma digits2_pos_size (p : positive) : digits2_pos p = Pos.size p.
Proof. induction p; cbn; congruence. Qed.

Lemma digits2_pos_log2 (p : positive) :
  Zpos (digits2_pos p) = Z.log2 (Zpos p) + 1.
Proof. rewrite digits2_pos_size. destruct p; cbn; lia. Qed.

Lemma digits2_pos_bounds (p : positive) :
  2 ^ (Zpos (digits2_pos p) - 1) <= Zpos p < 2 ^ Zpos (digits2_pos p).
Proof.
  rewrite digits2_pos_log2.
  replace (Z.log2 (Zpos p) + 1 - 1) with (Z.log2 (Zpos p)) by lia.
  apply Z.log2_spec. lia.
Qed.

Lemma digits2_pos_unique (p : positive) (k : Z) :
  1 <= k -> 2 ^ (k - 1) <= Zpos p < 2 ^ k -> Zpos (digits2_pos p) = k.
Proof.
  intros Hk H. rewrite digits2_pos_log2.
  assert (Z.log2 (Zpos p) = k - 1) as ->; [|lia].
  apply Z.log2_unique; [lia|].
  now replace (Z.succ (k - 1)) with k by lia.
Qed.

Lemma digits2_pos_lower (p : positive) (k : Z) :
  0 <= k -> 2 ^ k <= Zpos p -> k + 1 <= Zpos (digits2_pos p).
Proof.
  intros Hk Hp. pose proof (digits2_pos_bounds p) as Hb.
  destruct (Z.le_gt_cases (k + 1) (Zpos (digits2_pos p))) as [|Hlt]; [assumption|].
  assert (2 ^ Zpos (digits2_pos p) <= 2 ^ k) by (apply Z.pow_le_mono_r; lia).
  lia.
Qed.

Lemma digits2_pos_upper (p : positive) (k : Z) :
  0 <= k -> Zpos p <= 2 ^ k -> Zpos (digits2_pos p) <= k + 1.
Proof.
  intros Hk Hp. pose proof (digits2_pos_bounds p) as Hb.
  destruct (Z.le_gt_cases (Zpos (digits2_pos p)) (k + 1)) as [|Hgt]; [assumption|].
  assert (2 ^ (k + 1) <= 2 ^ (Zpos (digits2_pos p) - 1))
    by (apply Z.pow_le_mono_r; lia).
  assert (2 ^ k < 2 ^ (k + 1)) by (apply Z.pow_lt_mono_r; lia).
  lia.
Qed.

Lemma digits2_pos_iter_xO (p k : positive) :
  digits2_pos (Pos.iter xO p k) = (digits2_pos p + k)%positive.
Proof.
  induction k as [|k IH] using Pos.peano_ind.
  - cbn. lia.
  - rewrite Pos.iter_succ. cbn [digits2_pos]. rewrite IH. lia.
Qed.

(** **** Shifting a mantissa to the right *)

Lemma shr_1_m (mrs : shr_record) :
  0 <= shr_m mrs -> shr_m (shr_1 mrs) = shr_m mrs / 2.
Proof.
  destruct mrs as [m r s]. cbn [shr_m]. intros Hm.
  rewrite <- Z.div2_div.
  destruct m as [|[p|p|]|p]; try reflexivity. lia.
Qed.

Lemma iter_shr_1_m (p : positive) : forall mrs,
  0 <= shr_m mrs ->
  shr_m (iter_pos shr_1 p mrs) = shr_m mrs / 2 ^ Zpos p.
Proof.
  induction p as [p IH | p IH |]; intros mrs Hm; cbn [iter_pos].
  - assert (0 <= shr_m (shr_1 mrs))
      by (rewrite shr_1_m by assumption; apply Z.div_pos; lia).
    assert (0 <= shr_m (iter_pos shr_1 p (shr_1 mrs)))
      by (rewrite IH by assumption; apply Z.div_pos; lia).
    rewrite IH, IH, shr_1_m by assumption.
    rewrite !Z.div_div by lia.
    f_equal.
    replace (Zpos p~1) with (1 + Zpos p + Zpos p) by lia.
    rewrite !Z.pow_add_r by lia. lia.
  - assert (0 <= shr_m (iter_pos shr_1 p mrs))
      by (rewrite IH by assumption; apply Z.div_pos; lia).
    rewrite IH, IH by assumption.
    rewrite !Z.div_div by lia.
    f_equal.
    replace (Zpos p~0) with (Zpos p + Zpos p) by lia.
    rewrite !Z.pow_add_r by lia. lia.
  - now rewrite shr_1_m.
Qed.

Lemma fexp_normal (e : Z) : -1074 <= e - 53 -> fexp 53 1024 e = e - 53.
Proof. unfold fexp, emin. lia. Qed.

(** An exact mantissa of at least 53 digits, in the normal range, is cut
    to 53 digits. *)
Lemma shr_fexp_exact (m : positive) (e : Z) :
  53 <= Zpos (digits2_pos m) ->
  -1074 <= Zpos (digits2_pos m) + e - 53 ->
  snd (shr_fexp 53 1024 (Zpos m) e loc_Exact) = Zpos (digits2_pos m) + e - 53
  /\ 2 ^ 52 <= shr_m (fst (shr_fexp 53 1024 (Zpos m) e loc_Exact)) < 2 ^ 53.
Proof.
  intros Hd He. unfold shr_fexp. cbn [Zdigits2 shr_record_of_loc].
  rewrite fexp_normal by assumption.
  pose proof (digits2_pos_bounds m) as Hm.
  remember (Zpos (digits2_pos m)) as d eqn:Ed.
  destruct (d + e - 53 - e) as [|k|k] eqn:En; cbn [shr fst snd shr_m]; try lia.
  - assert (d = 53) as -> by lia. split; [lia|]. exact Hm.
  - split; [lia|].
    rewrite iter_shr_1_m by (cbn; lia). cbn [shr_m].
    assert (d = 53 + Zpos k) as -> by lia.
    replace (53 + Zpos k - 1) with (Zpos k + 52) in Hm by lia.
    rewrite !Z.pow_add_r in Hm by lia.
    split.
    + apply Z.div_le_lower_bound; lia.
    + apply Z.div_lt_upper_bound; lia.
Qed.

Lemma shr_fexp_nonneg (m e : Z) (l : location) :
  0 <= m -> 0 <= shr_m (fst (shr_fexp 53 1024 m e l)).
Proof.
  intros Hm. unfold shr_fexp, shr.
  assert (0 <= shr_m (shr_record_of_loc m l)) as H0
    by (destruct l as [|[]]; exact Hm).
  destruct (fexp 53 1024 (Zdigits2 m + e) - e) as [|k|k]; cbn [fst]; try exact H0.
  rewrite iter_shr_1_m by exact H0. apply Z.div_pos; lia.
Qed.

(** **** Rounding *)

Lemma round_nearest_even_range (m : Z) (l : location) :
  m <= round_nearest_even m l <= m + 1.
Proof.
  destruct l as [|[]]; cbn; try lia. destruct (Z.even m); lia.
Qed.

Lemma normal_from_weaken (k k' : Z) (x : spec_float) :
  k' <= k -> normal_from k x -> normal_from k' x.
Proof.
  intros Hk [-> | (m & e & -> & Hd & He)]; [now left|].
  right. exists m, e. repeat split; [assumption | lia].
Qed.

(** Rounding an exact positive number of the normal range: the result
    is normal, or infinite, and its exponent is not below the one that
    its number of digits asks for. *)
Lemma round_normal (m : positive) (e : Z) :
  53 <= Zpos (digits2_pos m) ->
  -1074 <= Zpos (digits2_pos m) + e - 53 ->
  normal_from (Zpos (digits2_pos m) + e - 53)
    (binary_round_aux 53 1024 false (Zpos m) e loc_Exact).
Proof.
  intros Hd He. unfold binary_round_aux.
  destruct (shr_fexp_exact m e Hd He) as [He' Hm'].
  destruct (shr_fexp 53 1024 (Zpos m) e loc_Exact) as [mrs' e'].
  cbn [fst snd] in He', Hm'.
  pose proof (round_nearest_even_range (shr_m mrs') (loc_of_shr_record mrs')) as Hr.
  destruct (round_nearest_even (shr_m mrs') (loc_of_shr_record mrs'))
    as [|r|r]; try lia.
  assert (53 <= Zpos (digits2_pos r) <= 54) as Hdr.
  { split.
    - apply (digits2_pos_lower r 52); lia.
    - apply (digits2_pos_upper r 53); lia. }
  assert (-1074 <= Zpos (digits2_pos r) + e' - 53) as Her by lia.
  destruct (shr_fexp_exact r e' (proj1 Hdr) Her) as [He'' Hm''].
  destruct (shr_fexp 53 1024 (Zpos r) e' loc_Exact) as [mrs'' e''].
  cbn [fst snd] in He'', Hm''.
  destruct (shr_m mrs'') as [|m''|m'']; try lia.
  destruct (e'' <=? 1024 - 53); [|now left].
  right. exists m'', e''. split; [reflexivity|]. split; [|lia].
  apply digits2_pos_unique; [lia|]. exact Hm''.
Qed.

(** Rounding a number that is not negative gives neither a negative
    number nor NaN. *)
Lemma round_nonneg (m e : Z) (l : location) :
  0 <= m -> nonneg (binary_round_aux 53 1024 false m e l).
Proof.
  intros Hm. unfold binary_round_aux.
  pose proof (shr_fexp_nonneg m e l Hm) as H1.
  destruct (shr_fexp 53 1024 m e l) as [mrs' e']. cbn [fst] in H1.
  pose proof (round_nearest_even_range (shr_m mrs') (loc_of_shr_record mrs')) as Hr.
  assert (0 <= round_nearest_even (shr_m mrs') (loc_of_shr_record mrs')) as H2 by lia.
  pose proof (shr_fexp_nonneg _ e' loc_Exact H2) as H3.
  destruct (shr_fexp 53 1024 _ e' loc_Exact) as [mrs'' e'']. cbn [fst] in H3.
  destruct (shr_m mrs'') as [|m''|m'']; [exact I | | lia].
  destruct (e'' <=? 1024 - 53); exact I.
Qed.

(** **** The operations of the engine *)

(** [float(n)] for a positive int [n] of [d] digits has an exponent of
    at least [d - 53]. *)
Lemma of_int_normal (p : positive) :
  normal_from (Zpos (digits2_pos p) - 53) (PyFloat.of_int (Zpos p)).
Proof.
  unfold PyFloat.of_int, PyFloat.prec, PyFloat.emax.
  unfold binary_normalize, binary_round, shl_align.
  rewrite fexp_normal by lia.
  destruct (Zpos (digits2_pos p) + 0 - 53 - 0) as [|k|k] eqn:Ek.
  - eapply normal_from_weaken; [|apply round_normal]; lia.
  - eapply normal_from_weaken; [|apply round_normal]; lia.
  - eapply normal_from_weaken; [|apply round_normal];
      rewrite digits2_pos_iter_xO; lia.
Qed.

(** The product of a number of exponent at least [kx] with a positive
    normal number of exponent [ey] has an exponent of at least
    [kx + ey + 52]. *)
Lemma mul_normal (kx : Z) (x : spec_float) (my : positive) (ey : Z) :
  normal_from kx x ->
  Zpos (digits2_pos my) = 53 ->
  -1074 <= kx + ey + 52 ->
  normal_from (kx + ey + 52) (PyFloat.mul x (S754_finite false my ey)).
Proof.
  unfold PyFloat.mul, PyFloat.prec, PyFloat.emax.
  intros [-> | (mx & ex & -> & Hdx & Hex)] Hdy Hk; [now left|].
  cbn [SFmul xorb].
  pose proof (digits2_pos_bounds mx) as Hbx.
  pose proof (digits2_pos_bounds my) as Hby.
  rewrite Hdx in Hbx. rewrite Hdy in Hby.
  assert (105 <= Zpos (digits2_pos (mx * my))) as Hd.
  { apply (digits2_pos_lower (mx * my) 104); [lia|].
    rewrite Pos2Z.inj_mul.
    change (2 ^ 104) with (2 ^ 52 * 2 ^ 52).
    apply Z.mul_le_mono_nonneg; lia. }
  eapply normal_from_weaken; [|apply round_normal]; lia.
Qed.

Lemma normal_not_below (x : spec_float) (k : Z) (m : positive) (e : Z) :
  normal_from k x -> e < k -> PyFloat.ltb x (S754_finite false m e) = false.
Proof.
  intros [-> | (mx & ex & -> & _ & Hex)] He; [reflexivity|].
  unfold PyFloat.ltb, SFltb, SFcompare.
  assert ((ex ?= e) = Gt) as -> by (apply Z.compare_gt_iff; lia).
  reflexivity.
Qed.

(** The quotient of two ints, the first not negative and the second
    positive, is neither negative nor NaN. *)
Lemma int_truediv_nonneg (a b : Z) :
  0 <= a -> 0 < b -> nonneg (PyFloat.int_truediv a b).
Proof.
  intros Ha Hb.
  unfold PyFloat.int_truediv, PyFloat.div, PyFloat.prec, PyFloat.emax.
  destruct b as [|pb|pb]; try lia.
  destruct a as [|pa|pa]; try lia; cbn [PyFloat.exact_int SFdiv xorb].
  - exact I.
  - unfold SFdiv_core_binary.
    set (m' := match _ with Z0 => Zpos pa | Zpos _ => _ | Zneg _ => 0 end).
    assert (0 <= m') as Hm'.
    { subst m'. destruct (_ - _ - _) as [|s|s]; try lia.
      apply Z.shiftl_nonneg. lia. }
    pose proof (Z.div_pos m' (Zpos pb) Hm' ltac:(lia)) as Hq.
    unfold Z.div in Hq.
    destruct (Z.div_eucl m' (Zpos pb)) as [q r].
    now apply round_nonneg.
Qed.

Lemma nonneg_leb_zero (x : spec_float) :
  nonneg x -> (#0.0 <=? x)%py = true.
Proof. destruct x as [[]|[]| |[] m e]; cbn; intros H; now try reflexivity. Qed.

Lemma ltb_leb (x y : spec_float) : (x <? y)%py = true -> (x <=? y)%py = true.
Proof.
  unfold PyFloat.ltb, PyFloat.leb, SFltb, SFleb.
  destruct (SFcompare x y) as [[]|]; congruence.
Qed.

Lemma mul_comm (x y : PyFloat.float) : (x * y)%py = (y * x)%py.
Proof.
  unfold PyFloat.mul.
  destruct x as [sx|sx| |sx mx ex], y as [sy|sy| |sy my ey]; cbn [SFmul];
    rewrite ?(xorb_comm sx sy); try reflexivity.
  now rewrite (Pos.mul_comm mx my), (Z.add_comm ex ey).
Qed.

Lemma lit_0_04 : (#0.04)%py = S754_finite false 5764607523034235 (-57).
Proof. vm_compute. reflexivity. Qed.

Lemma lit_0_2 : (#0.2)%py = S754_finite false 7205759403792794 (-55).
Proof. vm_compute. reflexivity. Qed.

(** From 8 rules on, the product [n * 0.04] has an exponent above the
    one of 0.2. *)
Lemma count_times_0_04_from_8 (p : positive) :
  8 <= Zpos p -> (PyFloat.of_int (Zpos p) * #0.04 <? #0.2)%py = false.
Proof.
  intros Hp. rewrite lit_0_04, lit_0_2.
  apply (normal_not_below _ (-54)); [|lia].
  assert (4 <= Zpos (digits2_pos p)) as Hd
    by (apply (digits2_pos_lower p 3); [lia | exact Hp]).
  apply (mul_normal (-49)); [|reflexivity|lia].
  eapply normal_from_weaken; [|apply of_int_normal]. lia.
Qed.

End Binary64.

(* ================================================================== *)
(** ** Properties of the score *)

Lemma score_unfold (analysis : Analysis.t) (rules_applied : list string) :
  calculate_optimization_score analysis rules_applied
  = PyFloat.min (#1.0)%py
      (base_score analysis + rule_bonus (List.length rules_applied))%py.
Proof. reflexivity. Qed.

(** From five rules on the bonus is 0.2: on 5, 6 and 7 by computing the
    product, from 8 on by its exponent. *)
Lemma rule_bonus_cap (count : nat) :
  5 <= count -> rule_bonus count = (#0.2)%py.
Proof.
  intros Hn. unfold rule_bonus, PyFloat.min.
  destruct (Z.of_nat count) as [|p|p] eqn:En; try lia.
  destruct (Z.le_gt_cases 8 (Zpos p)) as [H8|H8].
  - now rewrite count_times_0_04_from_8.
  - assert (p = 5 \/ p = 6 \/ p = 7)%positive as [-> | [-> | ->]] by lia;
      vm_compute; reflexivity.
Qed.

Lemma rule_bonus_min (count : nat) :
  rule_bonus count = rule_bonus (Nat.min count 5).
Proof.
  destruct (Nat.le_gt_cases 5 count) as [H|H].
  - rewrite (Nat.min_r count 5 H).
    now rewrite (rule_bonus_cap count H), (rule_bonus_cap 5 (le_n 5)).
  - now rewrite Nat.min_l by lia.
Qed.

(** The six values of the bonus. *)
Example rule_bonus_values :
  map rule_bonus [0; 1; 2; 3; 4; 5]
  = [(#0.0)%py; (#0.04)%py; (#0.08)%py; (#0.12)%py; (#0.16)%py; (#0.2)%py].
Proof. vm_compute. reflexivity. Qed.

Ltac flags analysis :=
  destruct analysis as [? ? [] [] [] [] ? ? ? ? ? ?];
  cbn [Analysis.has_clear_task Analysis.has_context Analysis.has_examples
       Analysis.has_constraints].

Ltac upto5 k :=
  destruct k as [|[|[|[|[|[|?]]]]]]; [ | | | | | | exfalso; lia].

(** C4.  For every analysis and every list of rules applied, the score
    that [calculate_optimization_score] returns is
    min(1.0, 0.3 + 0.2·[has_clear_task] + 0.1·[has_context]
             + 0.1·[has_examples] + 0.1·[has_constraints]
             + min(0.2, 0.04·length(rules_applied))),
    evaluated in binary64 from left to right, and it lies between 0.3
    and 1.0. *)
Theorem score_formula_and_range
  (analysis : Analysis.t) (rules_applied : list string) :
  let score := calculate_optimization_score analysis rules_applied in
  score = score_formula analysis (List.length rules_applied)
  /\ (#0.3 <=? score)%py = true
  /\ (score <=? #1.0)%py = true.
Proof.
  cbn zeta. rewrite score_unfold. split.
  - unfold score_formula. rewrite (mul_comm (#0.04)%py).
    fold (rule_bonus (List.length rules_applied)).
    generalize (rule_bonus (List.length rules_applied)) as bonus. intros bonus.
    unfold base_score.
    flags analysis; do 2 f_equal; vm_compute; reflexivity.
  - rewrite rule_bonus_min.
    assert (Nat.min (List.length rules_applied) 5 <= 5) as Hk by lia.
    generalize dependent (Nat.min (List.length rules_applied) 5). intros k Hk.
    unfold base_score.
    flags analysis; upto5 k; vm_compute; split; reflexivity.
Qed.

(** C7.  For a fixed analysis the score does not decrease with the
    number of rules applied: if [r1] is not longer than [r2], the score
    of [r1] is at most the score of [r2]. *)
Theorem score_monotone_in_rule_count
  (analysis : Analysis.t) (r1 r2 : list string) :
  List.length r1 <= List.length r2 ->
  (calculate_optimization_score analysis r1
   <=? calculate_optimization_score analysis r2)%py = true.
Proof.
  intros Hle. rewrite !score_unfold.
  rewrite (rule_bonus_min (List.length r1)), (rule_bonus_min (List.length r2)).
  assert (Nat.min (List.length r1) 5 <= Nat.min (List.length r2) 5) as H12 by lia.
  assert (Nat.min (List.length r2) 5 <= 5) as H2 by lia.
  generalize dependent (Nat.min (List.length r2) 5). intros k2.
  generalize (Nat.min (List.length r1) 5). intros k1 H12 H2.
  unfold base_score.
  flags analysis; upto5 k2; upto5 k1; try (exfalso; lia); vm_compute; reflexivity.
Qed.

Lemma score_monotone_in_rule_count_witness :
  let analysis := analyze_prompt_structure binary_search_prompt in
  (calculate_optimization_score analysis ["expert_system"]
   <=? calculate_optimization_score analysis
         ["expert_system"; "chain_of_thought"; "enhance_clarity"])%py = true.
Proof.
  intros analysis.
  apply (score_monotone_in_rule_count analysis
           ["expert_system"]
           ["expert_system"; "chain_of_thought"; "enhance_clarity"]).
  cbn. lia.
Defined.

(** Up to the cap the score grows with each rule; beyond it the score
    stays. *)
Example score_steps :
  let analysis := analyze_prompt_structure binary_search_prompt in
  let score (count : nat) :=
    calculate_optimization_score analysis (repeat "expert_system" count) in
  map score [0; 1; 2; 3; 4; 5; 6; 9]
  = [(#0.3)%py; (#0.33999999999999997)%py; (#0.38)%py; (#0.42)%py;
     (#0.45999999999999996)%py; (#0.5)%py; (#0.5)%py; (#0.5)%py].
Proof. vm_compute. reflexivity. Qed.

(* ================================================================== *)
(** ** Properties of the analyzer *)

Lemma int_max_ge (a b : nat) : a <= int_max a b.
Proof.
  unfold int_max. destruct (a <? b) eqn:E; [apply Nat.ltb_lt in E|]; lia.
Qed.

Lemma min_one_in_unit_interval (q : PyFloat.float) :
  nonneg q ->
  (#0.0 <=? PyFloat.min #1.0 q)%py = true
  /\ (PyFloat.min #1.0 q <=? #1.0)%py = true.
Proof.
  intros Hq. unfold PyFloat.min.
  destruct (q <? #1.0)%py eqn:Hlt.
  - split; [now apply nonneg_leb_zero | now apply ltb_leb].
  - split; vm_compute; reflexivity.
Qed.

(** C6.  For every prompt the clarity score lies between 0.0 and 1.0,
    and for the empty prompt it is 0.0. *)
Theorem clarity_score_in_unit_interval (prompt : string) :
  let clarity_score := Analysis.clarity_score (analyze_prompt_structure prompt) in
  (#0.0 <=? clarity_score)%py = true
  /\ (clarity_score <=? #1.0)%py = true
  /\ Analysis.clarity_score (analyze_prompt_structure "") = (#0.0)%py.
Proof.
  cbn zeta. cbn [analyze_prompt_structure Analysis.clarity_score].
  rewrite <- and_assoc. split; [|vm_compute; reflexivity].
  apply min_one_in_unit_interval, int_truediv_nonneg.
  - lia.
  - pose proof (int_max_ge 10 (List.length (PyStr.split prompt))). lia.
Qed.

(** C9.  For every prompt, [needs_examples] is true if and only if the
    prompt holds a question mark and fewer than 20 words.  At the
    boundary: every prompt of 19 words with one question mark has the
    flag, no prompt of 20 words with one question mark has it. *)
Theorem needs_examples_iff (prompt : string) :
  let analysis := analyze_prompt_structure prompt in
  (Analysis.needs_examples analysis = true
   <-> 0 < Analysis.question_count analysis
       /\ Analysis.word_count analysis < 20)
  /\ (Analysis.word_count analysis = 19 ->
      Analysis.question_count analysis = 1 ->
      Analysis.needs_examples analysis = true)
  /\ (Analysis.word_count analysis = 20 ->
      Analysis.question_count analysis = 1 ->
      Analysis.needs_examples analysis = false).
Proof.
  cbn -[PyStr.split PyStr.count Nat.ltb].
  repeat split.
  - apply andb_true_iff in H. destruct H as [H _]. now apply Nat.ltb_lt in H.
  - apply andb_true_iff in H. destruct H as [_ H]. now apply Nat.ltb_lt in H.
  - intros [Hq Hw]. apply andb_true_iff. split; now apply Nat.ltb_lt.
  - intros -> ->. reflexivity.
  - intros -> ->. reflexivity.
Qed.

(** A prompt of 19 words and one of 20 words, each with one question
    mark. *)
Lemma needs_examples_iff_witness :
  Analysis.needs_examples (analyze_prompt_structure (words_then_question 18)) = true
  /\ Analysis.needs_examples (analyze_prompt_structure (words_then_question 19)) = false.
Proof.
  split.
  - apply (needs_examples_iff (words_then_question 18)); reflexivity.
  - apply (needs_examples_iff (words_then_question 19)); reflexivity.
Defined.

Example words_then_question_counts :
  let analysis (n : nat) := analyze_prompt_structure (words_then_question n) in
  Analysis.word_count (analysis 18) = 19
  /\ Analysis.question_count (analysis 18) = 1
  /\ Analysis.word_count (analysis 19) = 20
  /\ Analysis.question_count (analysis 19) = 1.
Proof. vm_compute. repeat split. Qed.

(* ================================================================== *)
(** ** Properties of the rule engine *)

Section RuleFacts.

Local Open Scope list_scope.

Lemma mem_nil (x : string) : PyStr.mem x [] = false.
Proof. reflexivity. Qed.

Lemma mem_In (x : string) (xs : list string) :
  PyStr.mem x xs = true <-> In x xs.
Proof.
  unfold PyStr.mem. rewrite existsb_exists. split.
  - intros [y [Hin Heq]]. apply String.eqb_eq in Heq. now subst.
  - intros Hin. exists x. split; [assumption | apply String.eqb_refl].
Qed.

Lemma in_append (name x : string) (xs : list string) :
  In name (append xs x) -> In name xs \/ name = x.
Proof.
  unfold append. intros H. apply in_app_or in H.
  destruct H as [H | [H | []]]; auto.
Qed.

(** With an empty rule list no rule of the MCP tool server fires,
    whatever the analysis says. *)
Lemma Tool_run_rules_nil (raw_prompt target_model : string) (analysis : Analysis.t) :
  Tool.run_rules raw_prompt analysis [] target_model
  = {| Acc.engineered_prompt := raw_prompt; Acc.rules_applied := [] |}.
Proof.
  unfold Tool.run_rules, Tool.rule_expert_system, Tool.rule_chain_of_thought,
    Tool.rule_few_shot, Tool.rule_role_play, Tool.rule_structured_output,
    Tool.rule_model_optimize, Tool.rule_enhance_clarity, Tool.rule_add_testing.
  rewrite !mem_nil, !andb_false_r. reflexivity.
Qed.

End RuleFacts.

(** C1 (as amended).  In the MCP tool server, for every prompt and every
    target model, [apply_engineering_rules] called with the empty rule
    list applies no rule: [rules_applied] is empty and
    [engineered_prompt] is the prompt itself. *)
Theorem empty_rules_pass_through (prompt target_model : string) :
  let result := Tool.apply_engineering_rules prompt (Some []) target_model in
  Tool.Result.rules_applied result = []
  /\ Tool.Result.engineered_prompt result = prompt
  /\ Tool.Result.original_prompt result = prompt.
Proof.
  unfold Tool.apply_engineering_rules. cbn zeta.
  rewrite Tool_run_rules_nil. cbn. auto.
Qed.

(** C1, the claim in the HTTP server.  There the rules that the analysis
    asks for fire without [auto_optimize]: the empty prompt with the
    empty rule list gets [enhance_clarity], its clarity score 0.0 being
    below 0.7. *)
Lemma empty_rules_http_not_pass_through :
  let response := Http.apply_engineering_rules (Http.request "" [] "general") in
  ~ (Http.Response.rules_applied response = []
     /\ Http.Response.engineered_prompt response = "").
Proof.
  intros response [Hrules _]. vm_compute in Hrules. discriminate Hrules.
Qed.

Example empty_rules_http_result :
  let response := Http.apply_engineering_rules (Http.request "" [] "general") in
  Http.Response.rules_applied response = ["enhance_clarity"]
  /\ Http.Response.engineered_prompt response = Texts.clarity_instruction.
Proof. vm_compute. auto. Qed.

(** The HTTP server passes a prompt through on the empty rule list when
    its analysis asks for nothing. *)
Lemma empty_rules_http_quiet (prompt target_model : string) :
  let analysis := analyze_prompt_structure prompt in
  let response :=
    Http.apply_engineering_rules (Http.request prompt [] target_model) in
  Analysis.needs_reasoning analysis = false ->
  Analysis.needs_examples analysis
    && Http.truthy (Http.generate_few_shot_examples prompt) = false ->
  Analysis.needs_expertise analysis
    && Http.truthy (Http.determine_expert_role prompt) = false ->
  Analysis.needs_structure analysis = false ->
  (Analysis.clarity_score analysis <? #0.7)%py = false ->
  Http.Response.rules_applied response = []
  /\ Http.Response.engineered_prompt response = prompt.
Proof.
  intros analysis response Hreasoning Hexamples Hexpertise Hstructure Hclarity.
  subst response. unfold Http.apply_engineering_rules, Http.request.
  cbn [get Http.Request.request_id Http.Request.raw_prompt Http.Request.config
       Http.Config.apply_rules Http.Config.model
       Http.Response.rules_applied Http.Response.engineered_prompt].
  fold analysis.
  unfold Http.run_rules, Http.rule_expert_system, Http.rule_chain_of_thought,
    Http.rule_few_shot, Http.rule_role_play, Http.rule_structured_output,
    Http.rule_model_optimize, Http.rule_enhance_clarity, Http.rule_add_testing.
  rewrite !mem_nil, Hreasoning, Hstructure, Hclarity. cbn [orb].
  destruct (Analysis.needs_examples analysis);
    destruct (Analysis.needs_expertise analysis);
    cbn [andb] in Hexamples, Hexpertise; cbn zeta;
    rewrite ?Hexamples, ?Hexpertise; split; reflexivity.
Qed.

Example empty_rules_http_quiet_prompt :
  let prompt := "Please summarize those seven lengthy paragraphs carefully today" in
  let response := Http.apply_engineering_rules (Http.request prompt [] "general") in
  Http.Response.rules_applied response = []
  /\ Http.Response.engineered_prompt response = prompt
  /\ Analysis.clarity_score (Http.Response.prompt_analysis response) = (#0.8)%py.
Proof. vm_compute. repeat split. Qed.

(* ------------------------------------------------------------------ *)
(** *** The two scenarios of the specification *)

(** C3 (as amended).  For the empty prompt with the rule list
    [["auto_optimize"]] and the model "general": the word count is 0,
    the clarity score is 0.0, every [needs_*] flag is false, the rules
    applied are [expert_system] and then [enhance_clarity] (the clarity
    score is below 0.7), and the optimization score is 0.38, the base
    0.3 plus 0.04 for each of the two rules. *)
Theorem empty_prompt_scenario :
  let analysis := Tool.Result.analysis empty_scenario in
  Analysis.word_count analysis = 0
  /\ Analysis.clarity_score analysis = (#0.0)%py
  /\ Analysis.needs_reasoning analysis = false
  /\ Analysis.needs_examples analysis = false
  /\ Analysis.needs_expertise analysis = false
  /\ Analysis.needs_structure analysis = false
  /\ Tool.Result.rules_applied empty_scenario
     = ["expert_system"; "enhance_clarity"]
  /\ Tool.Result.optimization_score empty_scenario = (#0.38)%py.
Proof. vm_compute. repeat split. Qed.

(** C3, the claim as stated: [expert_system] is not the only rule
    applied to the empty prompt, and the score is not 0.3. *)
Lemma empty_prompt_scenario_as_stated_fails :
  let analysis := Tool.Result.analysis empty_scenario in
  ~ (Analysis.word_count analysis = 0
     /\ Analysis.clarity_score analysis = (#0.0)%py
     /\ Analysis.needs_reasoning analysis = false
     /\ Analysis.needs_examples analysis = false
     /\ Analysis.needs_expertise analysis = false
     /\ Analysis.needs_structure analysis = false
     /\ Tool.Result.rules_applied empty_scenario = ["expert_system"]
     /\ Tool.Result.optimization_score empty_scenario = (#0.3)%py).
Proof.
  intros analysis (_ & _ & _ & _ & _ & _ & Hrules & _).
  vm_compute in Hrules. discriminate Hrules.
Qed.

(** Neither part of the stated outcome holds: the score differs from 0.3
    as a float, and with one rule it would be 0.3 + 0.04, which is
    0.33999999999999997 in binary64. *)
Example empty_prompt_score_is_not_base :
  (Tool.Result.optimization_score empty_scenario =? #0.3)%py = false
  /\ (Tool.Result.optimization_score empty_scenario =? #0.38)%py = true
  /\ calculate_optimization_score (Tool.Result.analysis empty_scenario)
       ["expert_system"] = (#0.33999999999999997)%py.
Proof. vm_compute. repeat split. Qed.

(** C8.  For "How do I implement a binary search?" with the rule list
    [["auto_optimize"]] and the model "general": [needs_reasoning] and
    [needs_examples] are true and [has_clear_task] is false; neither
    [role_play] nor [few_shot] is among the rules applied.  The gate of
    [few_shot] passes and its lookup finds no example; the lookup of an
    expert role finds no keyword either. *)
Theorem binary_search_prompt_scenario :
  let analysis := Tool.Result.analysis binary_search_scenario in
  let rules_applied := Tool.Result.rules_applied binary_search_scenario in
  Analysis.needs_reasoning analysis = true
  /\ Analysis.needs_examples analysis = true
  /\ Analysis.has_clear_task analysis = false
  /\ PyStr.mem "role_play" rules_applied = false
  /\ PyStr.mem "few_shot" rules_applied = false
  /\ (PyStr.mem "few_shot" ["auto_optimize"]
      || (Analysis.needs_examples analysis
          && PyStr.mem "auto_optimize" ["auto_optimize"])) = true
  /\ Tool.generate_few_shot_examples binary_search_prompt = ""
  /\ Tool.determine_expert_role binary_search_prompt = "".
Proof. vm_compute. repeat split. Qed.

Example binary_search_details :
  let analysis := Tool.Result.analysis binary_search_scenario in
  Analysis.word_count analysis = 7
  /\ Analysis.question_count analysis = 1
  /\ Analysis.needs_expertise analysis = false
  /\ Analysis.clarity_score analysis = (#0.3)%py
  /\ Tool.Result.rules_applied binary_search_scenario
     = ["expert_system"; "chain_of_thought"; "enhance_clarity"]
  /\ Tool.Result.optimization_score binary_search_scenario = (#0.42)%py.
Proof. vm_compute. repeat split. Qed.

(* ------------------------------------------------------------------ *)
(** *** Rules whose lookup finds nothing *)

Section Lookups.

Local Open Scope list_scope.

Lemma any_in_cons (word : string) (words : list string) (text : string) :
  any_in (word :: words) text = PyStr.contains word text || any_in words text.
Proof. reflexivity. Qed.

Ltac no_keyword H :=
  unfold any_in in H; cbn [existsb] in H;
  repeat (apply orb_false_iff in H; destruct H as [? H]);
  unfold any_in; cbn [existsb];
  repeat match goal with
         | Hc : PyStr.contains _ _ = false |- _ => rewrite Hc; clear Hc
         end.

Lemma few_shot_no_keyword (prompt : string) :
  any_in few_shot_keywords (PyStr.lower prompt) = false ->
  Tool.generate_few_shot_examples prompt = "".
Proof.
  unfold few_shot_keywords, Tool.generate_few_shot_examples.
  intros H. no_keyword H. reflexivity.
Qed.

Lemma role_no_keyword (prompt : string) :
  any_in role_keywords (PyStr.lower prompt) = false ->
  Tool.determine_expert_role prompt = "".
Proof.
  unfold role_keywords, Tool.determine_expert_role.
  intros H. no_keyword H. reflexivity.
Qed.

Lemma model_no_keyword (prompt model : string) :
  any_in model_keywords (PyStr.lower model) = false ->
  Tool.apply_model_specific_rules prompt model = "".
Proof.
  unfold model_keywords, Tool.apply_model_specific_rules.
  intros H. no_keyword H. reflexivity.
Qed.

(** Conversely a keyword makes the lookup of [few_shot] find a text. *)
Lemma few_shot_keyword (prompt : string) :
  any_in few_shot_keywords (PyStr.lower prompt) = true ->
  PyStr.truthy (Tool.generate_few_shot_examples prompt) = true.
Proof.
  unfold few_shot_keywords, Tool.generate_few_shot_examples.
  rewrite !any_in_cons. cbn [any_in existsb]. rewrite orb_false_r.
  destruct (PyStr.contains "code" _), (PyStr.contains "programming" _),
    (PyStr.contains "write" _), (PyStr.contains "content" _);
    cbn; congruence.
Qed.

End Lookups.

Section ToolRun.

Local Open Scope list_scope.

Variables (raw_prompt target_model : string).
Variables (analysis : Analysis.t) (rules : list string).

Let sound (acc : Acc.t) : Prop :=
  forall name, In name (Acc.rules_applied acc) -> fired raw_prompt target_model name.

Ltac step_sound H :=
  let name := fresh "name" in
  let Hin := fresh "Hin" in
  intros name Hin; cbn in Hin; apply in_append in Hin;
  destruct Hin as [Hin | ->]; [now apply H | unfold fired; tauto].

Lemma sound_expert_system acc :
  sound acc -> sound (Tool.rule_expert_system rules acc).
Proof.
  intros H. unfold Tool.rule_expert_system.
  destruct (_ || _); [step_sound H | exact H].
Qed.

Lemma sound_chain_of_thought acc :
  sound acc -> sound (Tool.rule_chain_of_thought analysis rules acc).
Proof.
  intros H. unfold Tool.rule_chain_of_thought.
  destruct (_ || _); [step_sound H | exact H].
Qed.

Lemma sound_few_shot acc :
  sound acc -> sound (Tool.rule_few_shot raw_prompt analysis rules acc).
Proof.
  intros H. unfold Tool.rule_few_shot.
  destruct (_ || _); [|exact H]. cbn zeta.
  destruct (PyStr.truthy _) eqn:Htruthy; [step_sound H | exact H].
Qed.

Lemma sound_role_play acc :
  sound acc -> sound (Tool.rule_role_play raw_prompt analysis rules acc).
Proof.
  intros H. unfold Tool.rule_role_play.
  destruct (_ || _); [|exact H]. cbn zeta.
  destruct (PyStr.truthy _) eqn:Htruthy; [step_sound H | exact H].
Qed.

Lemma sound_structured_output acc :
  sound acc -> sound (Tool.rule_structured_output analysis rules acc).
Proof.
  intros H. unfold Tool.rule_structured_output.
  destruct (_ || _); [step_sound H | exact H].
Qed.

Lemma sound_model_optimize acc :
  sound acc -> sound (Tool.rule_model_optimize target_model rules acc).
Proof.
  intros H. unfold Tool.rule_model_optimize.
  destruct (PyStr.mem "model_optimize" rules); [|exact H]. cbn zeta.
  destruct (PyStr.truthy _) eqn:Htruthy; [|exact H].
  intros name Hin. cbn in Hin. apply in_append in Hin.
  destruct Hin as [Hin | ->]; [now apply H|].
  unfold fired. do 5 right. left. split; [reflexivity|].
  intros prompt. exact Htruthy.
Qed.

Lemma sound_enhance_clarity acc :
  sound acc -> sound (Tool.rule_enhance_clarity analysis rules acc).
Proof.
  intros H. unfold Tool.rule_enhance_clarity.
  destruct (_ || _); [step_sound H | exact H].
Qed.

Lemma sound_add_testing acc :
  sound acc -> sound (Tool.rule_add_testing rules acc).
Proof.
  intros H. unfold Tool.rule_add_testing.
  destruct (PyStr.mem "add_testing" rules); [step_sound H | exact H].
Qed.

(** Every name among the rules applied was put there by its own rule,
    and by the three rules with a lookup only when the lookup found a
    text. *)
Lemma run_rules_sound :
  forall name,
    In name (Acc.rules_applied
               (Tool.run_rules raw_prompt analysis rules target_model)) ->
    fired raw_prompt target_model name.
Proof.
  unfold Tool.run_rules. cbn zeta.
  apply sound_add_testing, sound_enhance_clarity, sound_model_optimize,
    sound_structured_output, sound_role_play, sound_few_shot,
    sound_chain_of_thought, sound_expert_system.
  intros name [].
Qed.

End ToolRun.

Ltac not_fired Hin :=
  repeat (destruct Hin as [Hin | Hin]; try discriminate Hin);
  try (destruct Hin as [Hname Hfound];
       first [discriminate Hname | discriminate Hfound]).

(** C5.  A rule whose lookup finds no match is a no-op, whether or not
    its gate passes: [few_shot] on a prompt without any of code,
    programming, write, content; [role_play] on a prompt without any
    keyword of a role; [model_optimize] for a target model that matches
    none of gpt, claude, gemini.  The step leaves the text so far and
    the rule names so far as they are, and its name is not among the
    rules applied that the engine returns. *)
Theorem gated_rule_without_match_is_no_op
  (raw_prompt target_model : string) (rules : list string)
  (analysis : Analysis.t) (acc : Acc.t) :
  let result := Tool.apply_engineering_rules raw_prompt (Some rules) target_model in
  (any_in few_shot_keywords (PyStr.lower raw_prompt) = false ->
   Tool.rule_few_shot raw_prompt analysis rules acc = acc
   /\ ~ In "few_shot" (Tool.Result.rules_applied result))
  /\ (any_in role_keywords (PyStr.lower raw_prompt) = false ->
      Tool.rule_role_play raw_prompt analysis rules acc = acc
      /\ ~ In "role_play" (Tool.Result.rules_applied result))
  /\ (any_in model_keywords (PyStr.lower target_model) = false ->
      Tool.rule_model_optimize target_model rules acc = acc
      /\ ~ In "model_optimize" (Tool.Result.rules_applied result)).
Proof.
  cbn zeta. unfold Tool.apply_engineering_rules. cbn [Tool.Result.rules_applied].
  repeat split.
  - unfold Tool.rule_few_shot. rewrite (few_shot_no_keyword _ H).
    now destruct (_ || _).
  - intros Hin. apply run_rules_sound in Hin.
    unfold fired in Hin. rewrite (few_shot_no_keyword _ H) in Hin.
    cbn in Hin. not_fired Hin.
  - unfold Tool.rule_role_play. rewrite (role_no_keyword _ H).
    now destruct (_ || _).
  - intros Hin. apply run_rules_sound in Hin.
    unfold fired in Hin. rewrite (role_no_keyword _ H) in Hin.
    cbn in Hin. not_fired Hin.
  - unfold Tool.rule_model_optimize.
    rewrite (model_no_keyword _ _ H).
    now destruct (PyStr.mem "model_optimize" rules).
  - intros Hin. apply run_rules_sound in Hin.
    unfold fired in Hin.
    repeat (destruct Hin as [Hin | Hin]; try discriminate Hin).
    + destruct Hin as [Hin _]; discriminate Hin.
    + destruct Hin as [Hin _]; discriminate Hin.
    + destruct Hin as [_ Hin]. specialize (Hin "").
      rewrite (model_no_keyword _ _ H) in Hin. discriminate Hin.
Qed.

(** An instance where the gate of [few_shot] passes ([needs_examples]
    holds under [auto_optimize]) and where [role_play] and
    [model_optimize] are requested by name. *)
Lemma gated_rule_without_match_is_no_op_witness :
  let rules := ["auto_optimize"; "role_play"; "model_optimize"] in
  let analysis := analyze_prompt_structure binary_search_prompt in
  let acc := {| Acc.engineered_prompt := binary_search_prompt;
                Acc.rules_applied := ["expert_system"] |} in
  let result :=
    Tool.apply_engineering_rules binary_search_prompt (Some rules) "general" in
  (Tool.rule_few_shot binary_search_prompt analysis rules acc = acc
   /\ ~ In "few_shot" (Tool.Result.rules_applied result))
  /\ (Tool.rule_role_play binary_search_prompt analysis rules acc = acc
      /\ ~ In "role_play" (Tool.Result.rules_applied result))
  /\ (Tool.rule_model_optimize "general" rules acc = acc
      /\ ~ In "model_optimize" (Tool.Result.rules_applied result)).
Proof.
  intros rules analysis acc result.
  pose proof (gated_rule_without_match_is_no_op
                binary_search_prompt "general" rules analysis acc) as H.
  destruct H as (Hfew & Hrole & Hmodel).
  split; [apply Hfew; reflexivity|].
  split; [apply Hrole; reflexivity | apply Hmodel; reflexivity].
Defined.

(** With a match the same gates do apply the rules. *)
Example gated_rule_with_match :
  Tool.Result.rules_applied
    (Tool.apply_engineering_rules "Please write code"
       (Some ["few_shot"; "role_play"; "model_optimize"]) "GPT-4")
  = ["few_shot"; "role_play"; "model_optimize"].
Proof. vm_compute. reflexivity. Qed.

(* ================================================================== *)
(** ** The two servers side by side *)

Section TwoServers.

Local Open Scope list_scope.

Variables (raw_prompt target_model : string).
Variables (analysis : Analysis.t) (rules : list string).
Hypothesis auto_optimize : PyStr.mem "auto_optimize" rules = true.

Lemma same_expert_system acc :
  Tool.rule_expert_system rules acc = Http.rule_expert_system rules acc.
Proof. reflexivity. Qed.

Lemma same_chain_of_thought acc :
  Tool.rule_chain_of_thought analysis rules acc
  = Http.rule_chain_of_thought analysis rules acc.
Proof.
  unfold Tool.rule_chain_of_thought, Http.rule_chain_of_thought.
  now rewrite auto_optimize, andb_true_r.
Qed.

Lemma same_few_shot acc :
  Tool.rule_few_shot raw_prompt analysis rules acc
  = Http.rule_few_shot raw_prompt analysis rules acc.
Proof.
  unfold Tool.rule_few_shot, Http.rule_few_shot.
  rewrite auto_optimize, andb_true_r.
  destruct (_ || _); [|reflexivity].
  unfold Tool.generate_few_shot_examples, Http.generate_few_shot_examples.
  destruct (_ || _); [reflexivity|].
  destruct (_ || _); reflexivity.
Qed.

Lemma same_role_play acc :
  Tool.rule_role_play raw_prompt analysis rules acc
  = Http.rule_role_play raw_prompt analysis rules acc.
Proof.
  unfold Tool.rule_role_play, Http.rule_role_play.
  rewrite auto_optimize, andb_true_r.
  destruct (_ || _); [|reflexivity].
  unfold Tool.determine_expert_role, Http.determine_expert_role.
  cbn zeta.
  repeat (destruct (any_in _ _); [reflexivity|]).
  reflexivity.
Qed.

Lemma same_model_optimize acc :
  Tool.rule_model_optimize target_model rules acc
  = Http.rule_model_optimize target_model rules acc.
Proof.
  unfold Tool.rule_model_optimize, Http.rule_model_optimize.
  destruct (PyStr.mem "model_optimize" rules); [|reflexivity].
  unfold Tool.apply_model_specific_rules, Http.apply_model_specific_rules.
  cbn zeta.
  repeat (destruct (PyStr.contains _ _); [reflexivity|]).
  reflexivity.
Qed.

Lemma same_enhance_clarity acc :
  Tool.rule_enhance_clarity analysis rules acc
  = Http.rule_enhance_clarity analysis rules acc.
Proof.
  unfold Tool.rule_enhance_clarity, Http.rule_enhance_clarity.
  now rewrite auto_optimize, andb_true_r.
Qed.

Lemma same_add_testing acc :
  Tool.rule_add_testing rules acc = Http.rule_add_testing rules acc.
Proof. reflexivity. Qed.

(** The last three rules read the rule names so far only to extend
    them. *)
Lemma last_rules_names acc acc' :
  Acc.rules_applied acc = Acc.rules_applied acc' ->
  Acc.rules_applied (last_rules target_model analysis rules acc)
  = Acc.rules_applied (last_rules target_model analysis rules acc').
Proof.
  intros H. unfold last_rules, Http.rule_add_testing, Http.rule_enhance_clarity,
    Http.rule_model_optimize, Http.apply_model_specific_rules.
  cbn zeta.
  destruct (PyStr.mem "model_optimize" rules),
    (PyStr.mem "enhance_clarity" rules || _),
    (PyStr.mem "add_testing" rules);
    repeat (destruct (PyStr.contains _ _));
    cbn; now rewrite H.
Qed.

Lemma last_rules_keep (name : string) acc :
  In name (Acc.rules_applied acc) ->
  In name (Acc.rules_applied (last_rules target_model analysis rules acc)).
Proof.
  intros H. unfold last_rules, Http.rule_add_testing, Http.rule_enhance_clarity,
    Http.rule_model_optimize.
  cbn zeta.
  destruct (PyStr.mem "model_optimize" rules),
    (PyStr.mem "enhance_clarity" rules || _),
    (PyStr.mem "add_testing" rules);
    try destruct (Http.truthy _);
    cbn; unfold append; rewrite ?in_app_iff; tauto.
Qed.

Lemma Tool_run_rules_split :
  Tool.run_rules raw_prompt analysis rules target_model
  = last_rules target_model analysis rules
      (Tool.rule_structured_output analysis rules
         (first_rules raw_prompt analysis rules)).
Proof.
  unfold Tool.run_rules, last_rules, first_rules. cbn zeta.
  now rewrite same_add_testing, same_enhance_clarity, same_model_optimize,
    same_role_play, same_few_shot, same_chain_of_thought, same_expert_system.
Qed.

Lemma Http_run_rules_split :
  Http.run_rules raw_prompt analysis rules target_model
  = last_rules target_model analysis rules
      (Http.rule_structured_output analysis rules
         (first_rules raw_prompt analysis rules)).
Proof. reflexivity. Qed.

Lemma run_rules_same_names :
  Acc.rules_applied (Tool.run_rules raw_prompt analysis rules target_model)
  = Acc.rules_applied (Http.run_rules raw_prompt analysis rules target_model).
Proof.
  rewrite Tool_run_rules_split, Http_run_rules_split.
  apply last_rules_names.
  unfold Tool.rule_structured_output, Http.rule_structured_output.
  rewrite auto_optimize, andb_true_r.
  now destruct (_ || _).
Qed.

Lemma run_rules_same_text :
  ~ In "structured_output"
      (Acc.rules_applied (Tool.run_rules raw_prompt analysis rules target_model)) ->
  Tool.run_rules raw_prompt analysis rules target_model
  = Http.run_rules raw_prompt analysis rules target_model.
Proof.
  rewrite Tool_run_rules_split, Http_run_rules_split.
  unfold Tool.rule_structured_output, Http.rule_structured_output.
  rewrite auto_optimize, andb_true_r.
  destruct (_ || _); [|reflexivity].
  intros Hnot. exfalso. apply Hnot. apply last_rules_keep.
  cbn. unfold append. apply in_app_iff. right. now left.
Qed.

End TwoServers.

(** C2 (as amended).  For every prompt, every target model and every
    rule list that holds [auto_optimize], the two servers apply the same
    rules in the same order, and they produce the same text whenever
    [structured_output] is not among the rules applied. *)
Theorem servers_agree_under_auto_optimize
  (prompt : string) (rules : list string) (target_model : string) :
  PyStr.mem "auto_optimize" rules = true ->
  let tool := Tool.apply_engineering_rules prompt (Some rules) target_model in
  let http := Http.apply_engineering_rules (Http.request prompt rules target_model) in
  Tool.Result.rules_applied tool = Http.Response.rules_applied http
  /\ (~ In "structured_output" (Tool.Result.rules_applied tool) ->
      Tool.Result.engineered_prompt tool = Http.Response.engineered_prompt http).
Proof.
  intros Hauto. cbn. split.
  - now apply run_rules_same_names.
  - intros Hnot. now rewrite run_rules_same_text.
Qed.

Lemma servers_agree_under_auto_optimize_witness :
  let tool :=
    Tool.apply_engineering_rules binary_search_prompt
      (Some ["auto_optimize"]) "general" in
  let http :=
    Http.apply_engineering_rules
      (Http.request binary_search_prompt ["auto_optimize"] "general") in
  Tool.Result.rules_applied tool = Http.Response.rules_applied http
  /\ Tool.Result.engineered_prompt tool = Http.Response.engineered_prompt http.
Proof.
  intros tool http.
  pose proof (servers_agree_under_auto_optimize
                binary_search_prompt ["auto_optimize"] "general" eq_refl)
    as [Hnames Htext].
  split; [exact Hnames|].
  apply Htext. intros Hin. apply mem_In in Hin.
  vm_compute in Hin. discriminate Hin.
Defined.

(** C2, the claim as stated.  Without [auto_optimize] the HTTP server
    still applies the rules that the analysis asks for: on the empty
    prompt with the empty rule list it applies [enhance_clarity], where
    the MCP tool server applies nothing. *)
Lemma servers_disagree_on_empty_rules :
  let tool := Tool.apply_engineering_rules "" (Some []) "general" in
  let http := Http.apply_engineering_rules (Http.request "" [] "general") in
  ~ (Tool.Result.engineered_prompt tool = Http.Response.engineered_prompt http
     /\ Tool.Result.rules_applied tool = Http.Response.rules_applied http).
Proof.
  intros tool http [_ Hrules]. vm_compute in Hrules. discriminate Hrules.
Qed.

(** With [structured_output] applied the two texts differ, by the line
    feed that the template of the MCP tool server starts with. *)
Example servers_differ_in_template :
  let tool :=
    Tool.apply_engineering_rules ""
      (Some ["auto_optimize"; "structured_output"]) "general" in
  let http :=
    Http.apply_engineering_rules
      (Http.request "" ["auto_optimize"; "structured_output"] "general") in
  Tool.Result.rules_applied tool = Http.Response.rules_applied http
  /\ Tool.Result.engineered_prompt tool <> Http.Response.engineered_prompt http
  /\ String.length (Tool.Result.engineered_prompt tool)
     = S (String.length (Http.Response.engineered_prompt http))
  /\ Texts.structure_template = PyStr.nl ++ Texts.structure_template_http.
Proof.
  cbn zeta. repeat split.
  intros H. apply (f_equal String.length) in H. vm_compute in H. discriminate H.
Qed.

(* ================================================================== *)
(** ** Properties of the tool boundary *)

(** C10.  When the argument [prompt] of the tool [validate_prompt] is
    missing or empty, the handler answers with the one text
    "Error: No prompt provided" and its trace is empty: the engine is
    not called (and nothing is logged), whatever the rules and the model
    of the call are. *)
Theorem validate_prompt_rejects_missing_prompt
  (arguments : option Handler.Arguments.t) :
  prompt_missing_or_empty arguments ->
  Handler.handle_call_tool "validate_prompt" arguments
  = ([], [ {| Handler.TextContent.type := "text";
              Handler.TextContent.text := "Error: No prompt provided" |} ])
  /\ ~ calls_engine (fst (Handler.handle_call_tool "validate_prompt" arguments)).
Proof.
  intros Hmissing.
  assert (Handler.handle_call_tool "validate_prompt" arguments
          = ([], Handler.no_prompt_error)) as ->.
  { destruct arguments as [a|]; [|reflexivity].
    destruct a as [prompt rules model focus_area]. cbn in Hmissing.
    destruct Hmissing as [-> | ->]; reflexivity. }
  split; [reflexivity|].
  intros (raw_prompt & rules & target_model & Hin). destruct Hin.
Qed.

Lemma validate_prompt_rejects_missing_prompt_witness :
  (Handler.handle_call_tool "validate_prompt" None
   = ([], [ {| Handler.TextContent.type := "text";
               Handler.TextContent.text := "Error: No prompt provided" |} ])
   /\ ~ calls_engine (fst (Handler.handle_call_tool "validate_prompt" None)))
  /\ (let arguments :=
        Some {| Handler.Arguments.prompt := Some "";
                Handler.Arguments.rules := Some ["expert_system"];
                Handler.Arguments.model := Some "gpt-4";
                Handler.Arguments.focus_area := None |} in
      Handler.handle_call_tool "validate_prompt" arguments
      = ([], [ {| Handler.TextContent.type := "text";
                  Handler.TextContent.text := "Error: No prompt provided" |} ])
      /\ ~ calls_engine
             (fst (Handler.handle_call_tool "validate_prompt" arguments))).
Proof.
  split.
  - apply (validate_prompt_rejects_missing_prompt None). exact I.
  - apply (validate_prompt_rejects_missing_prompt
             (Some {| Handler.Arguments.prompt := Some "";
                      Handler.Arguments.rules := Some ["expert_system"];
                      Handler.Arguments.model := Some "gpt-4";
                      Handler.Arguments.focus_area := None |})).
    right. reflexivity.
Defined.

(** The guard is what keeps the engine out: with a prompt that is not
    empty the handler starts by calling the engine on it, with the
    rules and the model of the call or their defaults. *)
Lemma validate_prompt_calls_engine
  (c : ascii) (rest : string) (rules : option (list string))
  (model focus_area : option string) :
  let arguments :=
    Some {| Handler.Arguments.prompt := Some (String c rest);
            Handler.Arguments.rules := rules;
            Handler.Arguments.model := model;
            Handler.Arguments.focus_area := focus_area |} in
  exists trace,
    fst (Handler.handle_call_tool "validate_prompt" arguments)
    = Handler.EngineCall (String c rest)
        (get rules ["auto_optimize"]) (get model "general") :: trace.
Proof.
  cbn -[Tool.apply_engineering_rules Handler.validation_report Handler.str_of_nat].
  eexists. reflexivity.
Qed.

(** No other tool of the handler calls the engine. *)
Lemma only_validate_prompt_calls_engine
  (name : string) (arguments : option Handler.Arguments.t) :
  calls_engine (fst (Handler.handle_call_tool name arguments)) ->
  name = "validate_prompt".
Proof.
  unfold Handler.handle_call_tool.
  destruct (String.eqb name "validate_prompt") eqn:E1;
    [intros _; now apply String.eqb_eq|].
  intros (raw_prompt & rules & target_model & Hin). exfalso.
  destruct (String.eqb name "analyze_prompt_quality");
    [|destruct (String.eqb name "get_optimization_suggestions")];
    cbn zeta in Hin;
    try destruct (negb (PyStr.truthy _));
    cbn in Hin; intuition discriminate.
Qed.

(** The endpoint of the HTTP server turns a request without the field
    [raw_prompt] down with status 400 and without calling the engine. *)
Lemma endpoint_rejects_missing_raw_prompt (request : Endpoint.HttpRequest.t) :
  (forall request_data,
     Endpoint.HttpRequest.get_json request = Some request_data ->
     Http.Request.raw_prompt request_data = None) ->
  exists error,
    Endpoint.validate_prompt request
    = ([], (Endpoint.Failure error "validation_failed", 400)).
Proof.
  intros Hmissing. unfold Endpoint.validate_prompt.
  destruct (Endpoint.HttpRequest.is_json request); cbn [negb];
    [|eexists; reflexivity].
  destruct (Endpoint.HttpRequest.get_json request) as [request_data|];
    [|eexists; reflexivity].
  rewrite (Hmissing request_data eq_refl). eexists; reflexivity.
Qed.

(** It asks for the field, not for a prompt that is not empty: the
    empty prompt goes to the engine. *)
Example endpoint_accepts_empty_raw_prompt :
  let request_data := Http.request "" [] "general" in
  let request :=
    {| Endpoint.HttpRequest.is_json := true;
       Endpoint.HttpRequest.get_json := Some request_data |} in
  fst (Endpoint.validate_prompt request)
  = [Endpoint.EngineCall request_data;
     Endpoint.LogInfo "Successfully processed request unknown"]
  /\ snd (snd (Endpoint.validate_prompt request)) = 200.
Proof. cbn. split; reflexivity. Qed.

(* ================================================================== *)
(** ** The rules applied, in closed form *)

Section ClosedForm.

Local Open Scope list_scope.

Lemma filter_all (fires : Rule.t -> bool) :
  map Rule.name (filter fires Rule.all)
  = names_if (fires Rule.expert_system) "expert_system"
    ++ names_if (fires Rule.chain_of_thought) "chain_of_thought"
    ++ names_if (fires Rule.few_shot) "few_shot"
    ++ names_if (fires Rule.role_play) "role_play"
    ++ names_if (fires Rule.structured_output) "structured_output"
    ++ names_if (fires Rule.model_optimize) "model_optimize"
    ++ names_if (fires Rule.enhance_clarity) "enhance_clarity"
    ++ names_if (fires Rule.add_testing) "add_testing".
Proof.
  cbn [Rule.all filter].
  destruct (fires Rule.expert_system), (fires Rule.chain_of_thought),
    (fires Rule.few_shot), (fires Rule.role_play),
    (fires Rule.structured_output), (fires Rule.model_optimize),
    (fires Rule.enhance_clarity), (fires Rule.add_testing); reflexivity.
Qed.

Variables (raw_prompt target_model : string).
Variables (analysis : Analysis.t) (rules : list string).

Local Abbreviation tool := (tool_fires raw_prompt target_model analysis rules).
Local Abbreviation http := (http_fires raw_prompt target_model analysis rules).

Ltac step :=
  intros; unfold tool_fires, http_fires, names_if;
  repeat match goal with
         | |- context [if ?b then _ else _] => destruct b; cbn
         end;
  unfold append; rewrite ?app_nil_r; reflexivity.

Lemma tool_model_note (prompt : string) :
  Tool.apply_model_specific_rules prompt target_model
  = Tool.apply_model_specific_rules "" target_model.
Proof. reflexivity. Qed.

Lemma http_model_note (prompt : string) :
  Http.apply_model_specific_rules prompt target_model
  = Http.apply_model_specific_rules "" target_model.
Proof. reflexivity. Qed.

Lemma tool_step_1 acc :
  Acc.rules_applied (Tool.rule_expert_system rules acc)
  = Acc.rules_applied acc ++ names_if (tool Rule.expert_system) "expert_system".
Proof. unfold Tool.rule_expert_system. step. Qed.

Lemma tool_step_2 acc :
  Acc.rules_applied (Tool.rule_chain_of_thought analysis rules acc)
  = Acc.rules_applied acc
    ++ names_if (tool Rule.chain_of_thought) "chain_of_thought".
Proof. unfold Tool.rule_chain_of_thought. step. Qed.

Lemma tool_step_3 acc :
  Acc.rules_applied (Tool.rule_few_shot raw_prompt analysis rules acc)
  = Acc.rules_applied acc ++ names_if (tool Rule.few_shot) "few_shot".
Proof.
  unfold Tool.rule_few_shot, tool_fires, names_if. cbn zeta.
  destruct (_ || _), (PyStr.truthy _); cbn;
    unfold append; rewrite ?app_nil_r; reflexivity.
Qed.

Lemma tool_step_4 acc :
  Acc.rules_applied (Tool.rule_role_play raw_prompt analysis rules acc)
  = Acc.rules_applied acc ++ names_if (tool Rule.role_play) "role_play".
Proof.
  unfold Tool.rule_role_play, tool_fires, names_if. cbn zeta.
  destruct (_ || _), (PyStr.truthy _); cbn;
    unfold append; rewrite ?app_nil_r; reflexivity.
Qed.

Lemma tool_step_5 acc :
  Acc.rules_applied (Tool.rule_structured_output analysis rules acc)
  = Acc.rules_applied acc
    ++ names_if (tool Rule.structured_output) "structured_output".
Proof. unfold Tool.rule_structured_output. step. Qed.

Lemma tool_step_6 acc :
  Acc.rules_applied (Tool.rule_model_optimize target_model rules acc)
  = Acc.rules_applied acc ++ names_if (tool Rule.model_optimize) "model_optimize".
Proof.
  unfold Tool.rule_model_optimize, tool_fires, names_if. cbn zeta.
  rewrite tool_model_note.
  destruct (PyStr.mem "model_optimize" rules), (PyStr.truthy _); cbn;
    unfold append; rewrite ?app_nil_r; reflexivity.
Qed.

Lemma tool_step_7 acc :
  Acc.rules_applied (Tool.rule_enhance_clarity analysis rules acc)
  = Acc.rules_applied acc
    ++ names_if (tool Rule.enhance_clarity) "enhance_clarity".
Proof. unfold Tool.rule_enhance_clarity. step. Qed.

Lemma tool_step_8 acc :
  Acc.rules_applied (Tool.rule_add_testing rules acc)
  = Acc.rules_applied acc ++ names_if (tool Rule.add_testing) "add_testing".
Proof. unfold Tool.rule_add_testing. step. Qed.

Lemma tool_run_rules_names :
  Acc.rules_applied (Tool.run_rules raw_prompt analysis rules target_model)
  = map Rule.name (filter tool Rule.all).
Proof.
  unfold Tool.run_rules. cbn zeta.
  rewrite tool_step_8, tool_step_7, tool_step_6, tool_step_5, tool_step_4,
    tool_step_3, tool_step_2, tool_step_1, filter_all.
  cbn [Acc.rules_applied app]. now rewrite <- !app_assoc.
Qed.

Lemma http_step_1 acc :
  Acc.rules_applied (Http.rule_expert_system rules acc)
  = Acc.rules_applied acc ++ names_if (http Rule.expert_system) "expert_system".
Proof. unfold Http.rule_expert_system. step. Qed.

Lemma http_step_2 acc :
  Acc.rules_applied (Http.rule_chain_of_thought analysis rules acc)
  = Acc.rules_applied acc
    ++ names_if (http Rule.chain_of_thought) "chain_of_thought".
Proof. unfold Http.rule_chain_of_thought. step. Qed.

Lemma http_step_3 acc :
  Acc.rules_applied (Http.rule_few_shot raw_prompt analysis rules acc)
  = Acc.rules_applied acc ++ names_if (http Rule.few_shot) "few_shot".
Proof.
  unfold Http.rule_few_shot, http_fires, names_if. cbn zeta.
  destruct (_ || _), (Http.truthy _); cbn;
    unfold append; rewrite ?app_nil_r; reflexivity.
Qed.

Lemma http_step_4 acc :
  Acc.rules_applied (Http.rule_role_play raw_prompt analysis rules acc)
  = Acc.rules_applied acc ++ names_if (http Rule.role_play) "role_play".
Proof.
  unfold Http.rule_role_play, http_fires, names_if. cbn zeta.
  destruct (_ || _), (Http.truthy _); cbn;
    unfold append; rewrite ?app_nil_r; reflexivity.
Qed.

Lemma http_step_5 acc :
  Acc.rules_applied (Http.rule_structured_output analysis rules acc)
  = Acc.rules_applied acc
    ++ names_if (http Rule.structured_output) "structured_output".
Proof. unfold Http.rule_structured_output. step. Qed.

Lemma http_step_6 acc :
  Acc.rules_applied (Http.rule_model_optimize target_model rules acc)
  = Acc.rules_applied acc ++ names_if (http Rule.model_optimize) "model_optimize".
Proof.
  unfold Http.rule_model_optimize, http_fires, names_if. cbn zeta.
  rewrite http_model_note.
  destruct (PyStr.mem "model_optimize" rules), (Http.truthy _); cbn;
    unfold append; rewrite ?app_nil_r; reflexivity.
Qed.

Lemma http_step_7 acc :
  Acc.rules_applied (Http.rule_enhance_clarity analysis rules acc)
  = Acc.rules_applied acc
    ++ names_if (http Rule.enhance_clarity) "enhance_clarity".
Proof. unfold Http.rule_enhance_clarity. step. Qed.

Lemma http_step_8 acc :
  Acc.rules_applied (Http.rule_add_testing rules acc)
  = Acc.rules_applied acc ++ names_if (http Rule.add_testing) "add_testing".
Proof. unfold Http.rule_add_testing. step. Qed.

Lemma http_run_rules_names :
  Acc.rules_applied (Http.run_rules raw_prompt analysis rules target_model)
  = map Rule.name (filter http Rule.all).
Proof.
  unfold Http.run_rules. cbn zeta.
  rewrite http_step_8, http_step_7, http_step_6, http_step_5, http_step_4,
    http_step_3, http_step_2, http_step_1, filter_all.
  cbn [Acc.rules_applied app]. now rewrite <- !app_assoc.
Qed.

End ClosedForm.

Section AppliedRules.

Local Open Scope list_scope.

Lemma rule_name_injective (r1 r2 : Rule.t) :
  Rule.name r1 = Rule.name r2 -> r1 = r2.
Proof. destruct r1, r2; intros H; try reflexivity; discriminate H. Qed.

Lemma rule_all_complete (rule : Rule.t) : In rule Rule.all.
Proof. destruct rule; cbn; tauto. Qed.

Lemma rule_all_nodup : NoDup Rule.all.
Proof.
  unfold Rule.all.
  repeat (constructor; [cbn; intuition discriminate|]). constructor.
Qed.

Lemma nodup_map_injective {A B : Type} (f : A -> B) (l : list A) :
  (forall x y, f x = f y -> x = y) -> NoDup l -> NoDup (map f l).
Proof.
  intros Hinj Hl. induction Hl as [|x l Hx Hl IH]; cbn; constructor.
  - intros Hin. apply in_map_iff in Hin. destruct Hin as [y [Hxy Hy]].
    apply Hinj in Hxy. now subst.
  - exact IH.
Qed.

(** A name is among the names of the rules that fire exactly when it is
    the name of a rule that fires. *)
Lemma in_fired (fires : Rule.t -> bool) (rule : Rule.t) :
  In (Rule.name rule) (map Rule.name (filter fires Rule.all))
  <-> fires rule = true.
Proof.
  rewrite in_map_iff. split.
  - intros [r [Hname Hin]]. apply rule_name_injective in Hname. subst r.
    now apply filter_In in Hin.
  - intros Hfires. exists rule. split; [reflexivity|].
    apply filter_In. split; [apply rule_all_complete | exact Hfires].
Qed.

Lemma fired_shape (fires : Rule.t -> bool) :
  let names := map Rule.name (filter fires Rule.all) in
  NoDup names
  /\ List.length names <= 8
  /\ forall name, In name names -> In name (map Rule.name Rule.all).
Proof.
  cbn zeta. split; [|split].
  - apply nodup_map_injective; [exact rule_name_injective|].
    apply NoDup_filter, rule_all_nodup.
  - rewrite length_map.
    change 8 with (List.length Rule.all). apply filter_length_le.
  - intros name Hin. apply in_map_iff in Hin. destruct Hin as [r [<- Hin]].
    apply in_map, rule_all_complete.
Qed.

End AppliedRules.

(** The names that the MCP tool server reports are those of the rules
    whose condition holds, in the order of the engine. *)
Lemma tool_rules_applied_closed_form
  (prompt : string) (rules : option (list string)) (target_model : string) :
  Tool.Result.rules_applied (Tool.apply_engineering_rules prompt rules target_model)
  = map Rule.name
      (filter (tool_fires prompt target_model (analyze_prompt_structure prompt)
                 (get rules ["auto_optimize"]))
              Rule.all).
Proof.
  unfold Tool.apply_engineering_rules. cbn [Tool.Result.rules_applied].
  rewrite tool_run_rules_names. now destruct rules.
Qed.

(** The same for the HTTP server. *)
Lemma http_rules_applied_closed_form (request_data : Http.Request.t) :
  Http.Response.rules_applied (Http.apply_engineering_rules request_data)
  = map Rule.name
      (filter (http_fires (request_prompt request_data)
                 (request_model request_data)
                 (analyze_prompt_structure (request_prompt request_data))
                 (request_rules request_data))
              Rule.all).
Proof.
  unfold Http.apply_engineering_rules. cbn [Http.Response.rules_applied].
  now rewrite http_run_rules_names.
Qed.

(** X1.  [rules_applied] in closed form.  In both servers the list of
    applied rules is the list of the eight rules, in the fixed order of
    the engine, filtered by the condition of each rule: its gate and,
    for [few_shot], [role_play] and [model_optimize], a lookup that
    finds a text.  The order and the repetitions of the requested rule
    list play no part. *)
Theorem rules_applied_closed_form
  (prompt : string) (rules : option (list string)) (target_model : string)
  (request_data : Http.Request.t) :
  Tool.Result.rules_applied (Tool.apply_engineering_rules prompt rules target_model)
  = map Rule.name
      (filter (tool_fires prompt target_model (analyze_prompt_structure prompt)
                 (get rules ["auto_optimize"]))
              Rule.all)
  /\ Http.Response.rules_applied (Http.apply_engineering_rules request_data)
     = map Rule.name
         (filter (http_fires (request_prompt request_data)
                    (request_model request_data)
                    (analyze_prompt_structure (request_prompt request_data))
                    (request_rules request_data))
                 Rule.all).
Proof.
  split.
  - unfold Tool.apply_engineering_rules. cbn [Tool.Result.rules_applied].
    rewrite tool_run_rules_names. now destruct rules.
  - unfold Http.apply_engineering_rules. cbn [Http.Response.rules_applied].
    now rewrite http_run_rules_names.
Qed.

(** X2.  In both servers [rules_applied] holds no name twice, holds at
    most eight names, and holds names of the eight rules only;
    [auto_optimize] and unknown names of the request never appear in
    it. *)
Theorem rules_applied_shape
  (prompt : string) (rules : option (list string)) (target_model : string)
  (request_data : Http.Request.t) :
  let tool :=
    Tool.Result.rules_applied
      (Tool.apply_engineering_rules prompt rules target_model) in
  let http :=
    Http.Response.rules_applied (Http.apply_engineering_rules request_data) in
  (NoDup tool /\ List.length tool <= 8
   /\ forall name, In name tool -> In name (map Rule.name Rule.all))
  /\ (NoDup http /\ List.length http <= 8
      /\ forall name, In name http -> In name (map Rule.name Rule.all)).
Proof.
  cbn zeta.
  rewrite tool_rules_applied_closed_form, http_rules_applied_closed_form.
  split; apply fired_shape.
Qed.

Example rules_applied_shape_repeated_request :
  Tool.Result.rules_applied
    (Tool.apply_engineering_rules "Hello"
       (Some ["add_testing"; "nonsense"; "add_testing"; "expert_system";
              "add_testing"]) "general")
  = ["expert_system"; "add_testing"].
Proof. vm_compute. reflexivity. Qed.

Section Requests.

Local Open Scope list_scope.

Lemma not_in_mem (x : string) (xs : list string) :
  ~ In x xs -> PyStr.mem x xs = false.
Proof.
  intros H. destruct (PyStr.mem x xs) eqn:E; [|reflexivity].
  apply mem_In in E. contradiction.
Qed.

(** The lookups of the two servers find a text on the same inputs. *)
Lemma few_shot_truthy (prompt : string) :
  Http.truthy (Http.generate_few_shot_examples prompt)
  = PyStr.truthy (Tool.generate_few_shot_examples prompt).
Proof.
  unfold Tool.generate_few_shot_examples, Http.generate_few_shot_examples.
  destruct (_ || _); [reflexivity|]. destruct (_ || _); reflexivity.
Qed.

Lemma role_truthy (prompt : string) :
  Http.truthy (Http.determine_expert_role prompt)
  = PyStr.truthy (Tool.determine_expert_role prompt).
Proof.
  unfold Tool.determine_expert_role, Http.determine_expert_role. cbn zeta.
  repeat (destruct (any_in _ _); [reflexivity|]). reflexivity.
Qed.

Lemma model_truthy (prompt model : string) :
  Http.truthy (Http.apply_model_specific_rules prompt model)
  = PyStr.truthy (Tool.apply_model_specific_rules prompt model).
Proof.
  unfold Tool.apply_model_specific_rules, Http.apply_model_specific_rules.
  cbn zeta.
  repeat (destruct (PyStr.contains _ _); [reflexivity|]). reflexivity.
Qed.

(** Whatever fires in the MCP tool server fires in the HTTP server. *)
Lemma tool_fires_http_fires
  (raw_prompt target_model : string) (analysis : Analysis.t)
  (rules : list string) (rule : Rule.t) :
  tool_fires raw_prompt target_model analysis rules rule = true ->
  http_fires raw_prompt target_model analysis rules rule = true.
Proof.
  destruct rule; cbn [tool_fires http_fires];
    rewrite ?few_shot_truthy, ?role_truthy, ?model_truthy;
    repeat match goal with
           | |- context [PyStr.mem ?x rules] => destruct (PyStr.mem x rules)
           | |- context [Analysis.needs_reasoning analysis] =>
               destruct (Analysis.needs_reasoning analysis)
           | |- context [Analysis.needs_examples analysis] =>
               destruct (Analysis.needs_examples analysis)
           | |- context [Analysis.needs_expertise analysis] =>
               destruct (Analysis.needs_expertise analysis)
           | |- context [Analysis.needs_structure analysis] =>
               destruct (Analysis.needs_structure analysis)
           | |- context [(Analysis.clarity_score analysis <? ?c)%py] =>
               destruct (Analysis.clarity_score analysis <? c)%py
           end;
    cbn; intros; try discriminate; auto.
Qed.

End Requests.

Lemma request_prompt_request (prompt : string) (rules : list string) (model : string) :
  request_prompt (Http.request prompt rules model) = prompt.
Proof. reflexivity. Qed.

Lemma request_rules_request (prompt : string) (rules : list string) (model : string) :
  request_rules (Http.request prompt rules model) = rules.
Proof. reflexivity. Qed.

Lemma request_model_request (prompt : string) (rules : list string) (model : string) :
  request_model (Http.request prompt rules model) = model.
Proof. reflexivity. Qed.

Ltac closed_forms :=
  rewrite ?tool_rules_applied_closed_form, ?http_rules_applied_closed_form,
    ?request_prompt_request, ?request_rules_request, ?request_model_request;
  cbn [get].

(** X3.  A rule list that holds none of the nine names that the engine
    looks for (the eight rules and [auto_optimize]) makes the MCP tool
    server return the prompt as it came, with no rule applied.  The
    names are compared as they are written: another letter case or a
    hyphen makes a name unknown, and no error is raised for it. *)
Theorem unrecognised_rules_are_ignored
  (prompt target_model : string) (rules : list string) :
  (forall name, In name recognised_names -> ~ In name rules) ->
  let result := Tool.apply_engineering_rules prompt (Some rules) target_model in
  Tool.Result.rules_applied result = []
  /\ Tool.Result.engineered_prompt result = prompt.
Proof.
  intros Hnone.
  assert (forall name, In name recognised_names -> PyStr.mem name rules = false)
    as Hmem by (intros name Hin; apply not_in_mem, Hnone, Hin).
  unfold Tool.apply_engineering_rules. cbn zeta.
  cbn [Tool.Result.rules_applied Tool.Result.engineered_prompt].
  unfold Tool.run_rules, Tool.rule_expert_system, Tool.rule_chain_of_thought,
    Tool.rule_few_shot, Tool.rule_role_play, Tool.rule_structured_output,
    Tool.rule_model_optimize, Tool.rule_enhance_clarity, Tool.rule_add_testing.
  rewrite !Hmem by (cbn; tauto).
  rewrite !andb_false_r. cbn. auto.
Qed.

Lemma unrecognised_rules_are_ignored_witness :
  let result :=
    Tool.apply_engineering_rules "Explain how to debug legal code? Why?"
      (Some ["Auto_Optimize"; "chain-of-thought"; ""; "all"]) "gpt-4" in
  Tool.Result.rules_applied result = []
  /\ Tool.Result.engineered_prompt result
     = "Explain how to debug legal code? Why?".
Proof.
  apply (unrecognised_rules_are_ignored
           "Explain how to debug legal code? Why?" "gpt-4"
           ["Auto_Optimize"; "chain-of-thought"; ""; "all"]).
  intros name Hname Hin. apply mem_In in Hname. apply mem_In in Hin.
  revert Hname. cbn in Hin.
  repeat match type of Hin with
         | (?a || ?b) = true =>
             apply orb_true_iff in Hin; destruct Hin as [Hin | Hin]
         end;
    try discriminate Hin; apply String.eqb_eq in Hin; subst name;
    vm_compute; discriminate.
Defined.

(** X4.  A rule without a lookup ([expert_system], [chain_of_thought],
    [structured_output], [enhance_clarity], [add_testing]) that the
    request names is applied, by both servers, whatever the prompt and
    the model are. *)
Theorem requested_rule_is_applied
  (prompt target_model : string) (rules : list string) (rule : Rule.t) :
  Rule.has_lookup rule = false ->
  In (Rule.name rule) rules ->
  In (Rule.name rule)
     (Tool.Result.rules_applied
        (Tool.apply_engineering_rules prompt (Some rules) target_model))
  /\ In (Rule.name rule)
        (Http.Response.rules_applied
           (Http.apply_engineering_rules
              (Http.request prompt rules target_model))).
Proof.
  intros Hlookup Hin. apply mem_In in Hin. closed_forms.
  split; apply in_fired;
    destruct rule; try discriminate Hlookup;
    cbn [tool_fires http_fires]; cbn [Rule.name] in Hin;
    now rewrite Hin.
Qed.

Lemma requested_rule_is_applied_witness :
  In "add_testing"
     (Tool.Result.rules_applied
        (Tool.apply_engineering_rules "" (Some ["add_testing"]) "general"))
  /\ In "add_testing"
        (Http.Response.rules_applied
           (Http.apply_engineering_rules
              (Http.request "" ["add_testing"] "general"))).
Proof.
  apply (requested_rule_is_applied "" "general" ["add_testing"] Rule.add_testing).
  - reflexivity.
  - cbn. tauto.
Defined.

(** X5.  [model_optimize] and [add_testing] are explicit only: neither
    server applies one of them unless the request names it; no flag of
    the analysis and no [auto_optimize] brings them in. *)
Theorem explicit_only_rules
  (prompt target_model : string) (rules : list string) (rule : Rule.t) :
  rule = Rule.model_optimize \/ rule = Rule.add_testing ->
  (In (Rule.name rule)
      (Tool.Result.rules_applied
         (Tool.apply_engineering_rules prompt (Some rules) target_model))
   -> In (Rule.name rule) rules)
  /\ (In (Rule.name rule)
         (Http.Response.rules_applied
            (Http.apply_engineering_rules
               (Http.request prompt rules target_model)))
      -> In (Rule.name rule) rules).
Proof.
  intros Hrule. closed_forms. rewrite !in_fired.
  destruct Hrule as [-> | ->]; cbn [tool_fires http_fires Rule.name];
    split; intros H; apply mem_In;
    try (apply andb_true_iff in H; destruct H as [H _]); exact H.
Qed.

Lemma explicit_only_rules_witness :
  ~ In "model_optimize"
      (Tool.Result.rules_applied
         (Tool.apply_engineering_rules "Explain the code" (Some ["auto_optimize"])
            "gpt-4")).
Proof.
  intros Hin.
  apply (explicit_only_rules "Explain the code" "gpt-4" ["auto_optimize"]
           Rule.model_optimize (or_introl eq_refl)) in Hin.
  cbn in Hin. intuition discriminate.
Defined.

(** X6.  On the same prompt, rule list and model, every rule that the
    MCP tool server applies is applied by the HTTP server too. *)
Theorem tool_rules_applied_by_http
  (prompt target_model : string) (rules : list string) :
  incl
    (Tool.Result.rules_applied
       (Tool.apply_engineering_rules prompt (Some rules) target_model))
    (Http.Response.rules_applied
       (Http.apply_engineering_rules (Http.request prompt rules target_model))).
Proof.
  closed_forms. intros name Hin.
  apply in_map_iff in Hin. destruct Hin as [rule [<- Hin]].
  apply filter_In in Hin. destruct Hin as [_ Hfires].
  apply in_fired. now apply tool_fires_http_fires.
Qed.

(* ================================================================== *)
(** ** The text that the engine builds *)

Section Text.

Lemma append_nil_r (s : string) : s ++ "" = s.
Proof. induction s as [|c s IH]; cbn; congruence. Qed.

Lemma append_assoc (s t u : string) : (s ++ t) ++ u = s ++ t ++ u.
Proof. induction s as [|c s IH]; cbn; congruence. Qed.

Lemma len_append (s t : string) : PyStr.len (s ++ t) = PyStr.len s + PyStr.len t.
Proof. induction s as [|c s IH]; cbn; [reflexivity | rewrite IH; lia]. Qed.

Lemma startswith_append (s t : string) : PyStr.startswith s (s ++ t) = true.
Proof.
  induction s as [|c s IH]; cbn; [reflexivity|].
  now rewrite Ascii.eqb_refl, IH.
Qed.

Lemma contains_append (pre s post : string) :
  PyStr.contains s (pre ++ s ++ post) = true.
Proof.
  induction pre as [|c pre IH].
  - cbn [String.append].
    pose proof (startswith_append s post) as H.
    destruct (s ++ post); cbn [PyStr.contains]; now rewrite H.
  - cbn [String.append PyStr.contains]. rewrite IH. apply orb_true_r.
Qed.

Lemma wraps_refl (core : string) : wraps core core.
Proof. exists "", "". cbn. now rewrite append_nil_r. Qed.

Lemma wraps_around (core text : string) (before after : string) :
  wraps core text -> wraps core (before ++ text ++ after).
Proof.
  intros (pre & post & ->). exists (before ++ pre), (post ++ after).
  now rewrite !append_assoc.
Qed.

Lemma wraps_after (core text after : string) :
  wraps core text -> wraps core (text ++ after).
Proof. intros H. apply (wraps_around core text "" after H). Qed.

Lemma wraps_before (core text before : string) :
  wraps core text -> wraps core (before ++ text).
Proof.
  intros H. pose proof (wraps_around core text before "" H) as H'.
  now rewrite append_nil_r in H'.
Qed.

Variables (raw_prompt target_model : string).
Variables (analysis : Analysis.t) (rules : list string).
Variable core : string.

Local Abbreviation kept acc := (wraps core (Acc.engineered_prompt acc)).

Ltac keep :=
  intros H;
  repeat match goal with
         | |- context [if ?b then _ else _] => destruct b
         end;
  cbn [Acc.engineered_prompt apply_expert_system apply_chain_of_thought
       apply_few_shot apply_role_play apply_structured_output
       apply_model_optimize apply_enhance_clarity apply_add_testing];
  first [ exact H
        | apply wraps_after; exact H
        | repeat apply wraps_before; exact H ].

Lemma tool_keeps_1 acc : kept acc -> kept (Tool.rule_expert_system rules acc).
Proof. unfold Tool.rule_expert_system. keep. Qed.

Lemma tool_keeps_2 acc :
  kept acc -> kept (Tool.rule_chain_of_thought analysis rules acc).
Proof. unfold Tool.rule_chain_of_thought. keep. Qed.

Lemma tool_keeps_3 acc :
  kept acc -> kept (Tool.rule_few_shot raw_prompt analysis rules acc).
Proof. unfold Tool.rule_few_shot. cbn zeta. keep. Qed.

Lemma tool_keeps_4 acc :
  kept acc -> kept (Tool.rule_role_play raw_prompt analysis rules acc).
Proof. unfold Tool.rule_role_play. cbn zeta. keep. Qed.

Lemma tool_keeps_5 acc :
  kept acc -> kept (Tool.rule_structured_output analysis rules acc).
Proof. unfold Tool.rule_structured_output. keep. Qed.

Lemma tool_keeps_6 acc :
  kept acc -> kept (Tool.rule_model_optimize target_model rules acc).
Proof. unfold Tool.rule_model_optimize. cbn zeta. keep. Qed.

Lemma tool_keeps_7 acc :
  kept acc -> kept (Tool.rule_enhance_clarity analysis rules acc).
Proof. unfold Tool.rule_enhance_clarity. keep. Qed.

Lemma tool_keeps_8 acc : kept acc -> kept (Tool.rule_add_testing rules acc).
Proof. unfold Tool.rule_add_testing. keep. Qed.

Lemma http_keeps_1 acc : kept acc -> kept (Http.rule_expert_system rules acc).
Proof. unfold Http.rule_expert_system. keep. Qed.

Lemma http_keeps_2 acc :
  kept acc -> kept (Http.rule_chain_of_thought analysis rules acc).
Proof. unfold Http.rule_chain_of_thought. keep. Qed.

Lemma http_keeps_3 acc :
  kept acc -> kept (Http.rule_few_shot raw_prompt analysis rules acc).
Proof. unfold Http.rule_few_shot. cbn zeta. keep. Qed.

Lemma http_keeps_4 acc :
  kept acc -> kept (Http.rule_role_play raw_prompt analysis rules acc).
Proof. unfold Http.rule_role_play. cbn zeta. keep. Qed.

Lemma http_keeps_5 acc :
  kept acc -> kept (Http.rule_structured_output analysis rules acc).
Proof. unfold Http.rule_structured_output. keep. Qed.

Lemma http_keeps_6 acc :
  kept acc -> kept (Http.rule_model_optimize target_model rules acc).
Proof. unfold Http.rule_model_optimize. cbn zeta. keep. Qed.

Lemma http_keeps_7 acc :
  kept acc -> kept (Http.rule_enhance_clarity analysis rules acc).
Proof. unfold Http.rule_enhance_clarity. keep. Qed.

Lemma http_keeps_8 acc : kept acc -> kept (Http.rule_add_testing rules acc).
Proof. unfold Http.rule_add_testing. keep. Qed.

End Text.

Lemma tool_run_rules_keeps
  (raw_prompt target_model : string) (analysis : Analysis.t)
  (rules : list string) (core : string) (acc : Acc.t) :
  wraps core (Acc.engineered_prompt acc) ->
  wraps core
    (Acc.engineered_prompt
       (Tool.rule_add_testing rules
          (Tool.rule_enhance_clarity analysis rules
             (Tool.rule_model_optimize target_model rules
                (Tool.rule_structured_output analysis rules
                   (Tool.rule_role_play raw_prompt analysis rules
                      (Tool.rule_few_shot raw_prompt analysis rules
                         (Tool.rule_chain_of_thought analysis rules acc)))))))).
Proof.
  intros H.
  apply tool_keeps_8, tool_keeps_7, tool_keeps_6, tool_keeps_5,
    tool_keeps_4, tool_keeps_3, tool_keeps_2, H.
Qed.

Lemma http_run_rules_keeps
  (raw_prompt target_model : string) (analysis : Analysis.t)
  (rules : list string) :
  wraps raw_prompt
    (Acc.engineered_prompt
       (Http.run_rules raw_prompt analysis rules target_model)).
Proof.
  unfold Http.run_rules. cbn zeta.
  apply http_keeps_8, http_keeps_7, http_keeps_6, http_keeps_5,
    http_keeps_4, http_keeps_3, http_keeps_2, http_keeps_1.
  apply wraps_refl.
Qed.

Lemma wraps_contains (core text : string) :
  wraps core text -> PyStr.contains core text = true.
Proof. intros (pre & post & ->). apply contains_append. Qed.

Lemma wraps_len (core text : string) :
  wraps core text -> PyStr.len core <= PyStr.len text.
Proof. intros (pre & post & ->). rewrite !len_append. lia. Qed.

(** X7.  The engineered prompt holds the raw prompt unchanged, in both
    servers and for every rule list and model: the rules only add text
    before and after it. *)
Theorem engineered_prompt_keeps_prompt
  (prompt : string) (rules : option (list string)) (target_model : string)
  (request_data : Http.Request.t) :
  let tool :=
    Tool.Result.engineered_prompt
      (Tool.apply_engineering_rules prompt rules target_model) in
  let http :=
    Http.Response.engineered_prompt (Http.apply_engineering_rules request_data) in
  (wraps prompt tool /\ PyStr.contains prompt tool = true)
  /\ (wraps (request_prompt request_data) http
      /\ PyStr.contains (request_prompt request_data) http = true).
Proof.
  cbn zeta.
  assert (wraps prompt
            (Tool.Result.engineered_prompt
               (Tool.apply_engineering_rules prompt rules target_model))) as Htool.
  { unfold Tool.apply_engineering_rules, Tool.run_rules. cbn zeta.
    cbn [Tool.Result.engineered_prompt].
    apply tool_run_rules_keeps, tool_keeps_1, wraps_refl. }
  assert (wraps (request_prompt request_data)
            (Http.Response.engineered_prompt
               (Http.apply_engineering_rules request_data))) as Hhttp.
  { unfold Http.apply_engineering_rules. cbn zeta.
    cbn [Http.Response.engineered_prompt]. apply http_run_rules_keeps. }
  split; (split; [assumption | now apply wraps_contains]).
Qed.

(** X8.  When the rule list names [expert_system] or [auto_optimize]
    (the default of an omitted list), the MCP tool server applies
    [expert_system] first, the engineered prompt holds the persona
    preamble, the label and the raw prompt in a row, it is at least 848
    characters longer than the raw prompt, and so it differs from it. *)
Theorem expert_system_wraps_prompt
  (prompt : string) (rules : option (list string)) (target_model : string) :
  let requested := get rules ["auto_optimize"] in
  let result := Tool.apply_engineering_rules prompt rules target_model in
  PyStr.mem "expert_system" requested || PyStr.mem "auto_optimize" requested
  = true ->
  hd_error (Tool.Result.rules_applied result) = Some "expert_system"
  /\ wraps (Texts.expert_prompt ++ Texts.user_request_label ++ prompt)
       (Tool.Result.engineered_prompt result)
  /\ PyStr.len prompt + 848 <= PyStr.len (Tool.Result.engineered_prompt result)
  /\ Tool.Result.engineered_prompt result <> prompt.
Proof.
  intros requested result Hgate.
  assert (wraps (Texts.expert_prompt ++ Texts.user_request_label ++ prompt)
            (Tool.Result.engineered_prompt result)) as Hwraps.
  { subst result. unfold Tool.apply_engineering_rules, Tool.run_rules.
    cbn zeta. cbn [Tool.Result.engineered_prompt].
    apply tool_run_rules_keeps.
    unfold Tool.rule_expert_system. fold requested.
    replace (match rules with Some rules0 => rules0 | None => ["auto_optimize"] end)
      with requested by (subst requested; now destruct rules).
    rewrite Hgate. cbn [apply_expert_system Acc.engineered_prompt].
    apply wraps_refl. }
  assert (PyStr.len prompt + 848 <= PyStr.len (Tool.Result.engineered_prompt result))
    as Hlen.
  { apply wraps_len in Hwraps. rewrite !len_append in Hwraps.
    change (PyStr.len Texts.expert_prompt) with 832 in Hwraps.
    change (PyStr.len Texts.user_request_label) with 16 in Hwraps. lia. }
  split; [|split; [exact Hwraps | split; [exact Hlen|]]].
  - subst result. rewrite tool_rules_applied_closed_form. fold requested.
    cbn [Rule.all filter tool_fires]. now rewrite Hgate.
  - intros Heq. rewrite Heq in Hlen. lia.
Qed.

Lemma expert_system_wraps_prompt_witness :
  let result := Tool.apply_engineering_rules "Hello" None "general" in
  hd_error (Tool.Result.rules_applied result) = Some "expert_system"
  /\ wraps (Texts.expert_prompt ++ Texts.user_request_label ++ "Hello")
       (Tool.Result.engineered_prompt result)
  /\ PyStr.len "Hello" + 848 <= PyStr.len (Tool.Result.engineered_prompt result)
  /\ Tool.Result.engineered_prompt result <> "Hello".
Proof.
  apply (expert_system_wraps_prompt "Hello" None "general"). reflexivity.
Defined.

(* ================================================================== *)
(** ** Letter case *)

Lemma lower_char_continuation (c : ascii) :
  PyStr.is_continuation (PyStr.lower_char c) = PyStr.is_continuation c.
Proof. destruct c as [[] [] [] [] [] [] [] []]; reflexivity. Qed.

Lemma lower_char_isspace (c : ascii) :
  PyStr.isspace (PyStr.lower_char c) = PyStr.isspace c.
Proof. destruct c as [[] [] [] [] [] [] [] []]; reflexivity. Qed.

Lemma lower_char_question (c : ascii) :
  Ascii.eqb (PyStr.lower_char c) "?" = Ascii.eqb c "?".
Proof. destruct c as [[] [] [] [] [] [] [] []]; reflexivity. Qed.

Lemma lower_char_idempotent (c : ascii) :
  PyStr.lower_char (PyStr.lower_char c) = PyStr.lower_char c.
Proof. destruct c as [[] [] [] [] [] [] [] []]; reflexivity. Qed.

Lemma lower_idempotent (s : string) :
  PyStr.lower (PyStr.lower s) = PyStr.lower s.
Proof.
  induction s as [|c s IH]; cbn [PyStr.lower]; [reflexivity|].
  now rewrite lower_char_idempotent, IH.
Qed.

Lemma len_lower (s : string) : PyStr.len (PyStr.lower s) = PyStr.len s.
Proof.
  induction s as [|c s IH]; cbn [PyStr.lower PyStr.len]; [reflexivity|].
  now rewrite lower_char_continuation, IH.
Qed.

Lemma count_lower (s : string) :
  PyStr.count "?" (PyStr.lower s) = PyStr.count "?" s.
Proof.
  induction s as [|c s IH]; cbn [PyStr.lower PyStr.count]; [reflexivity|].
  now rewrite lower_char_question, IH.
Qed.

Lemma rev_string_lower (acc s : string) :
  PyStr.rev_string (PyStr.lower acc) (PyStr.lower s)
  = PyStr.lower (PyStr.rev_string acc s).
Proof.
  revert acc. induction s as [|c s IH]; intros acc;
    cbn [PyStr.lower PyStr.rev_string]; [reflexivity|].
  apply (IH (String c acc)).
Qed.

Lemma flush_lower (cur : string) (words : list string) :
  PyStr.flush (PyStr.lower cur) (map PyStr.lower words)
  = map PyStr.lower (PyStr.flush cur words).
Proof.
  destruct cur as [|c cur]; [reflexivity|].
  cbn [PyStr.lower PyStr.flush map]. f_equal.
  apply (rev_string_lower "" (String c cur)).
Qed.

Lemma split_from_lower (cur s : string) :
  PyStr.split_from (PyStr.lower cur) (PyStr.lower s)
  = map PyStr.lower (PyStr.split_from cur s).
Proof.
  revert cur. induction s as [|c s IH]; intros cur;
    cbn [PyStr.lower PyStr.split_from].
  - apply (flush_lower cur []).
  - rewrite lower_char_isspace. destruct (PyStr.isspace c).
    + rewrite <- flush_lower. f_equal. apply (IH "").
    + apply (IH (String c cur)).
Qed.

Lemma split_lower (s : string) :
  PyStr.split (PyStr.lower s) = map PyStr.lower (PyStr.split s).
Proof. apply (split_from_lower "" s). Qed.

Lemma word_count_lower (s : string) :
  List.length (PyStr.split (PyStr.lower s)) = List.length (PyStr.split s).
Proof. rewrite split_lower. apply length_map. Qed.

Lemma long_words_lower (s : string) :
  List.length (long_words (PyStr.lower s)) = List.length (long_words s).
Proof.
  unfold long_words. rewrite split_lower.
  induction (PyStr.split s) as [|w ws IH]; [reflexivity|].
  cbn [map filter]. rewrite len_lower.
  destruct (3 <? PyStr.len w); cbn [List.length]; now rewrite IH.
Qed.

Lemma analyze_lower (prompt : string) :
  analyze_prompt_structure (PyStr.lower prompt)
  = analyze_prompt_structure prompt.
Proof.
  unfold analyze_prompt_structure.
  now rewrite lower_idempotent, len_lower, word_count_lower, count_lower,
    long_words_lower.
Qed.

(** X9.  The analysis does not depend on the case of ASCII letters:
    two prompts with the same lowered text have the same analysis,
    length, word count and clarity score included. *)
Theorem analysis_ignores_letter_case (p q : string) :
  PyStr.lower p = PyStr.lower q ->
  analyze_prompt_structure p = analyze_prompt_structure q.
Proof.
  intros H. rewrite <- (analyze_lower p), <- (analyze_lower q). now rewrite H.
Qed.

Lemma analysis_ignores_letter_case_witness :
  analyze_prompt_structure "EXPLAIN why Code Fails?"
  = analyze_prompt_structure "explain WHY code fails?".
Proof.
  apply (analysis_ignores_letter_case
           "EXPLAIN why Code Fails?" "explain WHY code fails?").
  reflexivity.
Defined.

Lemma tool_few_shot_lower (p q : string) :
  PyStr.lower p = PyStr.lower q ->
  Tool.generate_few_shot_examples p = Tool.generate_few_shot_examples q.
Proof. intros H. unfold Tool.generate_few_shot_examples. now rewrite H. Qed.

Lemma tool_role_lower (p q : string) :
  PyStr.lower p = PyStr.lower q ->
  Tool.determine_expert_role p = Tool.determine_expert_role q.
Proof. intros H. unfold Tool.determine_expert_role. now rewrite H. Qed.

Lemma http_few_shot_lower (p q : string) :
  PyStr.lower p = PyStr.lower q ->
  Http.generate_few_shot_examples p = Http.generate_few_shot_examples q.
Proof. intros H. unfold Http.generate_few_shot_examples. now rewrite H. Qed.

Lemma http_role_lower (p q : string) :
  PyStr.lower p = PyStr.lower q ->
  Http.determine_expert_role p = Http.determine_expert_role q.
Proof. intros H. unfold Http.determine_expert_role. now rewrite H. Qed.

(** X10.  Neither does the outcome of the MCP tool server: for two
    prompts with the same lowered text it reports the same analysis,
    the same rules applied, the same recommendations and the same
    score. *)
Theorem engine_ignores_letter_case
  (p q : string) (rules : option (list string)) (target_model : string) :
  PyStr.lower p = PyStr.lower q ->
  let a := Tool.apply_engineering_rules p rules target_model in
  let b := Tool.apply_engineering_rules q rules target_model in
  Tool.Result.analysis a = Tool.Result.analysis b
  /\ Tool.Result.rules_applied a = Tool.Result.rules_applied b
  /\ Tool.Result.recommendations a = Tool.Result.recommendations b
  /\ Tool.Result.optimization_score a = Tool.Result.optimization_score b.
Proof.
  intros H a b. subst a b.
  unfold Tool.apply_engineering_rules. cbn zeta.
  cbn [Tool.Result.analysis Tool.Result.rules_applied
       Tool.Result.recommendations Tool.Result.optimization_score].
  rewrite !tool_run_rules_names.
  rewrite <- (analyze_lower p), <- (analyze_lower q), H.
  assert (forall rs an r, tool_fires p target_model an rs r
                          = tool_fires q target_model an rs r) as Hfires.
  { intros rs an r. unfold tool_fires.
    now rewrite (tool_few_shot_lower p q H), (tool_role_lower p q H). }
  rewrite (filter_ext _ _ (Hfires _ _)).
  repeat split; reflexivity.
Qed.

Lemma engine_ignores_letter_case_witness :
  let a := Tool.apply_engineering_rules "EXPLAIN why Code Fails?" None "gpt-4" in
  let b := Tool.apply_engineering_rules "explain WHY code fails?" None "gpt-4" in
  Tool.Result.analysis a = Tool.Result.analysis b
  /\ Tool.Result.rules_applied a = Tool.Result.rules_applied b
  /\ Tool.Result.recommendations a = Tool.Result.recommendations b
  /\ Tool.Result.optimization_score a = Tool.Result.optimization_score b.
Proof.
  apply (engine_ignores_letter_case
           "EXPLAIN why Code Fails?" "explain WHY code fails?" None "gpt-4").
  reflexivity.
Defined.

(* ================================================================== *)
(** ** Prompts of white space only *)

Lemma blank_lower (s : string) : blank s = true -> blank (PyStr.lower s) = true.
Proof.
  induction s as [|c s IH]; cbn [blank PyStr.lower]; [reflexivity|].
  rewrite lower_char_isspace. intros H. apply andb_true_iff in H as [Hc Hs].
  now rewrite Hc, IH.
Qed.

Lemma blank_split_from (s : string) :
  blank s = true -> PyStr.split_from "" s = [].
Proof.
  induction s as [|c s IH]; cbn [blank PyStr.split_from]; [reflexivity|].
  intros H. apply andb_true_iff in H as [Hc Hs].
  rewrite Hc. cbn [PyStr.flush]. now apply IH.
Qed.

Lemma blank_count (s : string) : blank s = true -> PyStr.count "?" s = 0.
Proof.
  induction s as [|c s IH]; cbn [blank PyStr.count]; [reflexivity|].
  intros H. apply andb_true_iff in H as [Hc Hs]. rewrite (IH Hs).
  destruct (Ascii.eqb_spec c "?") as [->|]; [discriminate Hc | reflexivity].
Qed.

(** A word that starts with another character than white space does not
    occur in a blank string. *)
Lemma blank_contains (s : string) (a : ascii) (word : string) :
  blank s = true -> PyStr.isspace a = false ->
  PyStr.contains (String a word) s = false.
Proof.
  intros H Ha. revert H. induction s as [|c s IH]; cbn [blank PyStr.contains PyStr.startswith];
    [reflexivity|].
  intros H. apply andb_true_iff in H as [Hc Hs]. rewrite (IH Hs).
  destruct (Ascii.eqb_spec a c) as [->|]; [congruence | reflexivity].
Qed.

Lemma analyze_blank (s : string) :
  blank s = true ->
  analyze_prompt_structure s
  = {| Analysis.length := PyStr.len s;
       Analysis.word_count := 0;
       Analysis.has_clear_task := false;
       Analysis.has_context := false;
       Analysis.has_examples := false;
       Analysis.has_constraints := false;
       Analysis.question_count := 0;
       Analysis.needs_reasoning := false;
       Analysis.needs_examples := false;
       Analysis.needs_expertise := false;
       Analysis.needs_structure := false;
       Analysis.clarity_score := (#0.0)%py |}.
Proof.
  intros H. pose proof (blank_lower s H) as Hl.
  unfold analyze_prompt_structure, long_words, PyStr.split, any_in.
  cbn [existsb].
  rewrite (blank_split_from s H), (blank_count s H).
  rewrite !(fun a w => blank_contains _ a w Hl) by reflexivity.
  reflexivity.
Qed.

Lemma tool_few_shot_blank (s : string) :
  blank s = true -> Tool.generate_few_shot_examples s = "".
Proof.
  intros H. pose proof (blank_lower s H) as Hl.
  unfold Tool.generate_few_shot_examples, any_in. cbn [existsb].
  rewrite !(fun a w => blank_contains _ a w Hl) by reflexivity. reflexivity.
Qed.

Lemma tool_role_blank (s : string) :
  blank s = true -> Tool.determine_expert_role s = "".
Proof.
  intros H. pose proof (blank_lower s H) as Hl.
  unfold Tool.determine_expert_role, any_in. cbn [existsb].
  rewrite !(fun a w => blank_contains _ a w Hl) by reflexivity. reflexivity.
Qed.

(** X11.  A prompt of white space only is handled as the empty prompt:
    it has no words and clarity 0.0, and for every rule list and model
    the MCP tool server applies the same rules, makes the same
    recommendations and gives the same score as for the empty prompt;
    [few_shot] and [role_play] are never applied to it, even on
    request. *)
Theorem blank_prompt_as_empty_prompt
  (prompt : string) (rules : option (list string)) (target_model : string) :
  blank prompt = true ->
  let result := Tool.apply_engineering_rules prompt rules target_model in
  let empty := Tool.apply_engineering_rules "" rules target_model in
  Analysis.word_count (Tool.Result.analysis result) = 0
  /\ Analysis.clarity_score (Tool.Result.analysis result) = (#0.0)%py
  /\ Tool.Result.rules_applied result = Tool.Result.rules_applied empty
  /\ Tool.Result.recommendations result = Tool.Result.recommendations empty
  /\ Tool.Result.optimization_score result
     = Tool.Result.optimization_score empty
  /\ ~ In "few_shot" (Tool.Result.rules_applied result)
  /\ ~ In "role_play" (Tool.Result.rules_applied result).
Proof.
  intros H result empty.
  assert (Tool.Result.rules_applied result = Tool.Result.rules_applied empty)
    as Hrules.
  { subst result empty. rewrite !tool_rules_applied_closed_form.
    rewrite (analyze_blank prompt H), (analyze_blank "" eq_refl).
    f_equal. apply filter_ext. intros rule. unfold tool_fires.
    now rewrite (tool_few_shot_blank prompt H), (tool_few_shot_blank "" eq_refl),
      (tool_role_blank prompt H), (tool_role_blank "" eq_refl). }
  assert (forall name, PyStr.mem name ["few_shot"; "role_play"] = true ->
                       ~ In name (Tool.Result.rules_applied result)) as Hnot.
  { intros name Hname Hin. subst result.
    rewrite tool_rules_applied_closed_form in Hin.
    apply in_map_iff in Hin as (rule & <- & Hin).
    apply filter_In in Hin as [_ Hfires]. unfold tool_fires in Hfires.
    rewrite (tool_few_shot_blank prompt H), (tool_role_blank prompt H) in Hfires.
    destruct rule; try discriminate Hname;
      rewrite andb_false_r in Hfires; discriminate Hfires. }
  pose proof (Hnot "few_shot" eq_refl) as Hfew.
  pose proof (Hnot "role_play" eq_refl) as Hrole.
  clear Hnot. subst result empty.
  unfold Tool.apply_engineering_rules in *. cbn zeta in *.
  cbn [Tool.Result.analysis Tool.Result.rules_applied
       Tool.Result.recommendations Tool.Result.optimization_score] in *.
  repeat split; try assumption.
  - now rewrite (analyze_blank prompt H).
  - now rewrite (analyze_blank prompt H).
  - now rewrite (analyze_blank prompt H), (analyze_blank "" eq_refl).
  - rewrite Hrules.
    now rewrite (analyze_blank prompt H), (analyze_blank "" eq_refl).
Qed.

Lemma blank_prompt_as_empty_prompt_witness :
  let prompt := String (ascii_of_nat 32) (String (ascii_of_nat 9) PyStr.nl) in
  let result := Tool.apply_engineering_rules prompt None "general" in
  let empty := Tool.apply_engineering_rules "" None "general" in
  Analysis.word_count (Tool.Result.analysis result) = 0
  /\ Analysis.clarity_score (Tool.Result.analysis result) = (#0.0)%py
  /\ Tool.Result.rules_applied result = Tool.Result.rules_applied empty
  /\ Tool.Result.recommendations result = Tool.Result.recommendations empty
  /\ Tool.Result.optimization_score result
     = Tool.Result.optimization_score empty
  /\ ~ In "few_shot" (Tool.Result.rules_applied result)
  /\ ~ In "role_play" (Tool.Result.rules_applied result).
Proof.
  apply (blank_prompt_as_empty_prompt
           (String (ascii_of_nat 32) (String (ascii_of_nat 9) PyStr.nl))
           None "general").
  reflexivity.
Defined.

(* ================================================================== *)
(** ** Recommendations *)

(** A recommendation that advises a rule is made only when the analysis
    asks for the rule. *)
Lemma recommendation_asks
  (analysis : Analysis.t) (original_prompt : string) (rules : list string) :
  let recommendations :=
    generate_recommendations analysis original_prompt rules in
  (In Texts.rec_structured recommendations ->
   Analysis.needs_structure analysis = true)
  /\ (In Texts.rec_reasoning recommendations ->
      Analysis.needs_reasoning analysis = true).
Proof.
  unfold generate_recommendations.
  destruct (Analysis.clarity_score analysis <? #0.5)%py,
    (negb (Analysis.has_examples analysis) && Analysis.needs_examples analysis),
    (negb (Analysis.has_constraints analysis)
     && (20 <? Analysis.word_count analysis)),
    (Analysis.needs_structure analysis),
    (Analysis.needs_reasoning analysis),
    (PyStr.mem "structured_output" rules),
    (PyStr.mem "chain_of_thought" rules);
    cbn [andb negb append app]; split; intros Hin;
    try reflexivity;
    apply mem_In in Hin; vm_compute in Hin; discriminate Hin.
Qed.

(** X12.  Under [auto_optimize] (the default), whenever the MCP tool
    server recommends structured output or step-by-step reasoning, it
    has applied that very rule in the same result: the recommendation
    looks for the name of the rule in the request, not in the rules
    applied. *)
Theorem tool_recommends_applied_rule
  (prompt : string) (rules : option (list string)) (target_model : string)
  (rule : Rule.t) (text : string) :
  let result := Tool.apply_engineering_rules prompt rules target_model in
  recommendation_of rule = Some text ->
  PyStr.mem "auto_optimize" (get rules ["auto_optimize"]) = true ->
  In text (Tool.Result.recommendations result) ->
  In (Rule.name rule) (Tool.Result.rules_applied result).
Proof.
  intros result Hrule Hauto Hin. subst result.
  rewrite tool_rules_applied_closed_form. apply in_fired.
  unfold Tool.apply_engineering_rules in Hin. cbn zeta in Hin.
  cbn [Tool.Result.recommendations] in Hin.
  replace (match rules with Some rules0 => rules0 | None => ["auto_optimize"] end)
    with (get rules ["auto_optimize"]) in Hin by now destruct rules.
  destruct (recommendation_asks (analyze_prompt_structure prompt) prompt
              (get rules ["auto_optimize"])) as [Hstructure Hreasoning].
  destruct rule; try discriminate Hrule;
    injection Hrule as <-; unfold tool_fires; rewrite Hauto.
  - rewrite (Hreasoning Hin). apply orb_true_r.
  - rewrite (Hstructure Hin). apply orb_true_r.
Qed.

Lemma tool_recommends_applied_rule_witness :
  let result := Tool.apply_engineering_rules "Explain why the sky is blue" None "general" in
  In (Rule.name Rule.chain_of_thought) (Tool.Result.rules_applied result).
Proof.
  apply (tool_recommends_applied_rule
           "Explain why the sky is blue" None "general"
           Rule.chain_of_thought Texts.rec_reasoning).
  - reflexivity.
  - reflexivity.
  - refine (proj1 (mem_In _ _) _). vm_compute. reflexivity.
Defined.

(** X13.  In the HTTP server this holds for every request: a response
    that recommends structured output or step-by-step reasoning lists
    the rule among the rules applied. *)
Theorem http_recommends_applied_rule
  (request_data : Http.Request.t) (rule : Rule.t) (text : string) :
  let response := Http.apply_engineering_rules request_data in
  recommendation_of rule = Some text ->
  In text (Http.Response.recommendations response) ->
  In (Rule.name rule) (Http.Response.rules_applied response).
Proof.
  intros response Hrule Hin. subst response.
  rewrite http_rules_applied_closed_form. apply in_fired.
  unfold Http.apply_engineering_rules in Hin. cbn zeta in Hin.
  cbn [Http.Response.recommendations] in Hin.
  unfold Http.generate_recommendations in Hin.
  fold (request_prompt request_data) in Hin.
  destruct (recommendation_asks
              (analyze_prompt_structure (request_prompt request_data))
              (request_prompt request_data)
              (get (Http.Config.apply_rules
                      (get (Http.Request.config request_data)
                           {| Http.Config.model := None;
                              Http.Config.apply_rules := None |})) []))
    as [Hstructure Hreasoning].
  destruct rule; try discriminate Hrule;
    injection Hrule as <-; unfold http_fires.
  - rewrite (Hreasoning Hin). apply orb_true_r.
  - rewrite (Hstructure Hin). apply orb_true_r.
Qed.

Lemma http_recommends_applied_rule_witness :
  let response :=
    Http.apply_engineering_rules
      (Http.request "Explain why the sky is blue" [] "general") in
  In (Rule.name Rule.chain_of_thought) (Http.Response.rules_applied response).
Proof.
  apply (http_recommends_applied_rule
           (Http.request "Explain why the sky is blue" [] "general")
           Rule.chain_of_thought Texts.rec_reasoning).
  - reflexivity.
  - refine (proj1 (mem_In _ _) _). vm_compute. reflexivity.
Defined.

(* ================================================================== *)
(** ** The tools listed and the tools handled *)

Lemma listed_names :
  map Listing.McpTool.name Listing.handle_list_tools
  = ["validate_prompt"; "analyze_prompt_quality"; "get_optimization_suggestions"].
Proof. reflexivity. Qed.

Ltac handler_cases name :=
  unfold Handler.handle_call_tool;
  destruct (String.eqb_spec name "validate_prompt") as [->|Hv];
  [|destruct (String.eqb_spec name "analyze_prompt_quality") as [->|Ha];
    [|destruct (String.eqb_spec name "get_optimization_suggestions") as [->|Hs]]];
  cbn zeta.

Ltac run_handler :=
  unfold Handler.bind, Handler.ret, Handler.call_engine, Handler.logger_info,
    Handler.no_prompt_error, Handler.text_content;
  cbn [fst snd app].

(** X14.  Whatever the tool name and the arguments are, the handler
    returns exactly one content item of type "text".  Its text starts
    with "Error: " exactly when the call left no trace, that is when
    the engine was not called and nothing was logged. *)
Theorem handler_returns_one_text
  (name : string) (arguments : option Handler.Arguments.t) :
  let outcome := Handler.handle_call_tool name arguments in
  exists text,
    snd outcome = [Handler.text_content text]
    /\ (PyStr.startswith "Error: " text = true <-> fst outcome = []).
Proof.
  handler_cases name.
  - destruct (get (Handler.Arguments.prompt (get arguments Handler.Arguments.empty)) "")
      as [|c prompt]; cbn [PyStr.truthy negb]; run_handler;
      eexists; (split; [reflexivity|]); split; intros H;
      first [reflexivity | discriminate H].
  - destruct (get (Handler.Arguments.prompt (get arguments Handler.Arguments.empty)) "")
      as [|c prompt]; cbn [PyStr.truthy negb]; run_handler;
      eexists; (split; [reflexivity|]); split; intros H;
      first [reflexivity | discriminate H].
  - destruct (get (Handler.Arguments.prompt (get arguments Handler.Arguments.empty)) "")
      as [|c prompt]; cbn [PyStr.truthy negb]; run_handler;
      eexists; (split; [reflexivity|]); split; intros H;
      first [reflexivity | discriminate H].
  - run_handler. eexists. split; [reflexivity|]. split; reflexivity.
Qed.

Lemma present_get {A : Type} (field : option A) (default : A) :
  present field = false -> get field default = default.
Proof. now destruct field. Qed.

(** X15.  The handler enforces what the listing declares as required:
    for every listed tool, a call without a key that its schema
    requires, or without arguments at all, is answered with "Error: No
    prompt provided", without calling the engine and without a log
    line. *)
Theorem listed_tools_require_their_required_keys
  (tool : Listing.McpTool.t) (key : string) (arguments : Handler.Arguments.t) :
  In tool Listing.handle_list_tools ->
  In key (Listing.InputSchema.required (Listing.McpTool.inputSchema tool)) ->
  Listing.has_key arguments key = false ->
  Handler.handle_call_tool (Listing.McpTool.name tool) (Some arguments)
  = ([], [Handler.text_content "Error: No prompt provided"])
  /\ Handler.handle_call_tool (Listing.McpTool.name tool) None
     = ([], [Handler.text_content "Error: No prompt provided"]).
Proof.
  intros Htool Hkey Hmissing.
  destruct Htool as [<-|[<-|[<-|[]]]];
    destruct Hkey as [<-|[]];
    cbn [Listing.has_key String.eqb Ascii.eqb Bool.eqb] in Hmissing;
    (split; [|reflexivity]);
    cbn [Listing.McpTool.name];
    unfold Handler.handle_call_tool;
    cbn [String.eqb Ascii.eqb Bool.eqb get];
    rewrite (present_get _ "" Hmissing); reflexivity.
Qed.

Lemma listed_tools_require_their_required_keys_witness :
  Handler.handle_call_tool "analyze_prompt_quality"
    (Some {| Handler.Arguments.prompt := None;
             Handler.Arguments.rules := Some ["few_shot"];
             Handler.Arguments.model := Some "gpt-4";
             Handler.Arguments.focus_area := None |})
  = ([], [Handler.text_content "Error: No prompt provided"])
  /\ Handler.handle_call_tool "analyze_prompt_quality" None
     = ([], [Handler.text_content "Error: No prompt provided"]).
Proof.
  apply (listed_tools_require_their_required_keys
           (nth 1 Listing.handle_list_tools
                (Listing.McpTool.mk "" "" (Listing.InputSchema.mk "" [] [])))
           "prompt"
           {| Handler.Arguments.prompt := None;
              Handler.Arguments.rules := Some ["few_shot"];
              Handler.Arguments.model := Some "gpt-4";
              Handler.Arguments.focus_area := None |}).
  - cbn. right. left. reflexivity.
  - cbn. left. reflexivity.
  - reflexivity.
Defined.

(** X16.  The tools handled are the tools listed: a call is answered
    with "Error: Unknown tool '<name>'" exactly when its name is not
    the name of a tool of [handle_list_tools]. *)
Theorem unknown_tool_iff_not_listed
  (name : string) (arguments : option Handler.Arguments.t) :
  Handler.handle_call_tool name arguments
  = ([], [Handler.text_content ("Error: Unknown tool '" ++ name ++ "'")])
  <-> ~ In name (map Listing.McpTool.name Listing.handle_list_tools).
Proof.
  rewrite listed_names. split.
  - intros Hresult Hin.
    assert (PyStr.startswith "Error: U"
              (Handler.TextContent.text
                 (hd (Handler.text_content "")
                     (snd (Handler.handle_call_tool name arguments)))) = true)
      as Hstarts by now rewrite Hresult.
    clear Hresult. revert Hstarts.
    destruct Hin as [<-|[<-|[<-|[]]]];
      unfold Handler.handle_call_tool; cbn [String.eqb Ascii.eqb Bool.eqb];
      cbn zeta;
      destruct (get (Handler.Arguments.prompt (get arguments Handler.Arguments.empty)) "")
        as [|c prompt]; cbn [PyStr.truthy negb]; run_handler;
      cbn [hd Handler.TextContent.text]; intros H; discriminate H.
  - intros Hnot. handler_cases name.
    + exfalso. apply Hnot. now left.
    + exfalso. apply Hnot. right. now left.
    + exfalso. apply Hnot. right. right. now left.
    + reflexivity.
Qed.

(** X17.  The defaults that the listing declares are the defaults that
    the handler uses: filling the declared defaults into the arguments
    of a call to a listed tool changes neither its result nor its
    trace. *)
Theorem schema_defaults_are_the_defaults_of_the_handler
  (tool : Listing.McpTool.t) (arguments : Handler.Arguments.t) :
  In tool Listing.handle_list_tools ->
  Handler.handle_call_tool (Listing.McpTool.name tool)
    (Some (Listing.with_defaults tool arguments))
  = Handler.handle_call_tool (Listing.McpTool.name tool) (Some arguments).
Proof.
  intros Htool. destruct arguments as [prompt rules model focus_area].
  destruct Htool as [<-|[<-|[<-|[]]]];
    cbn [Listing.McpTool.name]; unfold Handler.handle_call_tool;
    cbn [String.eqb Ascii.eqb Bool.eqb]; cbn zeta;
    destruct prompt, rules, model, focus_area; reflexivity.
Qed.

Lemma schema_defaults_are_the_defaults_of_the_handler_witness :
  let tool :=
    nth 0 Listing.handle_list_tools
        (Listing.McpTool.mk "" "" (Listing.InputSchema.mk "" [] [])) in
  let arguments :=
    {| Handler.Arguments.prompt := Some "Explain why";
       Handler.Arguments.rules := None;
       Handler.Arguments.model := None;
       Handler.Arguments.focus_area := None |} in
  Listing.with_defaults tool arguments
  = {| Handler.Arguments.prompt := Some "Explain why";
       Handler.Arguments.rules := Some ["auto_optimize"];
       Handler.Arguments.model := Some "general";
       Handler.Arguments.focus_area := None |}
  /\ Handler.handle_call_tool (Listing.McpTool.name tool)
       (Some (Listing.with_defaults tool arguments))
     = Handler.handle_call_tool (Listing.McpTool.name tool) (Some arguments).
Proof.
  split; [reflexivity|].
  apply (schema_defaults_are_the_defaults_of_the_handler
           (nth 0 Listing.handle_list_tools
                (Listing.McpTool.mk "" "" (Listing.InputSchema.mk "" [] [])))).
  cbn. left. reflexivity.
Defined.

(* ================================================================== *)
(** ** Suggestions *)

Lemma append_step_length {A : Type} (c : bool) (l : list A) (x : A) (n : nat) :
  List.length l <= n -> List.length (if c then append l x else l) <= S n.
Proof.
  intros H. destruct c; [|lia]. unfold append. rewrite length_app. cbn. lia.
Qed.

Lemma fallback_length {A : Type} (l : list A) (x : A) (n : nat) :
  List.length l <= S n ->
  1 <= List.length (if negb (truthy_list l) then append l x else l) <= S n.
Proof. destruct l; cbn; lia. Qed.

(** X18.  The tool [get_optimization_suggestions] never returns an
    empty list: there are between one and five suggestions, whatever
    the prompt, the focus area and the analysis are. *)
Theorem suggestions_are_never_empty
  (prompt focus_area : string) (analysis : Analysis.t) :
  let suggestions :=
    Handler.optimization_suggestions prompt focus_area analysis in
  1 <= List.length suggestions <= 5.
Proof.
  unfold Handler.optimization_suggestions. cbn zeta.
  apply fallback_length.
  match goal with
  | |- List.length (if ?c then _ else _) <= _ =>
      destruct c; [apply append_step_length | apply Nat.le_le_succ_r]
  end;
    do 4 apply append_step_length; cbn [List.length]; lia.
Qed.

(** X19.  A focus area other than "all", "clarity", "structure",
    "examples", "reasoning" and "expertise" (compared as written, so
    "Clarity" is one) is not refused: the only suggestion is then the
    praise for a well-structured prompt, whatever the prompt is. *)
Theorem unknown_focus_area_gives_the_fallback
  (prompt focus_area : string) (analysis : Analysis.t) :
  PyStr.mem focus_area focus_areas = false ->
  Handler.optimization_suggestions prompt focus_area analysis = [great_prompt].
Proof.
  unfold PyStr.mem, focus_areas. cbn [existsb]. intros H.
  repeat (apply orb_false_iff in H as [? H]).
  unfold Handler.optimization_suggestions. cbn zeta.
  repeat match goal with
         | E : String.eqb focus_area _ = false |- _ => rewrite E; clear E
         end.
  reflexivity.
Qed.

Lemma unknown_focus_area_gives_the_fallback_witness :
  Handler.optimization_suggestions
    "Explain why the code fails" "Clarity"
    (analyze_prompt_structure "Explain why the code fails")
  = [great_prompt].
Proof.
  apply (unknown_focus_area_gives_the_fallback
           "Explain why the code fails" "Clarity"
           (analyze_prompt_structure "Explain why the code fails")).
  reflexivity.
Defined.

(* ================================================================== *)
(** ** Model compatibility *)

(** X20.  The compatibility score takes two values: 0.8, and
    0.8 - 0.1 (0.7000000000000001 in binary64) for a model whose name
    holds "gpt" and a prompt of more than 8000 characters.  A note is
    made for such a prompt, and for a prompt of more than 10000
    characters with a model named "claude" and not "gpt"; an
    optimization hint is given for these two kinds of model only. *)
Theorem compatibility_score_values (prompt model : string) :
  let compatibility := Http.assess_model_compatibility prompt model in
  let gpt := PyStr.contains "gpt" (PyStr.lower model) in
  let claude := PyStr.contains "claude" (PyStr.lower model) in
  let penalised := gpt && (8000 <? Z.of_nat (PyStr.len prompt))%Z in
  Http.Compatibility.score compatibility
  = (if penalised then (#0.7000000000000001)%py else (#0.8)%py)
  /\ truthy_list (Http.Compatibility.notes compatibility)
     = penalised
       || (negb gpt && claude && (10000 <? Z.of_nat (PyStr.len prompt))%Z)
  /\ truthy_list (Http.Compatibility.optimizations compatibility)
     = gpt || claude.
Proof.
  unfold Http.assess_model_compatibility. cbn zeta.
  destruct (PyStr.contains "gpt" (PyStr.lower model));
    [|destruct (PyStr.contains "claude" (PyStr.lower model))];
    try destruct (8000 <? Z.of_nat (PyStr.len prompt))%Z;
    try destruct (10000 <? Z.of_nat (PyStr.len prompt))%Z;
    repeat split; reflexivity.
Qed.

Lemma http_expert_system_wraps (request_data : Http.Request.t) :
  PyStr.mem "expert_system" (request_rules request_data)
  || PyStr.mem "auto_optimize" (request_rules request_data) = true ->
  wraps (Texts.expert_prompt ++ Texts.user_request_label
           ++ request_prompt request_data)
    (Http.Response.engineered_prompt (Http.apply_engineering_rules request_data)).
Proof.
  intros Hgate. unfold Http.apply_engineering_rules, Http.run_rules. cbn zeta.
  cbn [Http.Response.engineered_prompt].
  fold (request_prompt request_data). fold (request_rules request_data).
  apply http_keeps_8, http_keeps_7, http_keeps_6, http_keeps_5,
    http_keeps_4, http_keeps_3, http_keeps_2.
  unfold Http.rule_expert_system. rewrite Hgate.
  cbn [apply_expert_system Acc.engineered_prompt]. apply wraps_refl.
Qed.

(** X21.  The HTTP server measures the engineered prompt, not the raw
    one: for a model named "gpt", a raw prompt whose length plus the
    848 characters that [expert_system] adds exceeds 8000 is marked as
    a long prompt, with the lower score. *)
Theorem compatibility_counts_the_added_text (request_data : Http.Request.t) :
  let response := Http.apply_engineering_rules request_data in
  let rules := request_rules request_data in
  let added :=
    if PyStr.mem "expert_system" rules || PyStr.mem "auto_optimize" rules
    then 848 else 0 in
  PyStr.contains "gpt" (PyStr.lower (request_model request_data)) = true ->
  (8000 < Z.of_nat (PyStr.len (request_prompt request_data) + added))%Z ->
  Http.Response.model_compatibility response
  = {| Http.Compatibility.score := (#0.7000000000000001)%py;
       Http.Compatibility.notes :=
         ["Long prompt - consider breaking into smaller chunks"];
       Http.Compatibility.optimizations :=
         ["Well-suited for creative and analytical tasks"] |}.
Proof.
  intros response rules added Hgpt Hlong.
  assert (8000 < Z.of_nat (PyStr.len (Http.Response.engineered_prompt response)))%Z
    as Hlen.
  { subst added rules.
    destruct (PyStr.mem "expert_system" (request_rules request_data)
              || PyStr.mem "auto_optimize" (request_rules request_data)) eqn:Hgate.
    - pose proof (wraps_len _ _ (http_expert_system_wraps request_data Hgate))
        as Hle.
      rewrite !len_append in Hle.
      change (PyStr.len Texts.expert_prompt) with 832 in Hle.
      change (PyStr.len Texts.user_request_label) with 16 in Hle.
      fold response in Hle. lia.
    - pose proof (wraps_len _ _
                    (http_run_rules_keeps (request_prompt request_data)
                       (request_model request_data)
                       (analyze_prompt_structure (request_prompt request_data))
                       (request_rules request_data))) as Hle.
      subst response. unfold Http.apply_engineering_rules. cbn zeta.
      cbn [Http.Response.engineered_prompt].
      fold (request_prompt request_data). fold (request_rules request_data).
      fold (request_model request_data). lia. }
  apply Z.ltb_lt in Hlen. subst response.
  unfold Http.apply_engineering_rules in *. cbn zeta in *.
  cbn [Http.Response.model_compatibility Http.Response.engineered_prompt] in *.
  unfold Http.assess_model_compatibility. cbn zeta.
  unfold request_model in Hgpt. rewrite Hgpt, Hlen. reflexivity.
Qed.

Lemma compatibility_counts_the_added_text_witness :
  Http.Response.model_compatibility
    (Http.apply_engineering_rules
       (Http.request (words_then_question 3600) ["expert_system"] "GPT-4"))
  = {| Http.Compatibility.score := (#0.7000000000000001)%py;
       Http.Compatibility.notes :=
         ["Long prompt - consider breaking into smaller chunks"];
       Http.Compatibility.optimizations :=
         ["Well-suited for creative and analytical tasks"] |}.
Proof.
  apply (compatibility_counts_the_added_text
           (Http.request (words_then_question 3600) ["expert_system"] "GPT-4")).
  - reflexivity.
  - vm_compute. reflexivity.
Defined.

(* ================================================================== *)
(** ** The endpoint *)


(* ================================================================== *)
(** ** Asking for more rules *)

Lemma filter_length_le_pointwise {A : Type} (f g : A -> bool) (l : list A) :
  (forall x, f x = true -> g x = true) ->
  List.length (filter f l) <= List.length (filter g l).
Proof.
  intros Hfg. induction l as [|x l IH]; cbn [filter]; [lia|].
  destruct (f x) eqn:Ef.
  - rewrite (Hfg x Ef). cbn [List.length]. lia.
  - destruct (g x); cbn [List.length]; lia.
Qed.

(** The score by the number of rules applied. *)
Lemma score_le_by_count (analysis : Analysis.t) (n1 n2 : nat) :
  n1 <= n2 ->
  (PyFloat.min (#1.0) (base_score analysis + rule_bonus n1)
   <=? PyFloat.min (#1.0) (base_score analysis + rule_bonus n2))%py = true.
Proof.
  intros Hle. rewrite (rule_bonus_min n1), (rule_bonus_min n2).
  assert (Nat.min n1 5 <= Nat.min n2 5) as H12 by lia.
  assert (Nat.min n2 5 <= 5) as H2 by lia.
  generalize dependent (Nat.min n2 5). intros k2.
  generalize (Nat.min n1 5). intros k1 H12 H2.
  unfold base_score.
  flags analysis; upto5 k2; upto5 k1; try (exfalso; lia); vm_compute; reflexivity.
Qed.

Lemma mem_incl (x : string) (rules rules' : list string) :
  incl rules rules' -> PyStr.mem x rules = true -> PyStr.mem x rules' = true.
Proof. intros Hincl H. apply mem_In. apply Hincl. now apply mem_In. Qed.

Ltac gate_atoms analysis rules :=
  repeat match goal with
         | |- context [PyStr.mem ?x rules] => destruct (PyStr.mem x rules)
         | |- context [Analysis.needs_reasoning analysis] =>
             destruct (Analysis.needs_reasoning analysis)
         | |- context [Analysis.needs_examples analysis] =>
             destruct (Analysis.needs_examples analysis)
         | |- context [Analysis.needs_expertise analysis] =>
             destruct (Analysis.needs_expertise analysis)
         | |- context [Analysis.needs_structure analysis] =>
             destruct (Analysis.needs_structure analysis)
         | |- context [(Analysis.clarity_score analysis <? ?c)%py] =>
             destruct (Analysis.clarity_score analysis <? c)%py
         | |- context [PyStr.truthy ?t] => destruct (PyStr.truthy t)
         | |- context [Http.truthy ?t] => destruct (Http.truthy t)
         end.

Ltac more_mem Hincl :=
  repeat match goal with
         | H : PyStr.mem ?x _ = true |- _ =>
             rewrite (mem_incl x _ _ Hincl H); clear H
         end.

Lemma tool_fires_incl
  (raw_prompt target_model : string) (analysis : Analysis.t)
  (rules rules' : list string) (rule : Rule.t) :
  incl rules rules' ->
  tool_fires raw_prompt target_model analysis rules rule = true ->
  tool_fires raw_prompt target_model analysis rules' rule = true.
Proof.
  intros Hincl. unfold tool_fires. destruct rule;
    repeat match goal with
           | |- context [PyStr.mem ?x rules] =>
               let E := fresh "E" in destruct (PyStr.mem x rules) eqn:E
           end;
    more_mem Hincl; gate_atoms analysis rules';
    cbn [orb andb]; intros H; first [exact H | reflexivity | discriminate H].
Qed.

Lemma http_fires_incl
  (raw_prompt target_model : string) (analysis : Analysis.t)
  (rules rules' : list string) (rule : Rule.t) :
  incl rules rules' ->
  http_fires raw_prompt target_model analysis rules rule = true ->
  http_fires raw_prompt target_model analysis rules' rule = true.
Proof.
  intros Hincl. unfold http_fires. destruct rule;
    repeat match goal with
           | |- context [PyStr.mem ?x rules] =>
               let E := fresh "E" in destruct (PyStr.mem x rules) eqn:E
           end;
    more_mem Hincl; gate_atoms analysis rules';
    cbn [orb andb]; intros H; first [exact H | reflexivity | discriminate H].
Qed.

(** X23.  Asking for more never gives less: when every name of one
    rule list is in another, each server applies under the larger list
    every rule that it applies under the smaller one, and its
    optimization score is at least as high. *)
Theorem more_rules_never_lower_the_score
  (prompt target_model : string) (rules rules' : list string) :
  incl rules rules' ->
  let a := Tool.apply_engineering_rules prompt (Some rules) target_model in
  let b := Tool.apply_engineering_rules prompt (Some rules') target_model in
  let c := Http.apply_engineering_rules (Http.request prompt rules target_model) in
  let d := Http.apply_engineering_rules (Http.request prompt rules' target_model) in
  (incl (Tool.Result.rules_applied a) (Tool.Result.rules_applied b)
   /\ (Tool.Result.optimization_score a
       <=? Tool.Result.optimization_score b)%py = true)
  /\ (incl (Http.Response.rules_applied c) (Http.Response.rules_applied d)
      /\ (Http.Response.optimization_score c
          <=? Http.Response.optimization_score d)%py = true).
Proof.
  intros Hincl a b c d. split; split.
  - subst a b. closed_forms. intros name Hin.
    apply in_map_iff in Hin as (rule & <- & Hin).
    apply filter_In in Hin as [_ Hfires].
    apply in_fired. now apply (tool_fires_incl _ _ _ rules rules').
  - subst a b. unfold Tool.apply_engineering_rules. cbn zeta.
    cbn [Tool.Result.optimization_score]. rewrite !tool_run_rules_names.
    rewrite !score_unfold, !length_map. apply score_le_by_count.
    apply filter_length_le_pointwise. intros rule.
    now apply tool_fires_incl.
  - subst c d. closed_forms. intros name Hin.
    apply in_map_iff in Hin as (rule & <- & Hin).
    apply filter_In in Hin as [_ Hfires].
    apply in_fired. now apply (http_fires_incl _ _ _ rules rules').
  - subst c d. unfold Http.apply_engineering_rules, Http.request. cbn zeta.
    cbn [Http.Response.optimization_score get Http.Request.raw_prompt
         Http.Request.config Http.Config.apply_rules Http.Config.model].
    rewrite !http_run_rules_names.
    rewrite !score_unfold, !length_map. apply score_le_by_count.
    apply filter_length_le_pointwise. intros rule.
    now apply http_fires_incl.
Qed.

Lemma more_rules_never_lower_the_score_witness :
  let a := Tool.apply_engineering_rules "Hello" (Some ["add_testing"]) "general" in
  let b :=
    Tool.apply_engineering_rules "Hello"
      (Some ["expert_system"; "add_testing"; "auto_optimize"]) "general" in
  let c :=
    Http.apply_engineering_rules (Http.request "Hello" ["add_testing"] "general") in
  let d :=
    Http.apply_engineering_rules
      (Http.request "Hello" ["expert_system"; "add_testing"; "auto_optimize"]
         "general") in
  (incl (Tool.Result.rules_applied a) (Tool.Result.rules_applied b)
   /\ (Tool.Result.optimization_score a
       <=? Tool.Result.optimization_score b)%py = true)
  /\ (incl (Http.Response.rules_applied c) (Http.Response.rules_applied d)
      /\ (Http.Response.optimization_score c
          <=? Http.Response.optimization_score d)%py = true).
Proof.
  apply (more_rules_never_lower_the_score "Hello" "general" ["add_testing"]
           ["expert_system"; "add_testing"; "auto_optimize"]).
  intros name Hin. cbn in Hin. cbn. tauto.
Defined.

(* ================================================================== *)
(** ** Keywords inside words *)

Lemma lower_append (s t : string) :
  PyStr.lower (s ++ t) = PyStr.lower s ++ PyStr.lower t.
Proof.
  induction s as [|c s IH]; cbn [PyStr.lower String.append]; [reflexivity|].
  now rewrite IH.
Qed.

Lemma any_in_app (words words' : list string) (text : string) :
  any_in (words ++ words')%list text = any_in words text || any_in words' text.
Proof. apply existsb_app. Qed.

Lemma any_in_In (word : string) (words : list string) (text : string) :
  In word words -> PyStr.contains word text = true -> any_in words text = true.
Proof.
  intros Hin Hc. apply existsb_exists. exists word. now split.
Qed.

(** A keyword makes the lookup of [role_play] find a role. *)
Lemma role_keyword (prompt : string) :
  any_in role_keywords (PyStr.lower prompt) = true ->
  PyStr.truthy (Tool.determine_expert_role prompt) = true.
Proof.
  change role_keywords
    with (["code"; "programming"; "software"; "debug"]
          ++ ["write"; "content"; "marketing"; "copy"]
          ++ ["analyze"; "data"; "research"]
          ++ ["design"; "ui"; "ux"; "interface"]
          ++ ["business"; "strategy"; "plan"])%list.
  rewrite !any_in_app. unfold Tool.determine_expert_role. cbn zeta.
  destruct (any_in ["code"; "programming"; "software"; "debug"] _);
    [reflexivity|].
  destruct (any_in ["write"; "content"; "marketing"; "copy"] _);
    [reflexivity|].
  destruct (any_in ["analyze"; "data"; "research"] _); [reflexivity|].
  destruct (any_in ["design"; "ui"; "ux"; "interface"] _); [reflexivity|].
  destruct (any_in ["business"; "strategy"; "plan"] _); [reflexivity|].
  intros H. discriminate H.
Qed.

(** X24.  The lookup of an expert role searches the lowered prompt for
    its keywords as substrings, not as words: wherever a keyword stands
    in the prompt, in any letter case and also inside a longer word
    ("ui" in "build"), a role is found, and both servers apply
    [role_play] when the request names it. *)
Theorem role_keywords_match_inside_words
  (before word after target_model : string) (rules : list string) :
  In (PyStr.lower word) role_keywords ->
  In "role_play" rules ->
  let prompt := before ++ word ++ after in
  In "role_play"
     (Tool.Result.rules_applied
        (Tool.apply_engineering_rules prompt (Some rules) target_model))
  /\ In "role_play"
        (Http.Response.rules_applied
           (Http.apply_engineering_rules
              (Http.request prompt rules target_model))).
Proof.
  intros Hword Hrule prompt.
  assert (PyStr.truthy (Tool.determine_expert_role prompt) = true) as Hrole.
  { apply role_keyword. apply (any_in_In (PyStr.lower word)); [exact Hword|].
    subst prompt. rewrite !lower_append. apply contains_append. }
  apply mem_In in Hrule. closed_forms.
  split; apply (in_fired _ Rule.role_play); cbn [tool_fires http_fires];
    rewrite ?role_truthy, Hrule, Hrole; reflexivity.
Qed.

Lemma role_keywords_match_inside_words_witness :
  let prompt := "Please b" ++ "UI" ++ "ld a shed" in
  In "role_play"
     (Tool.Result.rules_applied
        (Tool.apply_engineering_rules prompt (Some ["role_play"]) "general"))
  /\ In "role_play"
        (Http.Response.rules_applied
           (Http.apply_engineering_rules
              (Http.request prompt ["role_play"] "general"))).
Proof.
  apply (role_keywords_match_inside_words
           "Please b" "UI" "ld a shed" "general" ["role_play"]).
  - refine (proj1 (mem_In _ _) _). reflexivity.
  - refine (proj1 (mem_In _ _) _). reflexivity.
Defined.
